(** * The transaction risk model of [transaction_risk_model.py]

    A shallow embedding of [TransactionRiskModel] and of the result
    schema of [models/schemas.py].

    - Python floats are modelled as exact rationals ([Q]); binary64
      rounding, infinities and NaN are outside the model.  Every
      operation that would leave the rationals (a zero denominator,
      the mean of an empty sequence) and every operation that can raise
      (a [.loc] lookup of a missing label) returns [None], so the whole
      pipeline lives in the [option] monad: [Some r] means that the
      Python code returns [r] without leaving exact arithmetic.
    - Dictionaries and grouped pandas series are [gmap]s; a data frame
      is the list of its rows.
    - [datetime.utcnow()] is the extra argument [now] of the two
      functions that read the clock. *)

From Stdlib Require Import QArith Qround Lqa ZArith.
From stdpp Require Import gmap strings list fin_maps sorting.

Local Open Scope Q_scope.

(** ** Numbers *)

Definition Qltb (a b : Q) : bool := negb (Qle_bool b a).

(** Python's [max(a, b)] keeps [a] unless [b > a]; [min(a, b)] keeps
    [a] unless [b < a]. *)
Definition py_max (a b : Q) : Q := if Qltb a b then b else a.
Definition py_min (a b : Q) : Q := if Qltb b a then b else a.

Definition round_half_even (x : Q) : Z :=
  let f := Qfloor x in
  match Qcompare (x - inject_Z f) (1 # 2) with
  | Lt => f
  | Gt => (f + 1)%Z
  | Eq => if Z.even f then f else (f + 1)%Z
  end.

Fixpoint pow10 (n : nat) : positive :=
  match n with
  | O => 1%positive
  | S n' => (10 * pow10 n')%positive
  end.

(** [round(x, ndigits)]: the nearest multiple of [10^-ndigits], ties to
    the even one. *)
Definition py_round (x : Q) (ndigits : nat) : Q :=
  round_half_even (x * (Zpos (pow10 ndigits) # 1)) # pow10 ndigits.

(** The guard [1e-6] that the model adds to its denominators. *)
Definition eps : Q := 0.000001.

(** Division; [None] on a zero denominator. *)
Definition div_ (a b : Q) : option Q :=
  if Qeq_bool b 0 then None else Some (a / b).

(** [.sum()] of a column and Python's [sum]. *)
Definition np_sum (l : list Q) : Q := foldr Qplus 0 l.

(** [np.mean]; the mean of an empty sequence is not a number. *)
Definition np_mean (l : list Q) : option Q :=
  match l with
  | [] => None
  | _ => Some (np_sum l / inject_Z (Z.of_nat (length l)))
  end.

(** [np.sqrt], truncated to fifteen decimals of the denominator; exact
    on the squares of such numbers, in particular [np_sqrt 0 = 0]. *)
Definition np_sqrt (x : Q) : Q :=
  Z.sqrt (Qnum x * Zpos (Qden x) * 10 ^ 30) # (Qden x * 10 ^ 15).

(** [np.std]: the population standard deviation. *)
Definition np_std (l : list Q) : option Q :=
  m ← np_mean l;
  v ← np_mean ((λ x, (x - m) * (x - m)) <$> l);
  Some (np_sqrt v).

(** ** Dates *)

Record datetime := {
  dt_year : Z; dt_month : Z; dt_day : Z;
  dt_hour : Z; dt_minute : Z; dt_second : Z; dt_microsecond : Z
}.

Definition _is_leap (year : Z) : bool :=
  (year mod 4 =? 0)%Z && (negb (year mod 100 =? 0)%Z || (year mod 400 =? 0)%Z).

Definition _days_before_year (year : Z) : Z :=
  let y := (year - 1)%Z in (y * 365 + y / 4 - y / 100 + y / 400)%Z.

Definition _DAYS_BEFORE_MONTH : list Z :=
  [0; 0; 31; 59; 90; 120; 151; 181; 212; 243; 273; 304; 334]%Z.

Definition _days_before_month (year month : Z) : Z :=
  (default 0 (_DAYS_BEFORE_MONTH !! Z.to_nat month)
   + (if (2 <? month)%Z && _is_leap year then 1 else 0))%Z.

Definition _ymd2ord (year month day : Z) : Z :=
  (_days_before_year year + _days_before_month year month + day)%Z.

Definition toordinal (d : datetime) : Z :=
  _ymd2ord (dt_year d) (dt_month d) (dt_day d).

(** [date.weekday()]: Monday is 0, Sunday is 6. *)
Definition weekday (d : datetime) : Z := ((toordinal d + 6) mod 7)%Z.

Definition digit (n : Z) : Ascii.ascii :=
  Ascii.ascii_of_nat (48 + Z.to_nat (n mod 10)).

(** [date.strftime('%Y-%m')], both fields zero-padded. *)
Definition strftime_Ym (d : datetime) : string :=
  let y := dt_year d in
  let m := dt_month d in
  String (digit (y / 1000)) (String (digit (y / 100)) (String (digit (y / 10))
    (String (digit y) (String (Ascii.ascii_of_nat 45) (String (digit (m / 10))
      (String (digit m) EmptyString)))))).

(** The position of a datetime on the time line, in microseconds; the
    order in which [sort_values('date')] puts the rows. *)
Definition timestamp (d : datetime) : Z :=
  ((((toordinal d * 24 + dt_hour d) * 60 + dt_minute d) * 60 + dt_second d)
   * 1000000 + dt_microsecond d)%Z.

(** ** Strings *)

Definition lower_ascii (c : Ascii.ascii) : Ascii.ascii :=
  let n := Ascii.nat_of_ascii c in
  if (65 <=? n)%nat && (n <=? 90)%nat then Ascii.ascii_of_nat (n + 32) else c.

(** [str.lower()] on the ASCII letters. *)
Fixpoint lower (s : string) : string :=
  match s with
  | EmptyString => EmptyString
  | String c s' => String (lower_ascii c) (lower s')
  end.

(** [sep.join(l)]. *)
Fixpoint join (sep : string) (l : list string) : string :=
  match l with
  | [] => ""
  | [x] => x
  | x :: rest => x +:+ sep +:+ join sep rest
  end.

(** ** The schema ([models/schemas.py]) *)

Inductive TransactionType := CREDIT | DEBIT.

#[global] Instance TransactionType_eq_dec : EqDecision TransactionType.
Proof. solve_decision. Defined.

#[global] Instance TransactionType_countable : Countable TransactionType.
Proof.
  refine (inj_countable' (λ t, match t with CREDIT => true | DEBIT => false end)
            (λ b : bool, if b then CREDIT else DEBIT) _).
  by intros [].
Defined.

Module RiskCategory.
Inductive t := LOW | MEDIUM | HIGH.
End RiskCategory.

Module SpendingStability.
Inductive t := LOW | MEDIUM | HIGH.

#[global] Instance eq_dec : EqDecision t.
Proof. solve_decision. Defined.
End SpendingStability.

Record Transaction := {
  tx_id : option string;
  tx_user_id : string;
  tx_date : datetime;
  tx_description : string;
  tx_amount : Q;
  tx_type : TransactionType;
  tx_category : string;
  tx_upi_app : option string
}.

Record FinancialSummary := {
  monthly_spendings : gmap string Q;
  monthly_savings : gmap string Q;
  total_savings : Q;
  income_volatility : Q;
  spending_volatility : Q;
  consistency_score : Q;
  transaction_frequency : Z
}.

Record BehavioralPatterns := {
  essential_spending_ratio : Q;
  high_risk_spending_ratio : Q;
  weekend_spending_ratio : Q
}.

(** One value of [income_and_spending_analysis]: the dictionary with
    the keys ['income'], ['spending'] and ['savings_rate']. *)
Record MonthAnalysis := {
  ma_income : Q;
  ma_spending : Q;
  ma_savings_rate : Q
}.

Record BehavioralAnalysis := {
  spending_pattern_distribution : gmap string Q;
  income_and_spending_analysis : gmap string MonthAnalysis;
  spending_stability : SpendingStability.t;
  behavioral_patterns : BehavioralPatterns
}.

Record RiskAssessmentDetails := {
  risk_essential_spending : Q;
  high_risk_spending : Q;
  weekend_spending : Q;
  loan_eligibility_factors : list string
}.

Record MLAnalysisResult := {
  overall_risk_score : Q;
  risk_category : RiskCategory.t;
  loan_eligibility : bool;
  eligibility_reason : string;
  financial_summary : FinancialSummary;
  behavioral_analysis : BehavioralAnalysis;
  risk_assessment_details : RiskAssessmentDetails;
  created_at : option datetime
}.

(** ** The data frame *)

(** One row of the frame built by [_transactions_to_dataframe]. *)
Record Row := {
  r_date : datetime;
  r_amount : Q;
  r_type : TransactionType;
  r_category : string;
  r_description : string;
  r_upi_app : option string;
  r_weekday : Z;
  r_month : string;
  r_is_weekend : bool
}.

Definition date_le (r1 r2 : Row) : Prop :=
  (timestamp (r_date r1) ≤ timestamp (r_date r2))%Z.

#[global] Instance date_le_dec : RelDecision date_le.
Proof. intros r1 r2. unfold date_le. apply _. Defined.

(** [df[mask]['amount'].sum()] *)
Definition amount_sum (df : list Row) : Q := np_sum (r_amount <$> df).

(** [df.groupby(key)['amount'].sum()]: the series of the sums, indexed
    by the keys that occur. *)
Definition groupby_sum `{Countable K} (key : Row → K) (df : list Row) : gmap K Q :=
  foldr (λ r acc, <[key r := default 0 (acc !! key r) + r_amount r]> acc) ∅ df.

(** The frame [s.unstack(fill_value=0)] of a series [s] grouped by month
    and type: its row labels, its column labels and its cells. *)
Definition index (s : gmap (string * TransactionType) Q) : list string :=
  elements (set_map (D := gset string) fst (dom s)).

Definition columns (s : gmap (string * TransactionType) Q) : gset TransactionType :=
  set_map snd (dom s).

(** [.loc[month, col]]; a label that is missing raises [KeyError]. *)
Definition loc (s : gmap (string * TransactionType) Q)
    (month : string) (col : TransactionType) : option Q :=
  if decide (month ∈ index s ∧ col ∈ columns s)
  then Some (default 0 (s !! (month, col)))
  else None.

(** [monthly_data.loc[month, col] if col in monthly_data.columns else 0] *)
Definition loc_or_0 (s : gmap (string * TransactionType) Q)
    (month : string) (col : TransactionType) : option Q :=
  if decide (col ∈ columns s) then loc s month col else Some 0.

(** [list(d.values())] *)
Definition values `{Countable K} {V} (d : gmap K V) : list V := (map_to_list d).*2.

(** ** The model ([TransactionRiskModel]) *)

Definition high_risk_categories : gset string :=
  {[ "gambling"; "casino"; "betting"; "alcohol"; "tobacco"; "luxury";
     "entertainment"; "gaming"; "nightlife"; "party" ]}.

Definition essential_categories : gset string :=
  {[ "groceries"; "utilities"; "rent"; "mortgage"; "insurance"; "healthcare";
     "medicine"; "fuel"; "transport"; "education"; "bills" ]}.

(** Saturday, Sunday *)
Definition weekend_days : list Z := [5; 6]%Z.

(** The dictionary appended for one transaction. *)
Definition to_row (transaction : Transaction) : Row := {|
  r_date := tx_date transaction;
  r_amount := tx_amount transaction;
  r_type := tx_type transaction;
  r_category := lower (tx_category transaction);
  r_description := tx_description transaction;
  r_upi_app := tx_upi_app transaction;
  r_weekday := weekday (tx_date transaction);
  r_month := strftime_Ym (tx_date transaction);
  r_is_weekend := bool_decide (weekday (tx_date transaction) ∈ weekend_days)
|}.

Definition _transactions_to_dataframe (transactions : list Transaction) : list Row :=
  merge_sort date_le (to_row <$> transactions).

(** The loop of [_calculate_financial_summary] over
    [monthly_data.index], filling the two dictionaries. *)
Fixpoint monthly_totals (monthly_data : gmap (string * TransactionType) Q)
    (months : list string) (monthly_spendings monthly_savings : gmap string Q)
    : option (gmap string Q * gmap string Q) :=
  match months with
  | [] => Some (monthly_spendings, monthly_savings)
  | month :: rest =>
      spending ← loc_or_0 monthly_data month DEBIT;
      income ← loc_or_0 monthly_data month CREDIT;
      monthly_totals monthly_data rest
        (<[month := spending]> monthly_spendings)
        (<[month := py_max 0 (income - spending)]> monthly_savings)
  end.

Definition _calculate_financial_summary (df : list Row) : option FinancialSummary :=
  let monthly_data := groupby_sum (λ r, (r_month r, r_type r)) df in
  '(monthly_spendings, monthly_savings) ←
    monthly_totals monthly_data (index monthly_data) ∅ ∅;
  let spending_values := values monthly_spendings in
  income_values ←
    mapM (λ month, loc_or_0 monthly_data month CREDIT) (index monthly_data);
  income_std ← np_std income_values;
  income_mean ← np_mean income_values;
  income_volatility ← div_ income_std (income_mean + eps);
  spending_std ← np_std spending_values;
  spending_mean ← np_mean spending_values;
  spending_volatility ← div_ spending_std (spending_mean + eps);
  let consistency_score :=
    py_max 0 (1 - (income_volatility + spending_volatility) / 2) in
  Some {|
    monthly_spendings := monthly_spendings;
    monthly_savings := monthly_savings;
    total_savings := np_sum (values monthly_savings);
    income_volatility := py_round income_volatility 3;
    spending_volatility := py_round spending_volatility 3;
    consistency_score := py_round consistency_score 3;
    transaction_frequency := Z.of_nat (length df)
  |}.

Definition _determine_spending_stability (df : list Row) : option SpendingStability.t :=
  let monthly_spending := groupby_sum r_month (filter (λ r, r_type r = DEBIT) df) in
  if decide (size monthly_spending < 2)%nat then Some SpendingStability.MEDIUM
  else
    std ← np_std (values monthly_spending);
    mean ← np_mean (values monthly_spending);
    cv ← div_ std (mean + eps);
    if Qltb cv 0.2 then Some SpendingStability.HIGH
    else if Qltb cv 0.4 then Some SpendingStability.MEDIUM
    else Some SpendingStability.LOW.

(** The loop of [_calculate_behavioral_analysis] over
    [monthly_analysis.index]. *)
Fixpoint monthly_breakdown (monthly_analysis : gmap (string * TransactionType) Q)
    (months : list string) (income_spending_analysis : gmap string MonthAnalysis)
    : option (gmap string MonthAnalysis) :=
  match months with
  | [] => Some income_spending_analysis
  | month :: rest =>
      income ← loc_or_0 monthly_analysis month CREDIT;
      spending ← loc_or_0 monthly_analysis month DEBIT;
      savings_rate ← div_ (income - spending) (income + eps);
      monthly_breakdown monthly_analysis rest
        (<[month := {| ma_income := income; ma_spending := spending;
                       ma_savings_rate := savings_rate |}]>
           income_spending_analysis)
  end.

Definition _calculate_behavioral_analysis (df : list Row) : option BehavioralAnalysis :=
  let spending_by_category :=
    groupby_sum r_category (filter (λ r, r_type r = DEBIT) df) in
  let total_spending := np_sum (values spending_by_category) in
  spending_pattern_distribution ←
    (if Qltb 0 total_spending then
       items ← mapM (λ '(category, amount),
                       fraction ← div_ amount total_spending;
                       Some (category, py_round fraction 3))
                    (map_to_list spending_by_category);
       Some (list_to_map items)
     else Some ∅);
  let monthly_analysis := groupby_sum (λ r, (r_month r, r_type r)) df in
  income_spending_analysis ←
    monthly_breakdown monthly_analysis (index monthly_analysis) ∅;
  let debit_transactions := filter (λ r, r_type r = DEBIT) df in
  let total_debit_amount := amount_sum debit_transactions in
  '(essential_ratio, high_risk_ratio, weekend_ratio) ←
    (if Qltb 0 total_debit_amount then
       let essential_spending := amount_sum
         (filter (λ r, r_category r ∈ essential_categories) debit_transactions) in
       essential_ratio ← div_ essential_spending total_debit_amount;
       let high_risk_spending := amount_sum
         (filter (λ r, r_category r ∈ high_risk_categories) debit_transactions) in
       high_risk_ratio ← div_ high_risk_spending total_debit_amount;
       let weekend_spending := amount_sum
         (filter (λ r, r_is_weekend r = true) debit_transactions) in
       weekend_ratio ← div_ weekend_spending total_debit_amount;
       Some (essential_ratio, high_risk_ratio, weekend_ratio)
     else Some (0, 0, 0));
  let behavioral_patterns := {|
    essential_spending_ratio := py_round essential_ratio 3;
    high_risk_spending_ratio := py_round high_risk_ratio 3;
    weekend_spending_ratio := py_round weekend_ratio 3
  |} in
  spending_stability ← _determine_spending_stability df;
  Some {|
    spending_pattern_distribution := spending_pattern_distribution;
    income_and_spending_analysis := income_spending_analysis;
    spending_stability := spending_stability;
    behavioral_patterns := behavioral_patterns
  |}.

Definition _calculate_risk_assessment (df : list Row)
    (behavioral_analysis : BehavioralAnalysis) : option RiskAssessmentDetails :=
  let patterns := behavioral_patterns behavioral_analysis in
  let risk_essential_spending :=
    py_max 0 (50 - essential_spending_ratio patterns * 50) in
  let high_risk_spending := high_risk_spending_ratio patterns * 100 in
  let weekend_spending := py_min (weekend_spending_ratio patterns * 100) 50 in
  let eligibility_factors : list string := [] in
  let eligibility_factors :=
    if Qltb 0.5 (essential_spending_ratio patterns)
    then eligibility_factors ++ ["High essential spending ratio"]
    else eligibility_factors in
  let eligibility_factors :=
    if Qltb (high_risk_spending_ratio patterns) 0.15
    then eligibility_factors ++ ["Low discretionary spending"]
    else eligibility_factors in
  let eligibility_factors :=
    if decide (spending_stability behavioral_analysis
                 ∈ [SpendingStability.HIGH; SpendingStability.MEDIUM])
    then eligibility_factors ++ ["Stable spending pattern"]
    else eligibility_factors in
  let monthly_incomes :=
    ma_income <$> values (income_and_spending_analysis behavioral_analysis) in
  stable_income ←
    (if decide (1 < length monthly_incomes)%nat then
       std ← np_std monthly_incomes;
       mean ← np_mean monthly_incomes;
       cv ← div_ std (mean + eps);
       Some (Qltb cv 0.3)
     else Some false);
  let eligibility_factors :=
    if (stable_income : bool) then eligibility_factors ++ ["Stable income"]
    else eligibility_factors in
  let eligibility_factors :=
    match eligibility_factors with
    | [] => eligibility_factors ++ ["Standard risk profile"]
    | _ => eligibility_factors
    end in
  Some {|
    risk_essential_spending := py_round risk_essential_spending 1;
    high_risk_spending := py_round high_risk_spending 1;
    weekend_spending := py_round weekend_spending 1;
    loan_eligibility_factors := eligibility_factors
  |}.

Definition _calculate_overall_risk_score (financial_summary : FinancialSummary)
    (behavioral_analysis : BehavioralAnalysis)
    (risk_assessment : RiskAssessmentDetails) : option Q :=
  let patterns := behavioral_patterns behavioral_analysis in
  let volatility_score :=
    (income_volatility financial_summary
     + spending_volatility financial_summary) * 50 in
  let consistency_bonus := (1 - consistency_score financial_summary) * 20 in
  let behavioral_risk :=
    high_risk_spending_ratio patterns * 30
    + py_max 0 (weekend_spending_ratio patterns - 0.2) * 20 in
  let essential_bonus :=
    py_max 0 ((0.6 - essential_spending_ratio patterns) * 15) in
  avg_savings_rate ←
    np_mean (ma_savings_rate
               <$> values (income_and_spending_analysis behavioral_analysis));
  let savings_risk := py_max 0 ((0.1 - avg_savings_rate) * 25) in
  let freq_risk :=
    if (transaction_frequency financial_summary <? 20)%Z then 10
    else if (300 <? transaction_frequency financial_summary)%Z then 5
    else 0 in
  let total_risk :=
    volatility_score + consistency_bonus + behavioral_risk
    + essential_bonus + savings_risk + freq_risk in
  Some (py_min 100 (py_max 0 total_risk)).

Definition _determine_risk_category (risk_score : Q) : RiskCategory.t :=
  if Qltb risk_score 40 then RiskCategory.LOW
  else if Qltb risk_score 70 then RiskCategory.MEDIUM
  else RiskCategory.HIGH.

Definition _determine_loan_eligibility (risk_score : Q)
    (financial_summary : FinancialSummary)
    (behavioral_analysis : BehavioralAnalysis) : option (bool * string) :=
  if Qltb 75 risk_score then
    Some (false, "High risk profile with significant financial volatility")
  else
  let patterns := behavioral_patterns behavioral_analysis in
  if Qltb (essential_spending_ratio patterns) 0.3 then
    Some (false,
          "Insufficient essential spending pattern indicating unstable lifestyle")
  else
  if Qltb 0.25 (high_risk_spending_ratio patterns) then
    Some (false,
          "Excessive high-risk spending indicating poor financial discipline")
  else
  avg_savings_rate ←
    np_mean (ma_savings_rate
               <$> values (income_and_spending_analysis behavioral_analysis));
  if Qltb avg_savings_rate (-0.1) then
    Some (false, "Negative savings rate indicating financial stress")
  else
  if Qltb (consistency_score financial_summary) 0.3 then
    Some (false, "Highly inconsistent financial behavior")
  else
  let reasons : list string := [] in
  let reasons :=
    if Qltb 0.5 (essential_spending_ratio patterns)
    then reasons ++ ["stable essential spending"] else reasons in
  let reasons :=
    if Qltb (high_risk_spending_ratio patterns) 0.15
    then reasons ++ ["controlled discretionary spending"] else reasons in
  let reasons :=
    if Qltb 0.7 (consistency_score financial_summary)
    then reasons ++ ["consistent financial behavior"] else reasons in
  let reasons :=
    if Qltb 0.05 avg_savings_rate
    then reasons ++ ["positive savings rate"] else reasons in
  let reasons :=
    match reasons with
    | [] => reasons ++ ["acceptable risk profile"]
    | _ => reasons
    end in
  let eligibility_reason := "Eligible based on " +:+ join ", " reasons in
  Some (true, eligibility_reason).

Definition _generate_empty_result (now : datetime) : MLAnalysisResult := {|
  overall_risk_score := 50.0;
  risk_category := RiskCategory.MEDIUM;
  loan_eligibility := false;
  eligibility_reason := "Insufficient transaction history for assessment";
  financial_summary := {|
    monthly_spendings := ∅;
    monthly_savings := ∅;
    total_savings := 0.0;
    income_volatility := 0.0;
    spending_volatility := 0.0;
    consistency_score := 0.0;
    transaction_frequency := 0
  |};
  behavioral_analysis := {|
    spending_pattern_distribution := ∅;
    income_and_spending_analysis := ∅;
    spending_stability := SpendingStability.MEDIUM;
    behavioral_patterns := {|
      essential_spending_ratio := 0.0;
      high_risk_spending_ratio := 0.0;
      weekend_spending_ratio := 0.0
    |}
  |};
  risk_assessment_details := {|
    risk_essential_spending := 50.0;
    high_risk_spending := 0.0;
    weekend_spending := 0.0;
    loan_eligibility_factors := ["Insufficient data"]
  |};
  created_at := Some now
|}.

Definition analyze_transactions (now : datetime)
    (transactions : list Transaction) : option MLAnalysisResult :=
  match transactions with
  | [] => Some (_generate_empty_result now)
  | _ =>
      let df := _transactions_to_dataframe transactions in
      financial_summary ← _calculate_financial_summary df;
      behavioral_analysis ← _calculate_behavioral_analysis df;
      risk_assessment ← _calculate_risk_assessment df behavioral_analysis;
      overall_risk_score ←
        _calculate_overall_risk_score financial_summary behavioral_analysis
          risk_assessment;
      let risk_category := _determine_risk_category overall_risk_score in
      '(loan_eligibility, eligibility_reason) ←
        _determine_loan_eligibility overall_risk_score financial_summary
          behavioral_analysis;
      Some {|
        overall_risk_score := py_round overall_risk_score 1;
        risk_category := risk_category;
        loan_eligibility := loan_eligibility;
        eligibility_reason := eligibility_reason;
        financial_summary := financial_summary;
        behavioral_analysis := behavioral_analysis;
        risk_assessment_details := risk_assessment;
        created_at := Some now
      |}
  end.

(** ** Sample inputs *)

Definition sample_date (year month day : Z) : datetime := {|
  dt_year := year; dt_month := month; dt_day := day;
  dt_hour := 12; dt_minute := 0; dt_second := 0; dt_microsecond := 0
|}.

Definition sample_transaction (date : datetime) (amount : Q)
    (type : TransactionType) (category : string) : Transaction := {|
  tx_id := None;
  tx_user_id := "5f0c4a8e-7b1d-4c57-9a49-2f1f6a3d9b10";
  tx_date := date;
  tx_description := "";
  tx_amount := amount;
  tx_type := type;
  tx_category := category;
  tx_upi_app := None
|}.

(** The time of the sample calls. *)
Definition sample_now : datetime := sample_date 2024 3 1.

(** Two months of salary, rent, groceries and a Saturday out. *)
Definition sample_two_months : list Transaction := [
  sample_transaction (sample_date 2024 1 1) 2000 CREDIT "Salary";
  sample_transaction (sample_date 2024 1 10) 1000 DEBIT "Groceries";
  sample_transaction (sample_date 2024 2 1) 2000 CREDIT "Salary";
  sample_transaction (sample_date 2024 2 3) 500 DEBIT "Entertainment";
  sample_transaction (sample_date 2024 2 5) 700 DEBIT "Rent"
].

(** A salary of 1000 and 1301 gambled away on a Saturday. *)
Definition sample_gambler : list Transaction := [
  sample_transaction (sample_date 2024 1 5) 1000 CREDIT "Salary";
  sample_transaction (sample_date 2024 1 6) 1301 DEBIT "Gambling"
].

(** Three equal debits, one of them essential. *)
Definition sample_thirds : list Transaction := [
  sample_transaction (sample_date 2024 1 8) 1 DEBIT "Groceries";
  sample_transaction (sample_date 2024 1 9) 1 DEBIT "Shopping";
  sample_transaction (sample_date 2024 1 10) 1 DEBIT "Travel"
].

(** One month, one essential category: groceries for 1000 against a
    salary of 2000. *)
Definition sample_single_month : list Transaction := [
  sample_transaction (sample_date 2024 1 10) 1000 DEBIT "groceries";
  sample_transaction (sample_date 2024 1 15) 2000 CREDIT "salary"
].

(** A debit and a refund booked as a negative debit. *)
Definition sample_refund : list Transaction := [
  sample_transaction (sample_date 2024 1 8) 100 DEBIT "Gambling";
  sample_transaction (sample_date 2024 1 9) (-50) DEBIT "Food"
].


(** The same rent in January and in February. *)
Definition sample_steady : list Transaction := [
  sample_transaction (sample_date 2024 1 2) 3000 CREDIT "Salary";
  sample_transaction (sample_date 2024 1 3) 500 DEBIT "Rent";
  sample_transaction (sample_date 2024 2 5) 500 DEBIT "Rent"
].

(** Spending with no income at all. *)
Definition sample_no_income : list Transaction := [
  sample_transaction (sample_date 2024 1 3) 40 DEBIT "Groceries";
  sample_transaction (sample_date 2024 2 7) 25 DEBIT "Fuel"
].

(** ** The outside world *)

(** The exceptions that the code tells apart, by the [except] clauses
    of [WebhookService.send_webhook]; each carries its text, [str(e)]. *)
Inductive Exception :=
  | TimeoutException (text : string)
  | HTTPStatusError (status_code : Z) (text : string)
  | RequestError (text : string)
  | OtherException (text : string).

Definition str (e : Exception) : string :=
  match e with
  | TimeoutException text | HTTPStatusError _ text
  | RequestError text | OtherException text => text
  end.

(** A call to the outside either returns or raises. *)
Inductive Outcome (A : Type) :=
  | Returns (a : A)
  | Raises (e : Exception).
Arguments Returns {A} a.
Arguments Raises {A} e.

(** Truth of a string: [if s:]. *)
Definition truthy (s : string) : bool :=
  match s with
  | EmptyString => false
  | _ => true
  end.

(** ** The database ([models/schemas.py], [services/supabase_service.py]) *)

(** A UUID is its text. *)
Record User := {
  u_id : option string;
  u_name : string;
  u_account_no : string;
  u_ifsc_code : string
}.

(** [metrics] is a dictionary; it is kept as the [MLAnalysisResult] that
    it validates as, or the exception of the validation. *)
Record MLResult := {
  mr_id : option string;
  mr_user_id : string;
  mr_risk_score : Q;
  mr_risk_category : RiskCategory.t;
  mr_eligible : bool;
  mr_eligibility_reason : string;
  mr_metrics : Outcome MLAnalysisResult;
  mr_created_at : option datetime
}.

Record WebhookPayload := {
  wp_user_id : string;
  wp_analysis_result : MLAnalysisResult;
  wp_timestamp : datetime
}.

(** The row that [save_ml_result] inserts. *)
Record ml_result_data := {
  d_user_id : string;
  d_risk_score : Q;
  d_risk_category : RiskCategory.t;
  d_eligible : bool;
  d_eligibility_reason : string;
  d_metrics : MLAnalysisResult;
  d_created_at : datetime
}.

(** The Supabase client: the rows that a query answers with, already
    read into their models, or the exception that the query or the
    reading raises. *)
Record Client := {
  select_users : string → string → Outcome (list User);
  select_transactions : string → datetime → Z → Outcome (list Transaction);
  insert_ml_result : ml_result_data → Outcome (list MLResult);
  select_latest_ml_result : string → Outcome (list MLResult)
}.

(** [str(user_id)] of an optional UUID. *)
Definition str_uuid (user_id : option string) : string :=
  default "None" user_id.

Module SupabaseService.

(** [client] is [None] when the environment has no [SUPABASE_URL] or
    [SUPABASE_KEY], or when [create_client] raised. *)
Record t := { client : option Client }.

Definition get_user_by_account (self : t) (account_no ifsc_code : string) :
    option User :=
  match client self with
  | None => None
  | Some client =>
      match select_users client account_no ifsc_code with
      | Returns (user :: _) => Some user
      | Returns [] => None
      | Raises _ => None
      end
  end.

Definition get_user_transactions (now : datetime) (self : t)
    (user_id : option string) (days : Z) : list Transaction :=
  match client self with
  | None => []
  | Some client =>
      match select_transactions client (str_uuid user_id) now days with
      | Returns transactions => transactions
      | Raises _ => []
      end
  end.

(** The result and the row handed to the database, if the call got as
    far as the insertion. *)
Definition save_ml_result (now : datetime) (self : t)
    (user_id : option string) (analysis_result : MLAnalysisResult) :
    option MLResult * list ml_result_data :=
  match client self with
  | None => (None, [])
  | Some client =>
      let ml_result_data := {|
        d_user_id := str_uuid user_id;
        d_risk_score := overall_risk_score analysis_result;
        d_risk_category := risk_category analysis_result;
        d_eligible := loan_eligibility analysis_result;
        d_eligibility_reason := eligibility_reason analysis_result;
        d_metrics := analysis_result;
        d_created_at := now
      |} in
      (match insert_ml_result client ml_result_data with
       | Returns (ml_result :: _) => Some ml_result
       | Returns [] => None
       | Raises _ => None
       end, [ml_result_data])
  end.

Definition get_latest_ml_result (self : t) (user_id : string) :
    option MLResult :=
  match client self with
  | None => None
  | Some client =>
      match select_latest_ml_result client user_id with
      | Returns (ml_result :: _) => Some ml_result
      | Returns [] => None
      | Raises _ => None
      end
  end.

End SupabaseService.

(** ** The routes ([routes/api.py]) *)

Module api.

(** [data] of an [APIResponse], for the two routes below. *)
Inductive Data :=
  | analysis_data (analysis_result : MLAnalysisResult)
  | webhook_data (webhook_url user_id : string).

Record APIResponse := {
  success : bool;
  data : option Data;
  message : option string;
  timestamp : datetime
}.

Inductive Response :=
  | Return (response : APIResponse)
  | HTTPException (status_code : Z) (detail : string).

(** What a request does to the outside, in the order in which it does
    it. *)
Inductive Event :=
  | Insert (row : ml_result_data)
  | Post (url : string) (payload : WebhookPayload).

(** The readings of the clock, one for each [datetime.utcnow()]. *)
Record Clock := {
  at_query : datetime;
  at_analysis : datetime;
  at_insert : datetime;
  at_payload : datetime;
  at_response : datetime
}.

Record World := {
  clock : Clock;
  supabase : SupabaseService.t;
  WEBHOOK_URL : option string;
  post : string → WebhookPayload → Outcome Z
}.

(** [send_webhook]: one request, and [raise_for_status] on its answer.
    A missing user id does not make a [WebhookPayload]. *)
Definition send_webhook (world : World) (user_id : option string)
    (analysis_result : MLAnalysisResult) (webhook_url : string) :
    Outcome unit * list Event :=
  match user_id with
  | None => (Raises (OtherException "user_id: none is not an allowed value"), [])
  | Some user_id =>
      let webhook_payload := {|
        wp_user_id := user_id;
        wp_analysis_result := analysis_result;
        wp_timestamp := at_payload (clock world)
      |} in
      (match post world webhook_url webhook_payload with
       | Returns _ => Returns ()
       | Raises e => Raises e
       end, [Post webhook_url webhook_payload])
  end.

(** [GET /api/analyze].  [None] stands for an analysis that leaves the
    rationals. *)
Definition analyze_transactions (world : World) (account_no ifsc : string) :
    option (Response * list Event) :=
  match SupabaseService.get_user_by_account (supabase world) account_no ifsc with
  | None =>
      Some (HTTPException 404
              ("User not found with account_no: " +:+ account_no
               +:+ " and ifsc: " +:+ ifsc), [])
  | Some user =>
      let transactions :=
        SupabaseService.get_user_transactions (at_query (clock world))
          (supabase world) (u_id user) 180 in
      match transactions with
      | [] =>
          Some (HTTPException 404
                  "No transactions found for the specified user in the last 180 days",
                [])
      | _ =>
          analysis_result ←
            analyze_transactions (at_analysis (clock world)) transactions;
          let '(ml_result, rows) :=
            SupabaseService.save_ml_result (at_insert (clock world))
              (supabase world) (u_id user) analysis_result in
          match ml_result with
          | None =>
              Some (HTTPException 500
                      "Failed to save analysis results to database",
                    Insert <$> rows)
          | Some _ =>
              let sent :=
                match WEBHOOK_URL world with
                | Some webhook_url =>
                    if truthy webhook_url
                    then (send_webhook world (u_id user) analysis_result
                            webhook_url).2
                    else []
                | None => []
                end in
              Some (Return {|
                      success := true;
                      data := Some (analysis_data analysis_result);
                      message := Some ("Analysis completed successfully for user "
                                       +:+ u_name user);
                      timestamp := at_response (clock world)
                    |}, (Insert <$> rows) ++ sent)
          end
      end
  end.

(** [POST /api/webhook]. *)
Definition trigger_webhook (world : World) (user_id webhook_url : string) :
    Response * list Event :=
  match SupabaseService.get_latest_ml_result (supabase world) user_id with
  | None =>
      (HTTPException 404 ("No analysis results found for user " +:+ user_id), [])
  | Some ml_result =>
      match mr_metrics ml_result with
      | Raises e => (HTTPException 500 ("Failed to send webhook: " +:+ str e), [])
      | Returns analysis_result =>
          match send_webhook world (Some user_id) analysis_result webhook_url with
          | (Raises e, sent) =>
              (HTTPException 500 ("Failed to send webhook: " +:+ str e), sent)
          | (Returns _, sent) =>
              (Return {|
                 success := true;
                 data := Some (webhook_data webhook_url user_id);
                 message := Some "Webhook sent successfully";
                 timestamp := at_response (clock world)
               |}, sent)
          end
      end
  end.

End api.

(** A database with one customer, whose history is [sample_two_months],
    and a webhook that nobody listens to. *)
Definition sample_user : User := {|
  u_id := Some "5f0c4a8e-7b1d-4c57-9a49-2f1f6a3d9b10";
  u_name := "Asha";
  u_account_no := "123456789012";
  u_ifsc_code := "HDFC0001234"
|}.

(** A stored result of that customer. *)
Definition sample_ml_result : MLResult := {|
  mr_id := Some "0b0e7c7e-52a5-4a0c-8d55-0e6f6c1d2a11";
  mr_user_id := "5f0c4a8e-7b1d-4c57-9a49-2f1f6a3d9b10";
  mr_risk_score := 50;
  mr_risk_category := RiskCategory.MEDIUM;
  mr_eligible := false;
  mr_eligibility_reason := "Insufficient transaction history for assessment";
  mr_metrics := Returns (_generate_empty_result sample_now);
  mr_created_at := Some sample_now
|}.

Definition sample_client : Client := {|
  select_users account_no ifsc_code :=
    Returns (if decide (account_no = u_account_no sample_user
                        ∧ ifsc_code = u_ifsc_code sample_user)
             then [sample_user] else []);
  select_transactions user_id _ _ :=
    Returns (if decide (Some user_id = u_id sample_user)
             then sample_two_months else []);
  insert_ml_result row :=
    Returns [{|
      mr_id := Some "0b0e7c7e-52a5-4a0c-8d55-0e6f6c1d2a11";
      mr_user_id := d_user_id row;
      mr_risk_score := d_risk_score row;
      mr_risk_category := d_risk_category row;
      mr_eligible := d_eligible row;
      mr_eligibility_reason := d_eligibility_reason row;
      mr_metrics := Returns (d_metrics row);
      mr_created_at := Some (d_created_at row)
    |}];
  select_latest_ml_result user_id :=
    Returns (if decide (Some user_id = u_id sample_user)
             then [sample_ml_result] else [])
|}.

Definition sample_clock : api.Clock := {|
  api.at_query := sample_now;
  api.at_analysis := sample_now;
  api.at_insert := sample_now;
  api.at_payload := sample_now;
  api.at_response := sample_now
|}.

Definition sample_world : api.World := {|
  api.clock := sample_clock;
  api.supabase := {| SupabaseService.client := Some sample_client |};
  api.WEBHOOK_URL := Some "https://hooks.example.org/risk";
  api.post _ _ := Raises (RequestError "All connection attempts failed")
|}.

(** The same world without a database client. *)
Definition sample_world_unconfigured : api.World := {|
  api.clock := sample_clock;
  api.supabase := {| SupabaseService.client := None |};
  api.WEBHOOK_URL := Some "https://hooks.example.org/risk";
  api.post _ _ := Returns 200%Z
|}.

(** ** The webhook service ([services/webhook_service.py]) *)

Module WebhookService.

Record t := {
  timeout : Q;
  max_retries : nat;
  retry_delay : Q
}.

Definition __init__ : t := {|
  timeout := 30.0;
  max_retries := 3;
  retry_delay := 1.0
|}.

(** What a call does to the outside, in the order in which it does it:
    the requests and the waits of [asyncio.sleep]. *)
Inductive Event :=
  | Post (url : string) (payload : WebhookPayload) (headers : gmap string string)
  | Sleep (delay : Q).

(** [post attempt] is the answer to the request of that attempt: the
    status code when [raise_for_status] passes, or the exception. *)
Record World := {
  utcnow : datetime;
  WEBHOOK_SECRET : option string;
  post : nat → string → WebhookPayload → gmap string string → Outcome Z
}.

(** The headers of the request: the defaults, updated with the headers
    of the caller, and then the secret of the environment. *)
Definition request_headers (world : World)
    (headers : option (gmap string string)) : gmap string string :=
  let default_headers : gmap string string :=
    <["Content-Type" := "application/json"]>
      (<["User-Agent" := "TransactionRiskAnalytics/1.0"]>
         (<["X-Webhook-Source" := "transaction-risk-api"]> ∅)) in
  let default_headers :=
    match headers with
    | Some headers =>
        if decide (headers = ∅) then default_headers
        else headers ∪ default_headers
    | None => default_headers
    end in
  match WEBHOOK_SECRET world with
  | Some webhook_secret =>
      if truthy webhook_secret
      then <["X-Webhook-Secret" := webhook_secret]> default_headers
      else default_headers
  | None => default_headers
  end.

(** The loop [for attempt in range(self.max_retries)], on what is left
    of the range. *)
Fixpoint attempts (self : t) (world : World) (webhook_url : string)
    (payload : WebhookPayload) (default_headers : gmap string string)
    (range : list nat) : bool * list Event :=
  match range with
  | [] => (false, [])
  | attempt :: range =>
      let request := Post webhook_url payload default_headers in
      let again :=
        let wait :=
          if (Z.of_nat attempt <? Z.of_nat (max_retries self) - 1)%Z
          then [Sleep (retry_delay self * inject_Z (2 ^ Z.of_nat attempt))]
          else [] in
        let '(sent, events) :=
          attempts self world webhook_url payload default_headers range in
        (sent, request :: wait ++ events) in
      match post world attempt webhook_url payload default_headers with
      | Returns _ => (true, [request])
      | Raises (HTTPStatusError status_code _) =>
          if (400 <=? status_code)%Z && (status_code <? 500)%Z
          then (false, [request])
          else again
      | Raises _ => again
      end
  end.

Definition send_webhook (self : t) (world : World) (webhook_url : string)
    (user_id : string) (analysis_result : MLAnalysisResult)
    (headers : option (gmap string string)) : bool * list Event :=
  let payload := {|
    wp_user_id := user_id;
    wp_analysis_result := analysis_result;
    wp_timestamp := utcnow world
  |} in
  attempts self world webhook_url payload (request_headers world headers)
    (seq 0 (max_retries self)).

End WebhookService.

(** A receiver that is down for the first request, overloaded for the
    second and accepts the third. *)
Definition sample_receiver : WebhookService.World := {|
  WebhookService.utcnow := sample_now;
  WebhookService.WEBHOOK_SECRET := Some "s3cret";
  WebhookService.post attempt _ _ _ :=
    match attempt with
    | 0%nat => Raises (TimeoutException "timed out")
    | 1%nat => Raises (HTTPStatusError 503 "Service Unavailable")
    | _ => Returns 200%Z
    end
|}.

(** ** The helpers ([utils/helpers.py]) *)

(** [abs] of a float. *)
Definition py_abs (x : Q) : Q := if Qltb x 0 then - x else x.

Definition calculate_percentage_change (old_value new_value : Q) : option Q :=
  if Qeq_bool old_value 0 then
    Some (if Qltb 0 new_value then 100.0 else 0.0)
  else
    change ← div_ (new_value - old_value) old_value;
    Some (change * 100).

Definition categorize_transaction_amount (amount : Q) : string :=
  if Qltb amount 100 then "micro"
  else if Qltb amount 1000 then "small"
  else if Qltb amount 10000 then "medium"
  else if Qltb amount 50000 then "large"
  else "very_large".

(** What numpy returns for a list of amounts, in binary64: [np.mean]
    and [np.std].  They are inputs of the model, since their rounding
    decides the test [std_amount == 0]: the deviation that numpy
    computes for amounts that are all the same need not be 0. *)
Record numpy := {
  numpy_mean : list Q → Q;
  numpy_std : list Q → Q
}.

(** The loop over [enumerate(amounts)]. *)
Fixpoint anomalies_loop (mean_amount std_amount threshold : Q)
    (enumerated : list (nat * Q)) (anomalies : list nat) : option (list nat) :=
  match enumerated with
  | [] => Some anomalies
  | (i, amount) :: enumerated =>
      z ← div_ (amount - mean_amount) std_amount;
      let z_score := py_abs z in
      anomalies_loop mean_amount std_amount threshold enumerated
        (if Qltb threshold z_score then anomalies ++ [i] else anomalies)
  end.

Definition detect_spending_anomalies (np : numpy) (amounts : list Q)
    (threshold : Q) : option (list nat) :=
  if (length amounts <? 3)%nat then Some []
  else
    let mean_amount := numpy_mean np amounts in
    let std_amount := numpy_std np amounts in
    if Qeq_bool std_amount 0 then Some []
    else
      anomalies_loop mean_amount std_amount threshold
        (zip (seq 0 (length amounts)) amounts) [].

(** numpy on three amounts of 0.1, the float 7205759403792794 / 2^56:
    their sum is rounded up, the mean is the next float above 0.1, and
    the deviation is the distance between the two, 2^-56. *)
Definition sample_numpy : numpy := {|
  numpy_mean _ := 7205759403792795 # 72057594037927936;
  numpy_std _ := 1 # 72057594037927936
|}.

Definition calculate_financial_health_score
    (savings_rate income_volatility spending_volatility
       essential_spending_ratio : Q) : Q :=
  let savings_score := py_min 30 (py_max 0 (savings_rate * 100)) in
  let volatility_penalty := (income_volatility + spending_volatility) * 15 in
  let stability_score := py_max 0 (30 - volatility_penalty) in
  let essential_score := py_min 25 (essential_spending_ratio * 30) in
  let base_score := 15 in
  let total_score :=
    savings_score + stability_score + essential_score + base_score in
  py_min 100 (py_max 0 total_score).

(** The digits of a number that is not negative. *)
Fixpoint decimal_loop (fuel : nat) (n : Z) (digits : string) : string :=
  match fuel with
  | O => digits
  | S fuel =>
      let digits := String (digit n) digits in
      if (n <? 10)%Z then digits else decimal_loop fuel (n / 10) digits
  end.

Definition decimal (n : Z) : string :=
  decimal_loop (S (Z.to_nat (Z.log2 n))) n "".

(** The format [.1f]: one decimal, ties to even, and the sign of the
    number also when it rounds to zero. *)
Definition format_1f (x : Q) : string :=
  let tenths := Z.abs (round_half_even (x * 10)) in
  (if Qltb x 0 then "-" else "")
  +:+ decimal (tenths / 10) +:+ "." +:+ String (digit tenths) "".

(** [sorted(items, key=lambda x: x[1], reverse=True)]: the sort is
    stable, so of two items with the same amount the one that is first
    in the dictionary stays first. *)
Fixpoint insert_by_amount (item : string * Q) (sorted : list (string * Q)) :
    list (string * Q) :=
  match sorted with
  | [] => [item]
  | item' :: sorted' =>
      if Qltb item.2 item'.2 then item' :: insert_by_amount item sorted'
      else item :: sorted
  end.

Definition sorted_by_amount (items : list (string * Q)) : list (string * Q) :=
  foldr insert_by_amount [] items.

(** A dictionary is the list of its items, in the order of insertion. *)
Definition generate_spending_insights (spending_data : list (string * Q)) :
    option (list string) :=
  let insights : list string := [] in
  match spending_data with
  | [] => Some ["No spending data available for analysis"]
  | _ =>
      let total_spending := np_sum (spending_data.*2) in
      let sorted_categories := sorted_by_amount spending_data in
      insights ←
        match sorted_categories with
        | (top_category, top_amount) :: _ =>
            share ← div_ top_amount total_spending;
            let percentage := share * 100 in
            Some (insights
                  ++ ["Highest spending category is " +:+ top_category
                      +:+ " (" +:+ format_1f percentage +:+ "% of total)"])
        | [] => Some insights
        end;
      let essential_categories :=
        ["groceries"; "utilities"; "rent"; "healthcare"; "transport"; "bills"] in
      let essential_spending :=
        np_sum ((filter (λ item, lower item.1 ∈ essential_categories)
                   spending_data).*2) in
      insights ←
        (if Qltb 0 total_spending then
           share ← div_ essential_spending total_spending;
           let essential_percentage := share * 100 in
           Some (insights
                 ++ [if Qltb 70 essential_percentage then
                       "Very high focus on essential spending indicates good financial discipline"
                     else if Qltb 50 essential_percentage then
                       "Balanced spending between essential and discretionary items"
                     else
                       "High discretionary spending - consider reviewing non-essential expenses"])
         else Some insights);
      let num_categories := length spending_data in
      Some (insights
            ++ (if (8 <? num_categories)%nat then
                  ["Diverse spending across multiple categories"]
                else if (num_categories <? 4)%nat then
                  ["Limited spending categories - may indicate focused spending habits"]
                else []))
  end.

(** [sorted] of a list of strings, by code points. *)
Fixpoint insert_string (s : string) (sorted : list string) : list string :=
  match sorted with
  | [] => [s]
  | s' :: sorted' =>
      if String.leb s s' then s :: sorted else s' :: insert_string s sorted'
  end.

Definition sorted_strings (l : list string) : list string :=
  foldr insert_string [] l.

(** The dictionary [trend_data], by its five keys. *)
Record TrendData := {
  td_months : list string;
  td_income : list Q;
  td_spending : list Q;
  td_savings : list Q;
  td_savings_rate : list Q
}.

(** The loop [for month in months]. *)
Fixpoint trend_loop (monthly_data : gmap string (gmap string Q))
    (months : list string) (trend_data : TrendData) : option TrendData :=
  match months with
  | [] => Some trend_data
  | month :: months =>
      let data := default ∅ (monthly_data !! month) in
      let income := default 0 (data !! "income") in
      let spending := default 0 (data !! "spending") in
      let savings := income - spending in
      savings_rate ←
        (if Qltb 0 income then
           share ← div_ savings income;
           Some (share * 100)
         else Some 0);
      trend_loop monthly_data months {|
        td_months := td_months trend_data;
        td_income := td_income trend_data ++ [income];
        td_spending := td_spending trend_data ++ [spending];
        td_savings := td_savings trend_data ++ [savings];
        td_savings_rate :=
          td_savings_rate trend_data ++ [py_round savings_rate 1]
      |}
  end.

Definition create_monthly_trend_data
    (monthly_data : gmap string (gmap string Q)) : option TrendData :=
  let months := sorted_strings (map_to_list monthly_data).*1 in
  trend_loop monthly_data months {|
    td_months := months;
    td_income := [];
    td_spending := [];
    td_savings := [];
    td_savings_rate := []
  |}.

(** One value of [income_and_spending_analysis] as the dictionary that
    it is. *)
Definition month_dict (analysis : MonthAnalysis) : gmap string Q :=
  <["income" := ma_income analysis]>
    (<["spending" := ma_spending analysis]>
       (<["savings_rate" := ma_savings_rate analysis]> ∅)).

(** The string methods of the two validators, on ASCII strings: a
    character outside ASCII is neither letter nor digit here. *)
Definition upper_ascii (c : Ascii.ascii) : Ascii.ascii :=
  let n := Ascii.nat_of_ascii c in
  if (97 <=? n)%nat && (n <=? 122)%nat then Ascii.ascii_of_nat (n - 32) else c.

(** [str.upper()] *)
Fixpoint upper (s : string) : string :=
  match s with
  | EmptyString => EmptyString
  | String c s' => String (upper_ascii c) (upper s')
  end.

(** [s.replace(" ", "")] *)
Fixpoint remove_spaces (s : string) : string :=
  match s with
  | EmptyString => EmptyString
  | String c s' =>
      if Ascii.eqb c (Ascii.ascii_of_nat 32) then remove_spaces s'
      else String c (remove_spaces s')
  end.

Definition isdigit_ascii (c : Ascii.ascii) : bool :=
  let n := Ascii.nat_of_ascii c in (48 <=? n)%nat && (n <=? 57)%nat.

Definition isalpha_ascii (c : Ascii.ascii) : bool :=
  let n := Ascii.nat_of_ascii c in
  ((65 <=? n)%nat && (n <=? 90)%nat) || ((97 <=? n)%nat && (n <=? 122)%nat).

Fixpoint all_chars (p : Ascii.ascii → bool) (s : string) : bool :=
  match s with
  | EmptyString => true
  | String c s' => p c && all_chars p s'
  end.

(** [str.isdigit()], [str.isalpha()] and [str.isalnum()]: false on the
    empty string. *)
Definition isdigit (s : string) : bool :=
  negb (String.eqb s "") && all_chars isdigit_ascii s.

Definition isalpha (s : string) : bool :=
  negb (String.eqb s "") && all_chars isalpha_ascii s.

Definition isalnum (s : string) : bool :=
  negb (String.eqb s "")
  && all_chars (λ c, isalpha_ascii c || isdigit_ascii c) s.

Definition validate_account_number (account_no : string) : bool :=
  let account_no := upper (remove_spaces account_no) in
  if negb (isdigit account_no) then false
  else if (String.length account_no <? 9)%nat
          || (18 <? String.length account_no)%nat then false
  else true.

(** [ifsc_code[4]] is in range after the test of the length. *)
Definition validate_ifsc_code (ifsc_code : string) : bool :=
  let ifsc_code := upper (remove_spaces ifsc_code) in
  if negb (String.length ifsc_code =? 11)%nat then false
  else if negb (isalpha (String.substring 0 4 ifsc_code)) then false
  else if negb (bool_decide (String.get 4 ifsc_code
                             = Some (Ascii.ascii_of_nat 48))) then false
  else if negb (isalnum (String.substring 5 (String.length ifsc_code - 5)
                           ifsc_code)) then false
  else true.


(** * Properties *)

(** One step of a computation in the [option] monad. *)
Ltac step H := rewrite H; cbn [mbind option_bind].

(** ** Comparisons, [max], [min] and rounding *)

Lemma Qltb_lt (a b : Q) : Qltb a b = true ↔ a < b.
Proof.
  unfold Qltb. rewrite negb_true_iff. split.
  - intros H. apply Qnot_le_lt. intros Hle.
    apply Qle_bool_iff in Hle. congruence.
  - intros H. destruct (Qle_bool b a) eqn:E; [|done].
    apply Qle_bool_iff in E. lra.
Qed.

Lemma Qltb_ge (a b : Q) : Qltb a b = false ↔ b <= a.
Proof.
  unfold Qltb. rewrite negb_false_iff. apply Qle_bool_iff.
Qed.

Lemma Qltb_comp (a a' b b' : Q) : a == a' → b == b' → Qltb a b = Qltb a' b'.
Proof.
  intros Ha Hb. unfold Qltb. f_equal. by apply Qleb_comp.
Qed.

Lemma py_max_ge_l (a b : Q) : a <= py_max a b.
Proof.
  unfold py_max. destruct (Qltb a b) eqn:E; [|lra].
  apply Qltb_lt in E. lra.
Qed.

Lemma py_max_le (a b c : Q) : a <= c → b <= c → py_max a b <= c.
Proof. intros. unfold py_max. by destruct (Qltb a b). Qed.

Lemma py_max_comp (a b b' : Q) : b == b' → py_max a b == py_max a b'.
Proof.
  intros Hb. unfold py_max.
  rewrite (Qltb_comp a a b b') by (done || reflexivity).
  destruct (Qltb a b'); [done | reflexivity].
Qed.

Lemma py_min_le_l (a b : Q) : py_min a b <= a.
Proof.
  unfold py_min. destruct (Qltb b a) eqn:E; [|lra].
  apply Qltb_lt in E. lra.
Qed.

Lemma py_min_le_r (a b : Q) : py_min a b <= b.
Proof.
  unfold py_min. destruct (Qltb b a) eqn:E; [lra|].
  by apply Qltb_ge in E.
Qed.

Lemma py_min_ge (a b c : Q) : c <= a → c <= b → c <= py_min a b.
Proof. intros. unfold py_min. by destruct (Qltb b a). Qed.

Lemma round_half_even_comp (x y : Q) :
  x == y → round_half_even x = round_half_even y.
Proof.
  intros Hxy. unfold round_half_even.
  rewrite (Qfloor_comp x y Hxy).
  assert (Qcompare (x - inject_Z (Qfloor y)) (1 # 2)
          = Qcompare (y - inject_Z (Qfloor y)) (1 # 2)) as ->; [|done].
  apply Qcompare_comp; [|reflexivity]. by rewrite Hxy.
Qed.

Lemma round_half_even_cases (x : Q) :
  (round_half_even x = Qfloor x ∧ x - inject_Z (Qfloor x) <= 1 # 2)
  ∨ (round_half_even x = (Qfloor x + 1)%Z ∧ 1 # 2 <= x - inject_Z (Qfloor x)).
Proof.
  unfold round_half_even.
  destruct (Qcompare (x - inject_Z (Qfloor x)) (1 # 2)) eqn:E.
  - apply Qeq_alt in E.
    destruct (Z.even (Qfloor x)); [left|right]; (split; [done|lra]).
  - apply Qlt_alt in E. left. split; [done|lra].
  - apply Qgt_alt in E. right. split; [done|lra].
Qed.

Lemma round_half_even_bounds (x : Q) (lo hi : Z) :
  inject_Z lo <= x → x <= inject_Z hi → (lo ≤ round_half_even x ≤ hi)%Z.
Proof.
  intros Hlo Hhi.
  pose proof (Qfloor_le x) as Hf.
  assert (lo ≤ Qfloor x)%Z as Hlo'.
  { rewrite <- (Qfloor_Z lo). by apply Qfloor_resp_le. }
  assert (Qfloor x ≤ hi)%Z as Hhi'.
  { rewrite <- (Qfloor_Z hi). by apply Qfloor_resp_le. }
  destruct (round_half_even_cases x) as [[-> _]|[-> Hr]]; [lia|].
  split; [lia|].
  assert (inject_Z (Qfloor x) < inject_Z hi) as Hlt by lra.
  rewrite <- Zlt_Qlt in Hlt. lia.
Qed.

Lemma round_half_even_error (x : Q) :
  - (1 # 2) <= inject_Z (round_half_even x) - x
  ∧ inject_Z (round_half_even x) - x <= 1 # 2.
Proof.
  pose proof (Qfloor_le x) as Hf.
  pose proof (Qlt_floor x) as Hc. rewrite inject_Z_plus in Hc.
  change (inject_Z 1) with 1 in Hc.
  destruct (round_half_even_cases x) as [[-> Hr]|[-> Hr]].
  - revert Hf Hc Hr. generalize (inject_Z (Qfloor x)). intros q ???.
    split; lra.
  - rewrite inject_Z_plus. change (inject_Z 1) with 1.
    revert Hf Hc Hr. generalize (inject_Z (Qfloor x)). intros q ???.
    split; lra.
Qed.

Lemma py_round_comp (x y : Q) (n : nat) : x == y → py_round x n = py_round y n.
Proof.
  intros Hxy. unfold py_round. f_equal.
  apply round_half_even_comp. by rewrite Hxy.
Qed.

Lemma py_round_bounds (x : Q) (n : nat) (lo hi : Z) :
  inject_Z lo <= x → x <= inject_Z hi →
  inject_Z lo <= py_round x n ∧ py_round x n <= inject_Z hi.
Proof.
  intros Hlo Hhi. unfold py_round.
  set (p := pow10 n).
  assert (0 < Z.pos p # 1) as Hp by done.
  destruct (round_half_even_bounds (x * (Z.pos p # 1)) (lo * Z.pos p) (hi * Z.pos p))
    as [H1 H2].
  - rewrite inject_Z_mult. change (inject_Z (Z.pos p)) with (Z.pos p # 1).
    apply Qmult_le_compat_r; lra.
  - rewrite inject_Z_mult. change (inject_Z (Z.pos p)) with (Z.pos p # 1).
    apply Qmult_le_compat_r; lra.
  - unfold Qle, inject_Z. simpl. lia.
Qed.

Lemma py_round_error (x : Q) (n : nat) :
  - (1 # (2 * pow10 n)) <= py_round x n - x
  ∧ py_round x n - x <= 1 # (2 * pow10 n).
Proof.
  unfold py_round. set (p := pow10 n).
  destruct (round_half_even_error (x * (Z.pos p # 1))) as [H1 H2].
  set (k := round_half_even (x * (Z.pos p # 1))) in *.
  assert (0 < Z.pos p # 1) as Hp by done.
  assert (k # p == inject_Z k / (Z.pos p # 1)) as ->.
  { rewrite (Qmake_Qdiv k p). reflexivity. }
  assert (1 # (2 * p) == (1 # 2) / (Z.pos p # 1)) as ->.
  { unfold Qeq, Qdiv, Qmult, Qinv. simpl. lia. }
  assert (inject_Z k / (Z.pos p # 1) - x
          == (inject_Z k - x * (Z.pos p # 1)) / (Z.pos p # 1)) as ->.
  { field. lra. }
  split.
  - assert (- ((1 # 2) / (Z.pos p # 1)) == (- (1 # 2)) / (Z.pos p # 1)) as ->.
    { field. lra. }
    apply Qmult_le_compat_r; [done|]. apply Qlt_le_weak, Qinv_lt_0_compat, Hp.
  - apply Qmult_le_compat_r; [done|]. apply Qlt_le_weak, Qinv_lt_0_compat, Hp.
Qed.

(** ** Sums, means and deviations *)

Lemma div_Some (a b : Q) : ¬ b == 0 → div_ a b = Some (a / b).
Proof.
  intros Hb. unfold div_. destruct (Qeq_bool b 0) eqn:E; [|done].
  by apply Qeq_bool_iff in E.
Qed.

Lemma div_inv (a b c : Q) : div_ a b = Some c → ¬ b == 0 ∧ c = a / b.
Proof.
  unfold div_. destruct (Qeq_bool b 0) eqn:E; [done|].
  intros [= <-]. split; [|done].
  intros Hb. apply Qeq_bool_iff in Hb. congruence.
Qed.

Lemma np_sum_nonneg (l : list Q) : Forall (λ x, 0 <= x) l → 0 <= np_sum l.
Proof.
  induction 1 as [|x l Hx _ IH]; simpl; [lra|]. lra.
Qed.

Lemma np_sum_app (l k : list Q) : np_sum (l ++ k) == np_sum l + np_sum k.
Proof.
  induction l as [|x l IH]; simpl; [lra|]. rewrite IH. lra.
Qed.

Lemma np_sum_Permutation (l k : list Q) : l ≡ₚ k → np_sum l == np_sum k.
Proof.
  induction 1 as [|x l k _ IH|x y l|l k m _ IH1 _ IH2]; simpl.
  - reflexivity.
  - by rewrite IH.
  - lra.
  - by rewrite IH1.
Qed.


Lemma amount_sum_Permutation (df df' : list Row) :
  df ≡ₚ df' → amount_sum df == amount_sum df'.
Proof.
  intros Hp. apply np_sum_Permutation. by rewrite Hp.
Qed.

Lemma amount_sum_filter_le (P : Row → Prop) `{∀ r, Decision (P r)} (df : list Row) :
  Forall (λ r, 0 <= r_amount r) df →
  0 <= amount_sum (filter P df) ∧ amount_sum (filter P df) <= amount_sum df.
Proof.
  unfold amount_sum. induction 1 as [|r df Hr _ [IH1 IH2]]; csimpl; [lra|].
  rewrite filter_cons. destruct (decide (P r)); csimpl; lra.
Qed.

Lemma np_mean_Some (l : list Q) :
  l ≠ [] → np_mean l = Some (np_sum l / inject_Z (Z.of_nat (length l))).
Proof. by destruct l. Qed.

Lemma np_mean_inv (l : list Q) (m : Q) :
  np_mean l = Some m → l ≠ [] ∧ m = np_sum l / inject_Z (Z.of_nat (length l)).
Proof. destruct l; [done|]. by intros [= <-]. Qed.

Lemma np_mean_nonneg (l : list Q) (m : Q) :
  Forall (λ x, 0 <= x) l → np_mean l = Some m → 0 <= m.
Proof.
  intros Hl [Hne ->]%np_mean_inv.
  apply Qle_shift_div_l.
  - change 0 with (inject_Z 0). rewrite <- Zlt_Qlt. destruct l; [done|].
    simpl. lia.
  - rewrite Qmult_0_l. by apply np_sum_nonneg.
Qed.

Lemma np_std_is_Some (l : list Q) : l ≠ [] → is_Some (np_std l).
Proof.
  intros Hl. unfold np_std. rewrite (np_mean_Some l Hl). simpl.
  rewrite np_mean_Some; [by eexists|]. by destruct l.
Qed.

(** [np_sqrt] is a square root from below, to fifteen decimals. *)
Lemma np_sqrt_nonneg (x : Q) : 0 <= np_sqrt x.
Proof.
  unfold np_sqrt, Qle. simpl. rewrite Z.mul_1_r. apply Z.sqrt_nonneg.
Qed.

Lemma np_sqrt_square_le (x : Q) : 0 <= x → np_sqrt x * np_sqrt x <= x.
Proof.
  destruct x as [n d]. unfold np_sqrt, Qle, Qmult. simpl.
  rewrite Z.mul_1_r. intros Hn.
  pose proof (Z.sqrt_spec (n * Z.pos d * 10 ^ 30)) as [Hs _]; [lia|].
  set (s := Z.sqrt (n * Z.pos d * 10 ^ 30)) in *.
  rewrite !Pos2Z.inj_mul.
  change (Z.pos (10 ^ 15)) with (10 ^ 15)%Z.
  replace (n * (Z.pos d * 10 ^ 15 * (Z.pos d * 10 ^ 15)))%Z
    with (n * Z.pos d * 10 ^ 30 * Z.pos d)%Z by ring.
  apply Z.mul_le_mono_nonneg_r; lia.
Qed.

Lemma np_sqrt_square_gt (x : Q) :
  0 <= x →
  x < (np_sqrt x + (1 # (Qden x * 10 ^ 15)))
      * (np_sqrt x + (1 # (Qden x * 10 ^ 15))).
Proof.
  destruct x as [n d]. unfold np_sqrt. cbn [Qnum Qden]. intros Hn.
  assert (0 <= n)%Z as Hn' by (unfold Qle in Hn; simpl in Hn; lia).
  pose proof (Z.sqrt_spec (n * Z.pos d * 10 ^ 30)) as [_ Hs]; [lia|].
  set (s := Z.sqrt (n * Z.pos d * 10 ^ 30)) in *.
  set (e := (d * 10 ^ 15)%positive).
  assert ((s # e) + (1 # e) == (Z.succ s # e)) as ->.
  { unfold Qeq, Qplus. simpl. nia. }
  unfold Qlt, Qmult. cbn [Qnum Qden].
  rewrite Pos2Z.inj_mul.
  assert (Z.pos e = Z.pos d * 10 ^ 15)%Z as -> by (unfold e; lia).
  replace (n * (Z.pos d * 10 ^ 15 * (Z.pos d * 10 ^ 15)))%Z
    with (n * Z.pos d * 10 ^ 30 * Z.pos d)%Z by ring.
  apply Z.mul_lt_mono_pos_r; [lia|done].
Qed.

Lemma eps_guard (q : Q) : 0 <= q → ¬ q + eps == 0.
Proof. unfold eps. intros Hq Heq. lra. Qed.

(** The quotient [np.std(l) / (np.mean(l) + 1e-6)] of a non-empty list
    of non-negative numbers is defined. *)
Lemma variation_Some (l : list Q) :
  l ≠ [] → Forall (λ x, 0 <= x) l →
  ∃ std mean cv,
    np_std l = Some std ∧ np_mean l = Some mean ∧ div_ std (mean + eps) = Some cv.
Proof.
  intros Hne Hl.
  destruct (np_std_is_Some l Hne) as [std Hstd].
  pose proof (np_mean_Some l Hne) as Hmean.
  pose proof (np_mean_nonneg l _ Hl Hmean) as Hpos.
  eexists std, _, _. split_and!; [done..|].
  by apply div_Some, eps_guard.
Qed.

(** ** Grouped sums *)

Section groupby.
Context `{Countable K} (key : Row → K).

Lemma groupby_sum_lookup_None (df : list Row) (k : K) :
  groupby_sum key df !! k = None ↔ Forall (λ r, key r ≠ k) df.
Proof.
  induction df as [|r df IH]; simpl.
  - rewrite lookup_empty. split; [constructor|done].
  - rewrite Forall_cons. destruct (decide (key r = k)) as [->|Hne].
    + rewrite lookup_insert_eq. split; [done|]. by intros [? _].
    + rewrite lookup_insert_ne by done. rewrite IH.
      split; [done|]. by intros [_ ?].
Qed.

Lemma groupby_sum_lookup (df : list Row) (k : K) :
  default 0 (groupby_sum key df !! k)
  == amount_sum (filter (λ r, key r = k) df).
Proof.
  induction df as [|r df IH]; simpl; [reflexivity|].
  rewrite filter_cons. destruct (decide (key r = k)) as [->|Hne].
  - rewrite lookup_insert_eq. unfold amount_sum in *. csimpl.
    rewrite IH. lra.
  - by rewrite lookup_insert_ne.
Qed.

Lemma groupby_sum_nonneg (df : list Row) :
  Forall (λ r, 0 <= r_amount r) df →
  map_Forall (λ _ v, 0 <= v) (groupby_sum key df).
Proof.
  induction 1 as [|r df Hr _ IH]; simpl; [apply map_Forall_empty|].
  apply map_Forall_insert_2; [|done].
  destruct (groupby_sum key df !! key r) as [v|] eqn:E; simpl; [|lra].
  apply IH in E. simpl in E. lra.
Qed.

Lemma groupby_sum_values (df : list Row) :
  np_sum (values (groupby_sum key df)) == amount_sum df.
Proof.
  unfold values, amount_sum.
  induction df as [|r df IH]; csimpl.
  - by rewrite map_to_list_empty.
  - rewrite <- IH.
    destruct (groupby_sum key df !! key r) as [v|] eqn:E; csimpl.
    + rewrite <- (insert_delete_eq (groupby_sum key df)).
      rewrite (np_sum_Permutation _ ((v + r_amount r)
                 :: (map_to_list (delete (key r) (groupby_sum key df))).*2)).
      2:{ rewrite map_to_list_insert by apply lookup_delete_eq. done. }
      rewrite (np_sum_Permutation ((map_to_list (groupby_sum key df)).*2)
                 (v :: (map_to_list (delete (key r) (groupby_sum key df))).*2)).
      2:{ rewrite <- (insert_delete_id (groupby_sum key df) (key r) v) at 1 by done.
          rewrite map_to_list_insert by apply lookup_delete_eq. done. }
      csimpl. lra.
    + rewrite (np_sum_Permutation _ ((0 + r_amount r)
                 :: (map_to_list (groupby_sum key df)).*2)).
      2:{ by rewrite map_to_list_insert. }
      csimpl. lra.
Qed.

Lemma groupby_sum_nonempty (df : list Row) :
  df ≠ [] → groupby_sum key df ≠ ∅.
Proof.
  destruct df as [|r df]; [done|]. intros _. simpl. apply insert_non_empty.
Qed.
End groupby.

Lemma values_nonempty `{Countable K} {V} (d : gmap K V) : d ≠ ∅ → values d ≠ [].
Proof.
  intros Hd Hv. apply Hd, map_to_list_empty_iff.
  by apply fmap_nil_inv in Hv.
Qed.

Lemma values_Forall `{Countable K} {V} (P : V → Prop) (d : gmap K V) :
  map_Forall (λ _, P) d → Forall P (values d).
Proof.
  intros Hd. unfold values. apply Forall_fmap, Forall_forall.
  intros [k v] Hkv. apply elem_of_map_to_list in Hkv. by apply (Hd k v).
Qed.

Lemma length_values `{Countable K} {V} (d : gmap K V) : length (values d) = size d.
Proof. unfold values. by rewrite length_fmap, length_map_to_list. Qed.

(** ** The month by type table *)

Section table.
Context (s : gmap (string * TransactionType) Q).

Lemma elem_of_index (month : string) :
  month ∈ index s ↔ ∃ col, is_Some (s !! (month, col)).
Proof.
  unfold index. rewrite elem_of_elements, elem_of_map. split.
  - intros [[m c] [-> Hin]]. exists c. by apply elem_of_dom.
  - intros [c Hc]. exists (month, c). split; [done|]. by apply elem_of_dom.
Qed.

Lemma elem_of_columns (col : TransactionType) :
  col ∈ columns s ↔ ∃ month, is_Some (s !! (month, col)).
Proof.
  unfold columns. rewrite elem_of_map. split.
  - intros [[m c] [-> Hin]]. exists m. by apply elem_of_dom.
  - intros [m Hm]. exists (m, col). split; [done|]. by apply elem_of_dom.
Qed.

(** The guarded lookup never raises on a month of the index, and an
    absent cell reads as the fill value 0. *)
Lemma loc_or_0_Some (month : string) (col : TransactionType) :
  month ∈ index s →
  loc_or_0 s month col = Some (default 0 (s !! (month, col))).
Proof.
  intros Hm. unfold loc_or_0, loc.
  destruct (decide (col ∈ columns s)) as [Hc|Hc].
  - by rewrite decide_True.
  - destruct (s !! (month, col)) as [v|] eqn:E; [|done].
    destruct Hc. apply elem_of_columns. by exists month, v.
Qed.

Lemma index_column_Some (col : TransactionType) :
  mapM (λ month, loc_or_0 s month col) (index s)
  = Some ((λ month, default 0 (s !! (month, col))) <$> index s).
Proof.
  apply mapM_Some_2, Forall2_fmap_r, Forall_Forall2_diag, Forall_forall.
  intros month Hm. by apply loc_or_0_Some.
Qed.

Lemma monthly_totals_Some (months : list string) (ms sv : gmap string Q) :
  Forall (λ m, m ∈ index s) months →
  ∃ ms' sv',
    monthly_totals s months ms sv = Some (ms', sv')
    ∧ (∀ m, ms' !! m =
            if decide (m ∈ months) then Some (default 0 (s !! (m, DEBIT)))
            else ms !! m)
    ∧ (∀ m, sv' !! m =
            if decide (m ∈ months)
            then Some (py_max 0 (default 0 (s !! (m, CREDIT))
                                 - default 0 (s !! (m, DEBIT))))
            else sv !! m).
Proof.
  intros Hmonths. revert ms sv.
  induction Hmonths as [|month rest Hm _ IH]; intros ms sv.
  - by eexists _, _.
  - cbn [monthly_totals]. rewrite !loc_or_0_Some by done.
    cbn [mbind option_bind].
    destruct (IH (<[month:=default 0 (s !! (month, DEBIT))]> ms)
                (<[month:=py_max 0 (default 0 (s !! (month, CREDIT))
                                    - default 0 (s !! (month, DEBIT)))]> sv))
      as (ms' & sv' & -> & Hms & Hsv).
    eexists _, _. split; [done|].
    split; intros m; [rewrite Hms | rewrite Hsv];
      destruct (decide (m ∈ rest)) as [Hin|Hin].
    + rewrite decide_True; [done|]. by right.
    + destruct (decide (m = month)) as [->|Hne].
      * rewrite lookup_insert_eq, decide_True; [done|]. by left.
      * rewrite lookup_insert_ne by done. rewrite decide_False; [done|].
        intros [?|?]%elem_of_cons; done.
    + rewrite decide_True; [done|]. by right.
    + destruct (decide (m = month)) as [->|Hne].
      * rewrite lookup_insert_eq, decide_True; [done|]. by left.
      * rewrite lookup_insert_ne by done. rewrite decide_False; [done|].
        intros [?|?]%elem_of_cons; done.
Qed.

Lemma monthly_breakdown_Some (months : list string) (isa : gmap string MonthAnalysis) :
  map_Forall (λ _ v, 0 <= v) s →
  Forall (λ m, m ∈ index s) months →
  ∃ isa',
    monthly_breakdown s months isa = Some isa'
    ∧ (∀ m, isa' !! m =
            if decide (m ∈ months)
            then Some {|
              ma_income := default 0 (s !! (m, CREDIT));
              ma_spending := default 0 (s !! (m, DEBIT));
              ma_savings_rate :=
                (default 0 (s !! (m, CREDIT)) - default 0 (s !! (m, DEBIT)))
                / (default 0 (s !! (m, CREDIT)) + eps) |}
            else isa !! m).
Proof.
  intros Hs Hmonths. revert isa.
  induction Hmonths as [|month rest Hm _ IH]; intros isa.
  - by eexists.
  - cbn [monthly_breakdown]. rewrite !loc_or_0_Some by done.
    cbn [mbind option_bind]. rewrite div_Some; cbn [mbind option_bind].
    2:{ apply eps_guard.
        destruct (s !! (month, CREDIT)) as [v|] eqn:E; simpl; [|lra].
        by apply Hs in E. }
    edestruct IH as (isa' & -> & Hisa).
    eexists. split; [done|].
    intros m. rewrite Hisa. destruct (decide (m ∈ rest)) as [Hin|Hin].
    + rewrite decide_True; [done|]. by right.
    + destruct (decide (m = month)) as [->|Hne].
      * rewrite lookup_insert_eq, decide_True; [done|]. by left.
      * rewrite lookup_insert_ne by done. rewrite decide_False; [done|].
        intros [?|?]%elem_of_cons; done.
Qed.
End table.

(** ** The data frame *)

Lemma filter_fmap {A B} (f : A → B) (P : B → Prop) `{∀ y, Decision (P y)}
    (l : list A) :
  filter P (f <$> l) = f <$> filter (λ x, P (f x)) l.
Proof.
  induction l as [|x l IH]; [done|]. csimpl.
  rewrite !filter_cons. destruct (decide (P (f x))); csimpl; by rewrite IH.
Qed.

Lemma dataframe_Permutation (transactions : list Transaction) :
  _transactions_to_dataframe transactions ≡ₚ to_row <$> transactions.
Proof. apply merge_sort_Permutation. Qed.

Lemma dataframe_nonempty (transactions : list Transaction) :
  transactions ≠ [] → _transactions_to_dataframe transactions ≠ [].
Proof.
  intros Hne Hdf. pose proof (dataframe_Permutation transactions) as Hp.
  rewrite Hdf in Hp. apply Permutation_nil in Hp.
  by apply fmap_nil_inv in Hp.
Qed.

Lemma dataframe_nonneg (transactions : list Transaction) :
  Forall (λ t, 0 <= tx_amount t) transactions →
  Forall (λ r, 0 <= r_amount r) (_transactions_to_dataframe transactions).
Proof.
  intros Htx. rewrite dataframe_Permutation. by apply Forall_fmap.
Qed.

Lemma dataframe_length (transactions : list Transaction) :
  length (_transactions_to_dataframe transactions) = length transactions.
Proof. by rewrite dataframe_Permutation, length_fmap. Qed.

(** A sum over selected rows of the frame is the sum over the
    transactions whose rows are selected, whatever the order. *)
Lemma dataframe_amount_sum (P : Row → Prop) `{∀ r, Decision (P r)}
    (transactions : list Transaction) :
  amount_sum (filter P (_transactions_to_dataframe transactions))
  == np_sum (tx_amount <$> filter (λ t, P (to_row t)) transactions).
Proof.
  rewrite (amount_sum_Permutation _ (filter P (to_row <$> transactions))).
  2:{ by rewrite dataframe_Permutation. }
  unfold amount_sum. rewrite filter_fmap, <- list_fmap_compose. reflexivity.
Qed.

Lemma nonempty_elem_of {A} (l : list A) : l ≠ [] → ∃ x, x ∈ l.
Proof. destruct l as [|x l]; [done|]. intros _. exists x. by left. Qed.

(** ** The monthly table of a frame *)

Section frame.
Context (df : list Row).
Hypothesis df_nonempty : df ≠ [].
Hypothesis df_nonneg : Forall (λ r, 0 <= r_amount r) df.

Let monthly_data := groupby_sum (λ r, (r_month r, r_type r)) df.

Lemma monthly_data_nonneg : map_Forall (λ _ v, 0 <= v) monthly_data.
Proof. by apply groupby_sum_nonneg. Qed.

Lemma cell_nonneg (k : string * TransactionType) :
  0 <= default 0 (monthly_data !! k).
Proof.
  destruct (monthly_data !! k) as [v|] eqn:E; simpl; [|lra].
  by apply monthly_data_nonneg in E.
Qed.

Lemma elem_of_index_frame (month : string) :
  month ∈ index monthly_data ↔ ∃ r, r ∈ df ∧ r_month r = month.
Proof.
  rewrite elem_of_index. split.
  - intros [col [v Hv]].
    destruct (decide (Exists (λ r, (r_month r, r_type r) = (month, col)) df))
      as [Hex|Hex].
    + apply Exists_exists in Hex as (r & Hr & [= <- <-]). by exists r.
    + apply not_Exists_Forall in Hex; [|apply _].
      apply groupby_sum_lookup_None in Hex.
      unfold monthly_data in Hv. congruence.
  - intros (r & Hr & <-). exists (r_type r).
    apply not_eq_None_Some. intros Hnone.
    apply groupby_sum_lookup_None in Hnone.
    rewrite Forall_forall in Hnone. by apply (Hnone r).
Qed.

Lemma index_nonempty : index monthly_data ≠ [].
Proof.
  destruct (nonempty_elem_of df df_nonempty) as [r Hr]. intros Hnil.
  assert (r_month r ∈ index monthly_data) as Hin.
  { apply elem_of_index_frame. by exists r. }
  rewrite Hnil in Hin. by apply not_elem_of_nil in Hin.
Qed.

Lemma financial_summary_Some :
  ∃ fs,
    _calculate_financial_summary df = Some fs
    ∧ (∀ m, monthly_spendings fs !! m =
            if decide (m ∈ index monthly_data)
            then Some (default 0 (monthly_data !! (m, DEBIT)))
            else None)
    ∧ (∀ m, monthly_savings fs !! m =
            if decide (m ∈ index monthly_data)
            then Some (py_max 0 (default 0 (monthly_data !! (m, CREDIT))
                                 - default 0 (monthly_data !! (m, DEBIT))))
            else None)
    ∧ transaction_frequency fs = Z.of_nat (length df).
Proof.
  unfold _calculate_financial_summary. fold monthly_data.
  destruct (monthly_totals_Some monthly_data (index monthly_data) ∅ ∅)
    as (ms & sv & -> & Hms & Hsv).
  { by apply Forall_forall. }
  cbn [mbind option_bind]. rewrite index_column_Some. cbn [mbind option_bind].
  destruct (variation_Some
              ((λ month, default 0 (monthly_data !! (month, CREDIT)))
                 <$> index monthly_data))
    as (istd & imean & icv & Histd & Himean & Hicv).
  { intros Hnil%fmap_nil_inv. by apply index_nonempty. }
  { apply Forall_fmap, Forall_forall. intros m _. apply cell_nonneg. }
  step Histd. step Himean. step Hicv.
  destruct (variation_Some (values ms)) as (sstd & smean & scv & Hsstd & Hsmean & Hscv).
  { apply values_nonempty. intros ->.
    destruct (index monthly_data) as [|m ?] eqn:E; [by apply index_nonempty|].
    specialize (Hms m). rewrite lookup_empty, decide_True in Hms; [done|].
    by left. }
  { apply values_Forall. intros m v Hv. rewrite Hms in Hv.
    destruct (decide (m ∈ index monthly_data)); [|by rewrite lookup_empty in Hv].
    injection Hv as <-. apply cell_nonneg. }
  step Hsstd. step Hsmean. step Hscv. eexists. split; [done|]. cbn.
  split_and!; [| |done]; intros m; [rewrite Hms | rewrite Hsv];
    by rewrite lookup_empty.
Qed.
End frame.

(** ** The behavioural analysis of a frame *)

Lemma Forall_filter {A} (P Q : A → Prop) `{∀ x, Decision (Q x)} (l : list A) :
  Forall P l → Forall P (filter Q l).
Proof.
  rewrite !Forall_forall. intros Hl x [_ Hx]%list_elem_of_filter. by apply Hl.
Qed.

Lemma spending_stability_Some (df : list Row) :
  Forall (λ r, 0 <= r_amount r) df → is_Some (_determine_spending_stability df).
Proof.
  intros Hdf. unfold _determine_spending_stability.
  set (ms := groupby_sum r_month (filter (λ r, r_type r = DEBIT) df)).
  destruct (decide (size ms < 2)%nat) as [Hsize|Hsize]; [by eexists|].
  destruct (variation_Some (values ms)) as (std & mean & cv & H1 & H2 & H3).
  { apply values_nonempty. intros Hms. rewrite Hms, map_size_empty in Hsize. lia. }
  { apply values_Forall, groupby_sum_nonneg. by apply Forall_filter. }
  step H1. step H2. step H3.
  destruct (Qltb cv 0.2); [by eexists|]. destruct (Qltb cv 0.4); by eexists.
Qed.

Lemma distribution_Some (spending_by_category : gmap string Q) (total_spending : Q) :
  ¬ total_spending == 0 →
  mapM (λ '(category, amount),
          fraction ← div_ amount total_spending;
          Some (category, py_round fraction 3))
       (map_to_list spending_by_category)
  = Some (prod_map id (λ amount, py_round (amount / total_spending) 3)
            <$> map_to_list spending_by_category).
Proof.
  intros Htotal.
  apply mapM_Some_2, Forall2_fmap_r, Forall_Forall2_diag, Forall_forall.
  intros [category amount] _. by rewrite div_Some.
Qed.

Section behaviour.
Context (df : list Row).
Hypothesis df_nonempty : df ≠ [].
Hypothesis df_nonneg : Forall (λ r, 0 <= r_amount r) df.

Let monthly_analysis := groupby_sum (λ r, (r_month r, r_type r)) df.
Let debit_transactions := filter (λ r, r_type r = DEBIT) df.
Let spending_by_category := groupby_sum r_category debit_transactions.
Let total_spending := np_sum (values spending_by_category).
Let total_debit_amount := amount_sum debit_transactions.

Lemma behavioral_analysis_Some :
  ∃ ba,
    _calculate_behavioral_analysis df = Some ba
    ∧ spending_pattern_distribution ba =
        (if Qltb 0 total_spending
         then (λ amount, py_round (amount / total_spending) 3)
                <$> spending_by_category
         else ∅)
    ∧ (∀ m, income_and_spending_analysis ba !! m =
            if decide (m ∈ index monthly_analysis)
            then Some {|
              ma_income := default 0 (monthly_analysis !! (m, CREDIT));
              ma_spending := default 0 (monthly_analysis !! (m, DEBIT));
              ma_savings_rate :=
                (default 0 (monthly_analysis !! (m, CREDIT))
                 - default 0 (monthly_analysis !! (m, DEBIT)))
                / (default 0 (monthly_analysis !! (m, CREDIT)) + eps) |}
            else None)
    ∧ behavioral_patterns ba =
        (if Qltb 0 total_debit_amount then {|
           essential_spending_ratio :=
             py_round (amount_sum (filter (λ r, r_category r ∈ essential_categories)
                                     debit_transactions)
                       / total_debit_amount) 3;
           high_risk_spending_ratio :=
             py_round (amount_sum (filter (λ r, r_category r ∈ high_risk_categories)
                                     debit_transactions)
                       / total_debit_amount) 3;
           weekend_spending_ratio :=
             py_round (amount_sum (filter (λ r, r_is_weekend r = true)
                                     debit_transactions)
                       / total_debit_amount) 3 |}
         else {|
           essential_spending_ratio := py_round 0 3;
           high_risk_spending_ratio := py_round 0 3;
           weekend_spending_ratio := py_round 0 3 |}).
Proof.
  unfold _calculate_behavioral_analysis.
  fold debit_transactions. fold spending_by_category. fold total_spending.
  fold monthly_analysis. fold total_debit_amount.
  destruct (monthly_breakdown_Some monthly_analysis (index monthly_analysis) ∅)
    as (isa & Hisa & Hlookup).
  { by apply monthly_data_nonneg. }
  { by apply Forall_forall. }
  destruct (spending_stability_Some df df_nonneg) as [stability Hstability].
  assert (∃ d, (if Qltb 0 total_spending then
                  items ← mapM (λ '(category, amount),
                                  fraction ← div_ amount total_spending;
                                  Some (category, py_round fraction 3))
                               (map_to_list spending_by_category);
                  Some (list_to_map items)
                else Some ∅) = Some d
               ∧ d = (if Qltb 0 total_spending
                      then (λ amount, py_round (amount / total_spending) 3)
                             <$> spending_by_category
                      else ∅)) as (d & Hd & Hdist).
  { destruct (Qltb 0 total_spending) eqn:E; [|by eexists].
    apply Qltb_lt in E. rewrite distribution_Some by lra.
    cbn [mbind option_bind]. eexists. split; [done|].
    by rewrite list_to_map_fmap, list_to_map_to_list. }
  step Hd. step Hisa.
  destruct (Qltb 0 total_debit_amount) eqn:E.
  - apply Qltb_lt in E. rewrite !div_Some by lra. cbn [mbind option_bind].
    step Hstability. eexists. split; [done|]. cbn.
    split_and!; [done| |done]. intros m. by rewrite Hlookup, lookup_empty.
  - cbn [mbind option_bind]. step Hstability. eexists. split; [done|]. cbn.
    split_and!; [done| |done]. intros m. by rewrite Hlookup, lookup_empty.
Qed.
End behaviour.

(** ** Risk assessment, score and decision *)

Section assessment.
Context (df : list Row) (ba : BehavioralAnalysis).

Let patterns := behavioral_patterns ba.
Let monthly_incomes := ma_income <$> values (income_and_spending_analysis ba).

Lemma risk_assessment_Some :
  map_Forall (λ _ ma, 0 <= ma_income ma) (income_and_spending_analysis ba) →
  ∃ ra (stable_income : bool),
    _calculate_risk_assessment df ba = Some ra
    ∧ (stable_income = true ↔
       (1 < length monthly_incomes)%nat
       ∧ ∃ std mean, np_std monthly_incomes = Some std
                     ∧ np_mean monthly_incomes = Some mean
                     ∧ std / (mean + eps) < 0.3)
    ∧ risk_essential_spending ra =
        py_round (py_max 0 (50 - essential_spending_ratio patterns * 50)) 1
    ∧ high_risk_spending ra = py_round (high_risk_spending_ratio patterns * 100) 1
    ∧ weekend_spending ra =
        py_round (py_min (weekend_spending_ratio patterns * 100) 50) 1
    ∧ loan_eligibility_factors ra =
        match
          (if Qltb 0.5 (essential_spending_ratio patterns)
           then ["High essential spending ratio"] else [])
          ++ (if Qltb (high_risk_spending_ratio patterns) 0.15
              then ["Low discretionary spending"] else [])
          ++ (if decide (spending_stability ba
                           ∈ [SpendingStability.HIGH; SpendingStability.MEDIUM])
              then ["Stable spending pattern"] else [])
          ++ (if stable_income then ["Stable income"] else [])
        with
        | [] => ["Standard risk profile"]
        | factors => factors
        end.
Proof.
  intros Hincome. unfold _calculate_risk_assessment.
  fold patterns. fold monthly_incomes.
  assert (∃ b : bool,
            (if decide (1 < length monthly_incomes)%nat then
               std ← np_std monthly_incomes;
               mean ← np_mean monthly_incomes;
               cv ← div_ std (mean + eps);
               Some (Qltb cv 0.3)
             else Some false) = Some b
            ∧ (b = true ↔
               (1 < length monthly_incomes)%nat
               ∧ ∃ std mean, np_std monthly_incomes = Some std
                             ∧ np_mean monthly_incomes = Some mean
                             ∧ std / (mean + eps) < 0.3))
    as (b & Hb & Hstable).
  { destruct (decide (1 < length monthly_incomes)%nat) as [Hlen|Hlen].
    - destruct (variation_Some monthly_incomes) as (std & mean & cv & H1 & H2 & H3).
      { intros Hnil. rewrite Hnil in Hlen. simpl in Hlen. lia. }
      { apply Forall_fmap. by apply values_Forall. }
      step H1. step H2. step H3. eexists. split; [done|].
      apply div_inv in H3 as [_ ->]. rewrite Qltb_lt. split.
      + intros Hcv. split; [done|]. by exists std, mean.
      + intros (_ & std' & mean' & Hs & Hm & Hcv).
        by simplify_eq.
    - exists false. split; [done|]. split; [done|]. by intros [? _]. }
  step Hb. eexists _, b. split; [done|]. cbn.
  split_and!; [done..|].
  destruct (Qltb 0.5 (essential_spending_ratio patterns)),
    (Qltb (high_risk_spending_ratio patterns) 0.15),
    (decide (spending_stability ba
               ∈ [SpendingStability.HIGH; SpendingStability.MEDIUM])),
    b; reflexivity.
Qed.

Lemma overall_risk_score_Some (fs : FinancialSummary) (ra : RiskAssessmentDetails) :
  income_and_spending_analysis ba ≠ ∅ →
  ∃ score,
    _calculate_overall_risk_score fs ba ra = Some score
    ∧ 0 <= score ∧ score <= 100.
Proof.
  intros Hisa. unfold _calculate_overall_risk_score.
  rewrite np_mean_Some.
  2:{ intros Hnil%fmap_nil_inv. by apply (values_nonempty _ Hisa). }
  cbn [mbind option_bind]. eexists. split; [done|]. split.
  - apply py_min_ge; [lra|]. apply py_max_ge_l.
  - apply py_min_le_l.
Qed.

Lemma loan_eligibility_Some (risk_score : Q) (fs : FinancialSummary) :
  income_and_spending_analysis ba ≠ ∅ →
  ∃ avg_savings_rate eligible reason,
    np_mean (ma_savings_rate <$> values (income_and_spending_analysis ba))
    = Some avg_savings_rate
    ∧ _determine_loan_eligibility risk_score fs ba = Some (eligible, reason)
    ∧ (75 < risk_score →
       eligible = false
       ∧ reason = "High risk profile with significant financial volatility")
    ∧ (¬ 75 < risk_score → essential_spending_ratio patterns < 0.3 →
       eligible = false
       ∧ reason = "Insufficient essential spending pattern indicating unstable lifestyle")
    ∧ (¬ 75 < risk_score → ¬ essential_spending_ratio patterns < 0.3 →
       0.25 < high_risk_spending_ratio patterns →
       eligible = false
       ∧ reason = "Excessive high-risk spending indicating poor financial discipline")
    ∧ (¬ 75 < risk_score → ¬ essential_spending_ratio patterns < 0.3 →
       ¬ 0.25 < high_risk_spending_ratio patterns →
       avg_savings_rate < -0.1 →
       eligible = false
       ∧ reason = "Negative savings rate indicating financial stress")
    ∧ (¬ 75 < risk_score → ¬ essential_spending_ratio patterns < 0.3 →
       ¬ 0.25 < high_risk_spending_ratio patterns →
       ¬ avg_savings_rate < -0.1 →
       consistency_score fs < 0.3 →
       eligible = false ∧ reason = "Highly inconsistent financial behavior")
    ∧ (¬ 75 < risk_score → ¬ essential_spending_ratio patterns < 0.3 →
       ¬ 0.25 < high_risk_spending_ratio patterns →
       ¬ avg_savings_rate < -0.1 →
       ¬ consistency_score fs < 0.3 →
       eligible = true).
Proof.
  intros Hisa. unfold _determine_loan_eligibility. fold patterns.
  rewrite np_mean_Some.
  2:{ intros Hnil%fmap_nil_inv. by apply (values_nonempty _ Hisa). }
  set (avg := np_sum _ / _).
  exists avg.
  destruct (Qltb 75 risk_score) eqn:E1;
    [apply Qltb_lt in E1 | apply Qltb_ge in E1].
  { eexists _, _. split_and!; try done; intros; lra. }
  destruct (Qltb (essential_spending_ratio patterns) 0.3) eqn:E2;
    [apply Qltb_lt in E2 | apply Qltb_ge in E2].
  { eexists _, _. split_and!; try done; intros; lra. }
  destruct (Qltb 0.25 (high_risk_spending_ratio patterns)) eqn:E3;
    [apply Qltb_lt in E3 | apply Qltb_ge in E3].
  { eexists _, _. split_and!; try done; intros; lra. }
  cbn [mbind option_bind].
  destruct (Qltb avg (-0.1)) eqn:E4;
    [apply Qltb_lt in E4 | apply Qltb_ge in E4].
  { eexists _, _. split_and!; try done; intros; lra. }
  destruct (Qltb (consistency_score fs) 0.3) eqn:E5;
    [apply Qltb_lt in E5 | apply Qltb_ge in E5].
  { eexists _, _. split_and!; try done; intros; lra. }
  eexists _, _. split_and!; try done; intros; lra.
Qed.
End assessment.

(** ** The whole pipeline *)

Lemma behavioral_analysis_months (df : list Row) (ba : BehavioralAnalysis) :
  df ≠ [] → Forall (λ r, 0 <= r_amount r) df →
  _calculate_behavioral_analysis df = Some ba →
  income_and_spending_analysis ba ≠ ∅
  ∧ map_Forall (λ _ ma, 0 <= ma_income ma) (income_and_spending_analysis ba).
Proof.
  intros Hne Hdf Hba.
  destruct (behavioral_analysis_Some df Hdf) as (ba' & Hba' & _ & Hisa & _).
  rewrite Hba in Hba'. injection Hba' as <-. split.
  - destruct (nonempty_elem_of _ (index_nonempty df Hne)) as [m Hm].
    intros Hempty. specialize (Hisa m).
    by rewrite Hempty, lookup_empty, decide_True in Hisa.
  - intros m ma Hma. rewrite Hisa in Hma.
    destruct (decide _); [|done]. injection Hma as <-. simpl.
    by apply cell_nonneg.
Qed.

Section pipeline.
Context (now : datetime) (transactions : list Transaction).
Hypothesis transactions_nonempty : transactions ≠ [].
Hypothesis transactions_nonneg : Forall (λ t, 0 <= tx_amount t) transactions.

Local Abbreviation df := (_transactions_to_dataframe transactions).

(** On a non-empty list of transactions with non-negative amounts every
    stage returns, and the result is assembled from what they return. *)
Lemma pipeline_Some :
  ∃ fs ba ra score eligible reason,
    _calculate_financial_summary df = Some fs
    ∧ _calculate_behavioral_analysis df = Some ba
    ∧ _calculate_risk_assessment df ba = Some ra
    ∧ _calculate_overall_risk_score fs ba ra = Some score
    ∧ _determine_loan_eligibility score fs ba = Some (eligible, reason)
    ∧ analyze_transactions now transactions = Some {|
        overall_risk_score := py_round score 1;
        risk_category := _determine_risk_category score;
        loan_eligibility := eligible;
        eligibility_reason := reason;
        financial_summary := fs;
        behavioral_analysis := ba;
        risk_assessment_details := ra;
        created_at := Some now
      |}.
Proof.
  pose proof (dataframe_nonempty _ transactions_nonempty) as Hne.
  pose proof (dataframe_nonneg _ transactions_nonneg) as Hdf.
  destruct (financial_summary_Some df Hne Hdf) as (fs & Hfs & _).
  destruct (behavioral_analysis_Some df Hdf) as (ba & Hba & _).
  destruct (behavioral_analysis_months df ba Hne Hdf Hba) as [Hisa Hincome].
  destruct (risk_assessment_Some df ba Hincome) as (ra & _ & Hra & _).
  destruct (overall_risk_score_Some ba fs ra Hisa) as (score & Hscore & _).
  destruct (loan_eligibility_Some ba score fs Hisa)
    as (_ & eligible & reason & _ & Helig & _).
  exists fs, ba, ra, score, eligible, reason. split_and!; [done..|].
  unfold analyze_transactions. destruct transactions; [done|].
  step Hfs. step Hba. step Hra. step Hscore. by step Helig.
Qed.
End pipeline.

(** ** Scenarios *)

(** Saturday the 6th of January 2024 is a weekend day, Wednesday the
    10th is not. *)
Lemma weekend_classification :
  weekday (sample_date 2024 1 6) = 5%Z
  ∧ r_is_weekend (to_row (sample_transaction (sample_date 2024 1 6)
                            10 DEBIT "Fuel")) = true
  ∧ weekday (sample_date 2024 1 10) = 2%Z
  ∧ r_is_weekend (to_row (sample_transaction (sample_date 2024 1 10)
                            10 DEBIT "Fuel")) = false.
Proof. by vm_compute. Qed.

(** One debit of 1000 on groceries and one credit of 2000 in January
    2024: spending 1000, savings 1000, every debit essential, none
    high-risk, stability Medium for want of a second month. *)
Lemma single_month_scenario :
  ∃ r,
    analyze_transactions sample_now sample_single_month = Some r
    ∧ monthly_spendings (financial_summary r) !! "2024-01" = Some 1000
    ∧ monthly_savings (financial_summary r) !! "2024-01" = Some 1000
    ∧ size (monthly_spendings (financial_summary r)) = 1%nat
    ∧ essential_spending_ratio (behavioral_patterns (behavioral_analysis r)) == 1
    ∧ high_risk_spending_ratio (behavioral_patterns (behavioral_analysis r)) == 0
    ∧ spending_stability (behavioral_analysis r) = SpendingStability.MEDIUM
    ∧ loan_eligibility r = true
    ∧ eligibility_reason r
      = "Eligible based on stable essential spending, controlled discretionary spending, consistent financial behavior, positive savings rate".
Proof.
  eexists. split; [vm_compute; reflexivity|]. by vm_compute.
Qed.

(** * The claims *)

(** C2. For the empty transaction list [analyze_transactions] runs no
    stage and returns the fixed sentinel of [_generate_empty_result]:
    score 50.0, category medium, not eligible with the reason
    "Insufficient transaction history for assessment", transaction
    frequency 0, every monthly mapping and the category distribution
    empty, stability Medium and the single factor "Insufficient data". *)
Theorem analyze_transactions_empty_sentinel (now : datetime) :
  ∃ r,
    analyze_transactions now [] = Some r
    ∧ r = _generate_empty_result now
    ∧ overall_risk_score r == 50
    ∧ risk_category r = RiskCategory.MEDIUM
    ∧ loan_eligibility r = false
    ∧ eligibility_reason r = "Insufficient transaction history for assessment"
    ∧ transaction_frequency (financial_summary r) = 0%Z
    ∧ monthly_spendings (financial_summary r) = ∅
    ∧ monthly_savings (financial_summary r) = ∅
    ∧ income_and_spending_analysis (behavioral_analysis r) = ∅
    ∧ spending_pattern_distribution (behavioral_analysis r) = ∅
    ∧ spending_stability (behavioral_analysis r) = SpendingStability.MEDIUM
    ∧ loan_eligibility_factors (risk_assessment_details r) = ["Insufficient data"].
Proof.
  eexists. split; [reflexivity|]. by split_and!.
Qed.

(** C10. In the sentinel returned for the empty transaction list the
    essential-spending sub-score is 50.0, its maximum and not zero,
    while the high-risk and the weekend sub-scores are 0.0. *)
Theorem analyze_transactions_empty_risk_details (now : datetime) :
  ∃ r,
    analyze_transactions now [] = Some r
    ∧ risk_essential_spending (risk_assessment_details r) == 50
    ∧ ¬ risk_essential_spending (risk_assessment_details r) == 0
    ∧ high_risk_spending (risk_assessment_details r) == 0
    ∧ weekend_spending (risk_assessment_details r) == 0.
Proof.
  eexists. split; [reflexivity|]. by split_and!.
Qed.

(** C9. [analyze_transactions] does not depend on the clock outside
    [created_at]: two calls on the same transaction list, made at any
    two times, both return or both fail, and the results agree in
    every field but [created_at], which is the time of the call. *)
Theorem analyze_transactions_deterministic
    (now1 now2 : datetime) (transactions : list Transaction) :
  match analyze_transactions now1 transactions,
        analyze_transactions now2 transactions with
  | Some r1, Some r2 =>
      overall_risk_score r1 = overall_risk_score r2
      ∧ risk_category r1 = risk_category r2
      ∧ loan_eligibility r1 = loan_eligibility r2
      ∧ eligibility_reason r1 = eligibility_reason r2
      ∧ financial_summary r1 = financial_summary r2
      ∧ behavioral_analysis r1 = behavioral_analysis r2
      ∧ risk_assessment_details r1 = risk_assessment_details r2
      ∧ created_at r1 = Some now1
      ∧ created_at r2 = Some now2
  | None, None => True
  | _, _ => False
  end.
Proof.
  unfold analyze_transactions. destruct transactions as [|t transactions].
  { by split_and!. }
  destruct (_calculate_financial_summary _) as [fs|]; [|done].
  destruct (_calculate_behavioral_analysis _) as [ba|]; [|done].
  cbn [mbind option_bind].
  destruct (_calculate_risk_assessment _ ba) as [ra|]; [|done].
  cbn [mbind option_bind].
  destruct (_calculate_overall_risk_score fs ba ra) as [score|]; [|done].
  cbn [mbind option_bind].
  destruct (_determine_loan_eligibility score fs ba) as [[eligible reason]|];
    [|done].
  by split_and!.
Qed.

(** ** Bounds on the ratios and the sub-scores *)

Lemma ratio_bounds (num den : Q) : 0 <= num → num <= den → 0 < den →
  0 <= py_round (num / den) 3 ∧ py_round (num / den) 3 <= 1.
Proof.
  intros Hnum Hle Hden. apply (py_round_bounds _ 3 0 1).
  - apply Qle_shift_div_l; [done|]. unfold inject_Z. lra.
  - apply Qle_shift_div_r; [done|]. unfold inject_Z. lra.
Qed.

Lemma patterns_bounds (df : list Row) (ba : BehavioralAnalysis) :
  Forall (λ r, 0 <= r_amount r) df →
  _calculate_behavioral_analysis df = Some ba →
  (0 <= essential_spending_ratio (behavioral_patterns ba)
   ∧ essential_spending_ratio (behavioral_patterns ba) <= 1)
  ∧ (0 <= high_risk_spending_ratio (behavioral_patterns ba)
     ∧ high_risk_spending_ratio (behavioral_patterns ba) <= 1)
  ∧ (0 <= weekend_spending_ratio (behavioral_patterns ba)
     ∧ weekend_spending_ratio (behavioral_patterns ba) <= 1).
Proof.
  intros Hdf Hba.
  destruct (behavioral_analysis_Some df Hdf) as (ba' & Hba' & _ & _ & Hpatterns).
  rewrite Hba in Hba'. injection Hba' as <-. rewrite Hpatterns.
  assert (Forall (λ r, 0 <= r_amount r) (filter (λ r, r_type r = DEBIT) df))
    as Hdebit by by apply Forall_filter.
  destruct (Qltb 0 (amount_sum (filter (λ r, r_type r = DEBIT) df))) eqn:E;
    [|by vm_compute].
  apply Qltb_lt in E. cbn.
  split_and!; apply ratio_bounds; try done;
    by apply amount_sum_filter_le.
Qed.

Lemma sub_scores_bounds (df : list Row) (ba : BehavioralAnalysis)
    (ra : RiskAssessmentDetails) :
  Forall (λ r, 0 <= r_amount r) df →
  _calculate_behavioral_analysis df = Some ba →
  _calculate_risk_assessment df ba = Some ra →
  (0 <= risk_essential_spending ra ∧ risk_essential_spending ra <= 50)
  ∧ (0 <= high_risk_spending ra ∧ high_risk_spending ra <= 100)
  ∧ (0 <= weekend_spending ra ∧ weekend_spending ra <= 50).
Proof.
  intros Hdf Hba Hra.
  destruct (patterns_bounds df ba Hdf Hba) as ([He0 He1] & [Hh0 Hh1] & [Hw0 Hw1]).
  unfold _calculate_risk_assessment in Hra.
  destruct (if decide (1 < length _)%nat then _ else _) as [stable|]; [|done].
  cbn [mbind option_bind] in Hra. injection Hra as <-. cbn.
  split_and!; [apply (py_round_bounds _ 1 0 50) ..
              | apply (py_round_bounds _ 1 0 100)
              | apply (py_round_bounds _ 1 0 100)
              | apply (py_round_bounds _ 1 0 50)
              | apply (py_round_bounds _ 1 0 50)];
    unfold inject_Z;
    first [ apply py_max_ge_l
          | apply py_min_le_r
          | apply py_max_le; lra
          | apply py_min_ge; lra
          | lra ].
Qed.

(** C1. For every non-empty list of transactions (amounts are
    non-negative) the returned overall risk score lies in [0,100] and
    the three risk sub-scores lie in [0,50], [0,100] and [0,50]. *)
Theorem analyze_transactions_score_bounds
    (now : datetime) (transactions : list Transaction) :
  transactions ≠ [] →
  Forall (λ t, 0 <= tx_amount t) transactions →
  ∃ r,
    analyze_transactions now transactions = Some r
    ∧ (0 <= overall_risk_score r ∧ overall_risk_score r <= 100)
    ∧ (0 <= risk_essential_spending (risk_assessment_details r)
       ∧ risk_essential_spending (risk_assessment_details r) <= 50)
    ∧ (0 <= high_risk_spending (risk_assessment_details r)
       ∧ high_risk_spending (risk_assessment_details r) <= 100)
    ∧ (0 <= weekend_spending (risk_assessment_details r)
       ∧ weekend_spending (risk_assessment_details r) <= 50).
Proof.
  intros Hne Hnonneg.
  destruct (pipeline_Some now transactions Hne Hnonneg)
    as (fs & ba & ra & score & eligible & reason
        & Hfs & Hba & Hra & Hscore & Helig & ->).
  eexists. split; [done|]. cbn.
  pose proof (dataframe_nonneg _ Hnonneg) as Hdf.
  pose proof (dataframe_nonempty _ Hne) as Hdfne.
  destruct (behavioral_analysis_months _ ba Hdfne Hdf Hba) as [Hisa _].
  destruct (overall_risk_score_Some ba fs ra Hisa) as (score' & Hscore' & H0 & H100).
  rewrite Hscore in Hscore'. injection Hscore' as <-.
  split; [by apply (py_round_bounds _ 1 0 100)|].
  by apply (sub_scores_bounds _ ba ra Hdf Hba Hra).
Qed.

Lemma analyze_transactions_score_bounds_witness :
  ∃ r,
    analyze_transactions sample_now sample_two_months = Some r
    ∧ (0 <= overall_risk_score r ∧ overall_risk_score r <= 100)
    ∧ (0 <= risk_essential_spending (risk_assessment_details r)
       ∧ risk_essential_spending (risk_assessment_details r) <= 50)
    ∧ (0 <= high_risk_spending (risk_assessment_details r)
       ∧ high_risk_spending (risk_assessment_details r) <= 100)
    ∧ (0 <= weekend_spending (risk_assessment_details r)
       ∧ weekend_spending (risk_assessment_details r) <= 50).
Proof.
  apply (analyze_transactions_score_bounds sample_now sample_two_months).
  - discriminate.
  - repeat constructor; by vm_compute.
Defined.

(** The bounds rest on the amounts being non-negative, which the
    schema leaves to the caller: with a negative debit the high-risk
    spending ratio is 2 and its sub-score 200. *)
Lemma score_bounds_need_nonnegative_amounts :
  ∃ r,
    analyze_transactions sample_now sample_refund = Some r
    ∧ high_risk_spending_ratio (behavioral_patterns (behavioral_analysis r)) == 2
    ∧ high_risk_spending (risk_assessment_details r) == 200.
Proof.
  eexists. split; [vm_compute; reflexivity|]. by vm_compute.
Qed.

(** C8. [analyze_transactions] is total: on every list of transactions
    (amounts are non-negative; the list may be empty, lack debits or
    credits, span a single month or hold zero amounts) it returns a
    result, with no denominator zero, no mean of an empty sequence and
    no lookup of a missing label on the way; the empty list gets the
    sentinel. *)
Theorem analyze_transactions_total
    (now : datetime) (transactions : list Transaction) :
  Forall (λ t, 0 <= tx_amount t) transactions →
  ∃ r,
    analyze_transactions now transactions = Some r
    ∧ (transactions = [] → r = _generate_empty_result now).
Proof.
  intros Hnonneg. destruct (decide (transactions = [])) as [->|Hne].
  - by eexists.
  - destruct (pipeline_Some now transactions Hne Hnonneg)
      as (fs & ba & ra & score & eligible & reason & _ & _ & _ & _ & _ & ->).
    by eexists.
Qed.

Lemma analyze_transactions_total_witness :
  ∃ r,
    analyze_transactions sample_now sample_thirds = Some r
    ∧ (sample_thirds = [] → r = _generate_empty_result sample_now).
Proof.
  apply (analyze_transactions_total sample_now sample_thirds).
  repeat constructor; by vm_compute.
Defined.

(** ** From the frame back to the transactions *)

Lemma elem_of_dataframe (t : Transaction) (transactions : list Transaction) :
  t ∈ transactions → to_row t ∈ _transactions_to_dataframe transactions.
Proof.
  intros Ht. rewrite dataframe_Permutation. by apply list_elem_of_fmap_2.
Qed.

Lemma monthly_cell_transactions (transactions : list Transaction)
    (month : string) (col : TransactionType) :
  default 0 (groupby_sum (λ r, (r_month r, r_type r))
               (_transactions_to_dataframe transactions) !! (month, col))
  == np_sum (tx_amount <$>
               filter (λ t, strftime_Ym (tx_date t) = month ∧ tx_type t = col)
                 transactions).
Proof.
  rewrite groupby_sum_lookup, dataframe_amount_sum.
  erewrite list_filter_iff; [reflexivity|].
  intros t. simpl. split; [by intros [= -> ->] | by intros [-> ->]].
Qed.

(** C5. For every non-empty list of transactions (amounts are
    non-negative) and every month in which a transaction falls, the
    entry of [monthly_savings] for that month is
    [max(0, income - spending)] over the credits and debits of the
    month: never negative, zero when the debits reach the credits. *)
Theorem monthly_savings_clamped
    (now : datetime) (transactions : list Transaction) :
  transactions ≠ [] →
  Forall (λ t, 0 <= tx_amount t) transactions →
  ∃ r,
    analyze_transactions now transactions = Some r
    ∧ ∀ t, t ∈ transactions →
        let month := strftime_Ym (tx_date t) in
        let income :=
          np_sum (tx_amount <$>
                    filter (λ t', strftime_Ym (tx_date t') = month
                                  ∧ tx_type t' = CREDIT) transactions) in
        let spending :=
          np_sum (tx_amount <$>
                    filter (λ t', strftime_Ym (tx_date t') = month
                                  ∧ tx_type t' = DEBIT) transactions) in
        ∃ savings,
          monthly_savings (financial_summary r) !! month = Some savings
          ∧ 0 <= savings
          ∧ (income <= spending → savings == 0)
          ∧ (spending <= income → savings == income - spending).
Proof.
  intros Hne Hnonneg.
  destruct (pipeline_Some now transactions Hne Hnonneg)
    as (fs & ba & ra & score & eligible & reason & Hfs & _ & _ & _ & _ & ->).
  eexists. split; [done|]. cbn. intros t Ht.
  pose proof (dataframe_nonneg _ Hnonneg) as Hdf.
  pose proof (dataframe_nonempty _ Hne) as Hdfne.
  destruct (financial_summary_Some _ Hdfne Hdf) as (fs' & Hfs' & _ & Hsavings & _).
  rewrite Hfs in Hfs'. injection Hfs' as <-.
  eexists. rewrite Hsavings, decide_True.
  2:{ apply elem_of_index_frame. exists (to_row t).
      split; [by apply elem_of_dataframe|done]. }
  split; [done|].
  pose proof (monthly_cell_transactions transactions
                (strftime_Ym (tx_date t)) CREDIT) as Hincome.
  pose proof (monthly_cell_transactions transactions
                (strftime_Ym (tx_date t)) DEBIT) as Hspending.
  revert Hincome Hspending.
  generalize (np_sum (tx_amount <$>
                filter (λ t', strftime_Ym (tx_date t') = strftime_Ym (tx_date t)
                              ∧ tx_type t' = CREDIT) transactions)).
  generalize (np_sum (tx_amount <$>
                filter (λ t', strftime_Ym (tx_date t') = strftime_Ym (tx_date t)
                              ∧ tx_type t' = DEBIT) transactions)).
  generalize (default 0 (groupby_sum (λ r, (r_month r, r_type r))
                (_transactions_to_dataframe transactions)
                !! (strftime_Ym (tx_date t), CREDIT))).
  generalize (default 0 (groupby_sum (λ r, (r_month r, r_type r))
                (_transactions_to_dataframe transactions)
                !! (strftime_Ym (tx_date t), DEBIT))).
  intros d c spending income Hincome Hspending.
  split; [apply py_max_ge_l|].
  unfold py_max. destruct (Qltb 0 (c - d)) eqn:E;
    [apply Qltb_lt in E | apply Qltb_ge in E]; split; intros; lra.
Qed.

Lemma monthly_savings_clamped_witness :
  ∃ r,
    analyze_transactions sample_now sample_two_months = Some r
    ∧ ∀ t, t ∈ sample_two_months →
        let month := strftime_Ym (tx_date t) in
        let income :=
          np_sum (tx_amount <$>
                    filter (λ t', strftime_Ym (tx_date t') = month
                                  ∧ tx_type t' = CREDIT) sample_two_months) in
        let spending :=
          np_sum (tx_amount <$>
                    filter (λ t', strftime_Ym (tx_date t') = month
                                  ∧ tx_type t' = DEBIT) sample_two_months) in
        ∃ savings,
          monthly_savings (financial_summary r) !! month = Some savings
          ∧ 0 <= savings
          ∧ (income <= spending → savings == 0)
          ∧ (spending <= income → savings == income - spending).
Proof.
  apply (monthly_savings_clamped sample_now sample_two_months).
  - discriminate.
  - repeat constructor; by vm_compute.
Defined.

(** ** The category distribution *)

Lemma debit_amount_sum (P : Row → Prop) `{∀ r, Decision (P r)}
    (transactions : list Transaction) :
  amount_sum (filter P (filter (λ r, r_type r = DEBIT)
                          (_transactions_to_dataframe transactions)))
  == np_sum (tx_amount <$>
               filter (λ t, P (to_row t))
                 (filter (λ t, tx_type t = DEBIT) transactions)).
Proof.
  rewrite (amount_sum_Permutation _
             (filter P (filter (λ r, r_type r = DEBIT) (to_row <$> transactions)))).
  2:{ by rewrite dataframe_Permutation. }
  unfold amount_sum. rewrite !filter_fmap, <- list_fmap_compose. reflexivity.
Qed.

Lemma debit_total (transactions : list Transaction) :
  amount_sum (filter (λ r, r_type r = DEBIT)
                (_transactions_to_dataframe transactions))
  == np_sum (tx_amount <$> filter (λ t, tx_type t = DEBIT) transactions).
Proof. exact (dataframe_amount_sum (λ r, r_type r = DEBIT) transactions). Qed.

Lemma elem_of_debit_rows (r : Row) (transactions : list Transaction) :
  r ∈ filter (λ r, r_type r = DEBIT) (_transactions_to_dataframe transactions)
  ↔ ∃ t, t ∈ filter (λ t, tx_type t = DEBIT) transactions ∧ r = to_row t.
Proof.
  rewrite list_elem_of_filter, dataframe_Permutation, list_elem_of_fmap.
  split.
  - intros (Hdebit & t & -> & Ht). exists t. split; [|done].
    by apply list_elem_of_filter.
  - intros (t & [Hdebit Ht]%list_elem_of_filter & ->). split; [done|].
    by exists t.
Qed.

Lemma values_fmap `{Countable K} {A B} (f : A → B) (d : gmap K A) :
  values (f <$> d) ≡ₚ f <$> values d.
Proof.
  unfold values. rewrite map_to_list_fmap, <- !list_fmap_compose.
  erewrite list_fmap_ext; [reflexivity|]. by intros i [k v].
Qed.

(** Rounding each fraction to three decimals moves the sum by at most
    0.0005 per fraction. *)
Lemma rounded_fractions_sum (l : list Q) (total : Q) :
  - (inject_Z (Z.of_nat (length l)) * (1 # 2000))
    <= np_sum ((λ v, py_round (v / total) 3) <$> l) - np_sum l / total
  ∧ np_sum ((λ v, py_round (v / total) 3) <$> l) - np_sum l / total
    <= inject_Z (Z.of_nat (length l)) * (1 # 2000).
Proof.
  induction l as [|v l [IH1 IH2]]; csimpl.
  - unfold Qdiv. rewrite !Qmult_0_l. split; lra.
  - destruct (py_round_error (v / total) 3) as [H1 H2].
    change (1 # 2 * pow10 3) with (1 # 2000) in *.
    assert ((v + np_sum l) / total == v / total + np_sum l / total) as ->.
    { unfold Qdiv. ring. }
    rewrite Nat2Z.inj_succ. unfold Z.succ. rewrite inject_Z_plus.
    change (inject_Z 1) with 1.
    revert IH1 IH2 H1 H2.
    generalize (inject_Z (Z.of_nat (length l))).
    generalize (np_sum ((λ v, py_round (v / total) 3) <$> l)).
    generalize (np_sum l / total).
    generalize (py_round (v / total) 3).
    generalize (v / total).
    intros. split; lra.
Qed.

(** C6. For every non-empty list of transactions (amounts are
    non-negative) the category distribution is empty when the debits
    sum to 0; otherwise its keys are the lower-cased categories of the
    debit transactions, each fraction is that category's debit sum over
    the total debit sum, rounded to 3 decimals, and the fractions sum
    to 1 up to the rounding, 0.0005 per category. *)
Theorem spending_pattern_distribution_fractions
    (now : datetime) (transactions : list Transaction) :
  transactions ≠ [] →
  Forall (λ t, 0 <= tx_amount t) transactions →
  ∃ r,
    analyze_transactions now transactions = Some r
    ∧ let debits := filter (λ t, tx_type t = DEBIT) transactions in
      let total := np_sum (tx_amount <$> debits) in
      let distribution := spending_pattern_distribution (behavioral_analysis r) in
      (total == 0 → distribution = ∅)
      ∧ (0 < total →
         (∀ category,
            is_Some (distribution !! category)
            ↔ ∃ t, t ∈ debits ∧ lower (tx_category t) = category)
         ∧ (∀ category fraction,
              distribution !! category = Some fraction →
              fraction
              == py_round
                   (np_sum (tx_amount <$>
                              filter (λ t, lower (tx_category t) = category)
                                debits)
                    / total) 3)
         ∧ - (inject_Z (Z.of_nat (size distribution)) * (1 # 2000))
             <= np_sum (values distribution) - 1
         ∧ np_sum (values distribution) - 1
             <= inject_Z (Z.of_nat (size distribution)) * (1 # 2000)).
Proof.
  intros Hne Hnonneg.
  destruct (pipeline_Some now transactions Hne Hnonneg)
    as (fs & ba & ra & score & eligible & reason & _ & Hba & _ & _ & _ & ->).
  eexists. split; [done|]. cbn.
  pose proof (dataframe_nonneg _ Hnonneg) as Hdf.
  destruct (behavioral_analysis_Some _ Hdf) as (ba' & Hba' & Hdist & _).
  rewrite Hba in Hba'. injection Hba' as <-. rewrite Hdist. clear Hdist.
  set (df := _transactions_to_dataframe transactions) in *.
  set (spending_by_category :=
         groupby_sum r_category (filter (λ r, r_type r = DEBIT) df)).
  assert (np_sum (values spending_by_category)
          == np_sum (tx_amount <$> filter (λ t, tx_type t = DEBIT) transactions))
    as Htotal.
  { unfold spending_by_category. rewrite groupby_sum_values. apply debit_total. }
  split.
  { intros Hzero. rewrite Hzero in Htotal.
    destruct (Qltb 0 _) eqn:E; [|done]. apply Qltb_lt in E. lra. }
  intros Hpos.
  destruct (Qltb 0 (np_sum (values spending_by_category))) eqn:E.
  2:{ apply Qltb_ge in E. lra. }
  clear E. split_and!.
  - intros category. rewrite lookup_fmap, fmap_is_Some.
    rewrite <- not_eq_None_Some.
    unfold spending_by_category. rewrite groupby_sum_lookup_None. split.
    + intros Hall. apply not_Forall_Exists in Hall; [|apply _].
      apply Exists_exists in Hall as (r & Hr & Hcat).
      apply elem_of_debit_rows in Hr as (t & Ht & ->).
      exists t. split; [done|]. by apply dec_stable in Hcat.
    + intros (t & Ht & <-) Hall. rewrite Forall_forall in Hall.
      apply (Hall (to_row t)); [|done].
      apply elem_of_debit_rows. by exists t.
  - intros category fraction. rewrite lookup_fmap.
    destruct (spending_by_category !! category) as [amount|] eqn:Ecat; [|done].
    intros [= <-].
    erewrite py_round_comp; [reflexivity|].
    rewrite Htotal.
    assert (amount
            == np_sum (tx_amount <$>
                         filter (λ t, lower (tx_category t) = category)
                           (filter (λ t, tx_type t = DEBIT) transactions)))
      as ->; [|reflexivity].
    pose proof (groupby_sum_lookup r_category
                  (filter (λ r, r_type r = DEBIT) df) category) as Hsum.
    fold spending_by_category in Hsum. rewrite Ecat in Hsum. simpl in Hsum.
    rewrite Hsum.
    exact (debit_amount_sum (λ r, r_category r = category) transactions).
  - rewrite map_size_fmap, <- length_values.
    rewrite (np_sum_Permutation _ _ (values_fmap _ _)).
    destruct (rounded_fractions_sum (values spending_by_category)
                (np_sum (values spending_by_category))) as [H1 _].
    assert (np_sum (values spending_by_category)
            / np_sum (values spending_by_category) == 1) as Hone.
    { field. lra. }
    rewrite Hone in H1. exact H1.
  - rewrite map_size_fmap, <- length_values.
    rewrite (np_sum_Permutation _ _ (values_fmap _ _)).
    destruct (rounded_fractions_sum (values spending_by_category)
                (np_sum (values spending_by_category))) as [_ H2].
    assert (np_sum (values spending_by_category)
            / np_sum (values spending_by_category) == 1) as Hone.
    { field. lra. }
    rewrite Hone in H2. exact H2.
Qed.

Lemma spending_pattern_distribution_fractions_witness :
  ∃ r,
    analyze_transactions sample_now sample_two_months = Some r
    ∧ let debits := filter (λ t, tx_type t = DEBIT) sample_two_months in
      let total := np_sum (tx_amount <$> debits) in
      let distribution := spending_pattern_distribution (behavioral_analysis r) in
      (total == 0 → distribution = ∅)
      ∧ (0 < total →
         (∀ category,
            is_Some (distribution !! category)
            ↔ ∃ t, t ∈ debits ∧ lower (tx_category t) = category)
         ∧ (∀ category fraction,
              distribution !! category = Some fraction →
              fraction
              == py_round
                   (np_sum (tx_amount <$>
                              filter (λ t, lower (tx_category t) = category)
                                debits)
                    / total) 3)
         ∧ - (inject_Z (Z.of_nat (size distribution)) * (1 # 2000))
             <= np_sum (values distribution) - 1
         ∧ np_sum (values distribution) - 1
             <= inject_Z (Z.of_nat (size distribution)) * (1 # 2000)).
Proof.
  apply (spending_pattern_distribution_fractions sample_now sample_two_months).
  - discriminate.
  - repeat constructor; by vm_compute.
Defined.

(** ** The behavioural ratios *)

(** C4, as the code has it. For every non-empty list of transactions
    (amounts are non-negative), if the debits sum to 0 the essential,
    high-risk and weekend spending ratios are 0; otherwise each is the
    debit sum of its category set (or of the weekend days) over the
    total debit sum, rounded to 3 decimals; each lies in [0,1]. *)
Theorem behavioral_ratios_rounded
    (now : datetime) (transactions : list Transaction) :
  transactions ≠ [] →
  Forall (λ t, 0 <= tx_amount t) transactions →
  ∃ r,
    analyze_transactions now transactions = Some r
    ∧ let debits := filter (λ t, tx_type t = DEBIT) transactions in
      let total := np_sum (tx_amount <$> debits) in
      let patterns := behavioral_patterns (behavioral_analysis r) in
      (total == 0 →
       essential_spending_ratio patterns == 0
       ∧ high_risk_spending_ratio patterns == 0
       ∧ weekend_spending_ratio patterns == 0)
      ∧ (¬ total == 0 →
         essential_spending_ratio patterns
         == py_round
              (np_sum (tx_amount <$>
                         filter (λ t, lower (tx_category t) ∈ essential_categories)
                           debits)
               / total) 3
         ∧ high_risk_spending_ratio patterns
           == py_round
                (np_sum (tx_amount <$>
                           filter (λ t, lower (tx_category t) ∈ high_risk_categories)
                             debits)
                 / total) 3
         ∧ weekend_spending_ratio patterns
           == py_round
                (np_sum (tx_amount <$>
                           filter (λ t, weekday (tx_date t) ∈ weekend_days) debits)
                 / total) 3)
      ∧ (0 <= essential_spending_ratio patterns
         ∧ essential_spending_ratio patterns <= 1)
      ∧ (0 <= high_risk_spending_ratio patterns
         ∧ high_risk_spending_ratio patterns <= 1)
      ∧ (0 <= weekend_spending_ratio patterns
         ∧ weekend_spending_ratio patterns <= 1).
Proof.
  intros Hne Hnonneg.
  destruct (pipeline_Some now transactions Hne Hnonneg)
    as (fs & ba & ra & score & eligible & reason & _ & Hba & _ & _ & _ & ->).
  eexists. split; [done|]. cbn.
  pose proof (dataframe_nonneg _ Hnonneg) as Hdf.
  split; [|split; [|apply (patterns_bounds _ ba Hdf Hba)]].
  - intros Hzero.
    destruct (behavioral_analysis_Some _ Hdf) as (ba' & Hba' & _ & _ & Hpatterns).
    rewrite Hba in Hba'. injection Hba' as <-. rewrite Hpatterns.
    destruct (Qltb 0 _) eqn:E; [|by vm_compute].
    apply Qltb_lt in E. rewrite debit_total in E. lra.
  - intros Hpos.
    destruct (behavioral_analysis_Some _ Hdf) as (ba' & Hba' & _ & _ & Hpatterns).
    rewrite Hba in Hba'. injection Hba' as <-. rewrite Hpatterns.
    destruct (Qltb 0 _) eqn:E.
    2:{ apply Qltb_ge in E. rewrite debit_total in E.
        pose proof (np_sum_nonneg (tx_amount <$>
                      filter (λ t, tx_type t = DEBIT) transactions)) as Hsum.
        destruct Hpos. apply Qle_antisym; [done|]. apply Hsum.
        by apply Forall_fmap, Forall_filter. }
    cbn. split_and!; (erewrite py_round_comp; [reflexivity|]);
      rewrite debit_total.
    + by rewrite (debit_amount_sum (λ r, r_category r ∈ essential_categories)).
    + by rewrite (debit_amount_sum (λ r, r_category r ∈ high_risk_categories)).
    + rewrite (debit_amount_sum (λ r, r_is_weekend r = true)).
      erewrite list_filter_iff; [reflexivity|].
      intros t. simpl. by rewrite bool_decide_eq_true.
Qed.

Lemma behavioral_ratios_rounded_witness :
  ∃ r,
    analyze_transactions sample_now sample_two_months = Some r
    ∧ let debits := filter (λ t, tx_type t = DEBIT) sample_two_months in
      let total := np_sum (tx_amount <$> debits) in
      let patterns := behavioral_patterns (behavioral_analysis r) in
      (total == 0 →
       essential_spending_ratio patterns == 0
       ∧ high_risk_spending_ratio patterns == 0
       ∧ weekend_spending_ratio patterns == 0)
      ∧ (¬ total == 0 →
         essential_spending_ratio patterns
         == py_round
              (np_sum (tx_amount <$>
                         filter (λ t, lower (tx_category t) ∈ essential_categories)
                           debits)
               / total) 3
         ∧ high_risk_spending_ratio patterns
           == py_round
                (np_sum (tx_amount <$>
                           filter (λ t, lower (tx_category t) ∈ high_risk_categories)
                             debits)
                 / total) 3
         ∧ weekend_spending_ratio patterns
           == py_round
                (np_sum (tx_amount <$>
                           filter (λ t, weekday (tx_date t) ∈ weekend_days) debits)
                 / total) 3)
      ∧ (0 <= essential_spending_ratio patterns
         ∧ essential_spending_ratio patterns <= 1)
      ∧ (0 <= high_risk_spending_ratio patterns
         ∧ high_risk_spending_ratio patterns <= 1)
      ∧ (0 <= weekend_spending_ratio patterns
         ∧ weekend_spending_ratio patterns <= 1).
Proof.
  apply (behavioral_ratios_rounded sample_now sample_two_months).
  - discriminate.
  - repeat constructor; by vm_compute.
Defined.

(** C4 as stated fails: of three debits of 1, one on groceries, the
    essential debit sum over the total debit sum is 1/3, and the
    essential spending ratio returned is 0.333. *)
Lemma behavioral_ratios_unrounded_counterexample :
  ∃ r,
    analyze_transactions sample_now sample_thirds = Some r
    ∧ let debits := filter (λ t, tx_type t = DEBIT) sample_thirds in
      let total := np_sum (tx_amount <$> debits) in
      let essential :=
        np_sum (tx_amount <$>
                  filter (λ t, lower (tx_category t) ∈ essential_categories)
                    debits) in
      let patterns := behavioral_patterns (behavioral_analysis r) in
      ¬ total == 0
      ∧ essential / total == 1 # 3
      ∧ essential_spending_ratio patterns == 0.333
      ∧ ¬ essential_spending_ratio patterns == essential / total.
Proof.
  eexists. split; [vm_compute; reflexivity|]. by vm_compute.
Qed.

(** ** The eligibility factors *)

Lemma analysis_months (transactions : list Transaction) (ba : BehavioralAnalysis) :
  transactions ≠ [] →
  Forall (λ t, 0 <= tx_amount t) transactions →
  _calculate_behavioral_analysis (_transactions_to_dataframe transactions) = Some ba →
  dom (income_and_spending_analysis ba)
  = list_to_set ((λ t, strftime_Ym (tx_date t)) <$> transactions).
Proof.
  intros Hne Hnonneg Hba.
  pose proof (dataframe_nonneg _ Hnonneg) as Hdf.
  destruct (behavioral_analysis_Some _ Hdf) as (ba' & Hba' & _ & Hisa & _).
  rewrite Hba in Hba'. injection Hba' as <-.
  apply set_eq. intros m.
  rewrite elem_of_dom, elem_of_list_to_set, list_elem_of_fmap, Hisa.
  destruct (decide (m ∈ index _)) as [Hm|Hm].
  - split; [intros _|by eexists].
    apply elem_of_index_frame in Hm as (r & Hr & <-).
    rewrite dataframe_Permutation in Hr.
    apply list_elem_of_fmap in Hr as (t & -> & Ht). by exists t.
  - split; [by intros [? ?]|]. intros (t & -> & Ht). destruct Hm.
    apply elem_of_index_frame. exists (to_row t).
    split; [by apply elem_of_dataframe|done].
Qed.

(** C7. For every non-empty list of transactions (amounts are
    non-negative), with [monthly_incomes] holding, for each month in
    which a transaction of either type falls, the sum of the credits
    of that month (0 for a month without a credit): "Stable income" is
    among the eligibility factors if and only if there are at least 2
    such months and
    [np.std(monthly_incomes) / (np.mean(monthly_incomes) + 1e-6) < 0.3];
    and when none of the four factor conditions holds the factors are
    exactly the fallback "Standard risk profile". *)
Theorem stable_income_factor
    (now : datetime) (transactions : list Transaction) :
  transactions ≠ [] →
  Forall (λ t, 0 <= tx_amount t) transactions →
  ∃ r months,
    analyze_transactions now transactions = Some r
    ∧ let ba := behavioral_analysis r in
      let patterns := behavioral_patterns ba in
      let factors := loan_eligibility_factors (risk_assessment_details r) in
      let monthly_incomes :=
        ma_income <$> values (income_and_spending_analysis ba) in
      let stable_income :=
        (2 ≤ length monthly_incomes)%nat
        ∧ ∃ std mean,
            np_std monthly_incomes = Some std
            ∧ np_mean monthly_incomes = Some mean
            ∧ std / (mean + eps) < 0.3 in
      NoDup months
      ∧ (∀ month,
           month ∈ months
           ↔ ∃ t, t ∈ transactions ∧ strftime_Ym (tx_date t) = month)
      ∧ Forall2
          (λ month income,
             income
             == np_sum (tx_amount <$>
                          filter (λ t, strftime_Ym (tx_date t) = month
                                       ∧ tx_type t = CREDIT) transactions))
          months monthly_incomes
      ∧ length monthly_incomes
        = size (list_to_set ((λ t, strftime_Ym (tx_date t)) <$> transactions)
                  : gset string)
      ∧ ("Stable income" ∈ factors ↔ stable_income)
      ∧ (¬ 0.5 < essential_spending_ratio patterns →
         ¬ high_risk_spending_ratio patterns < 0.15 →
         spending_stability ba
           ∉ [SpendingStability.HIGH; SpendingStability.MEDIUM] →
         ¬ stable_income →
         factors = ["Standard risk profile"]).
Proof.
  intros Hne Hnonneg.
  destruct (pipeline_Some now transactions Hne Hnonneg)
    as (fs & ba & ra & score & eligible & reason & _ & Hba & Hra & _ & _ & ->).
  exists {|
    overall_risk_score := py_round score 1;
    risk_category := _determine_risk_category score;
    loan_eligibility := eligible;
    eligibility_reason := reason;
    financial_summary := fs;
    behavioral_analysis := ba;
    risk_assessment_details := ra;
    created_at := Some now
  |}, (map_to_list (income_and_spending_analysis ba)).*1.
  split; [done|]. cbn.
  pose proof (dataframe_nonneg _ Hnonneg) as Hdf.
  pose proof (dataframe_nonempty _ Hne) as Hdfne.
  destruct (behavioral_analysis_months _ ba Hdfne Hdf Hba) as [_ Hincome].
  destruct (risk_assessment_Some (_transactions_to_dataframe transactions)
              ba Hincome)
    as (ra' & stable & Hra' & Hstable & _ & _ & _ & Hfactors).
  rewrite Hra in Hra'. injection Hra' as <-.
  destruct (behavioral_analysis_Some _ Hdf) as (ba' & Hba' & _ & Hisa & _).
  rewrite Hba in Hba'. injection Hba' as <-.
  pose proof (analysis_months transactions ba Hne Hnonneg Hba) as Hdom.
  split; [apply NoDup_fst_map_to_list|]. split.
  { intros month.
    assert (month ∈ (map_to_list (income_and_spending_analysis ba)).*1
            ↔ month ∈ dom (income_and_spending_analysis ba)) as ->.
    { rewrite elem_of_dom, list_elem_of_fmap. split.
      - intros ([m a] & -> & Hin%elem_of_map_to_list). by eexists.
      - intros [a Ha]. exists (month, a). split; [done|].
        by apply elem_of_map_to_list. }
    rewrite Hdom, elem_of_list_to_set, list_elem_of_fmap.
    split; intros (t & ? & ?); by exists t. }
  split.
  { unfold values. rewrite <- list_fmap_compose.
    apply Forall2_fmap, Forall_Forall2_diag, Forall_forall.
    intros [month a] Ha%elem_of_map_to_list. cbn. rewrite Hisa in Ha.
    destruct (decide (month ∈ index _)); [|done]. injection Ha as <-. cbn.
    apply monthly_cell_transactions. }
  split.
  { by rewrite length_fmap, length_values, <- size_dom, Hdom. }
  rewrite Hfactors. clear Hfactors. rewrite <- Hstable. clear Hstable.
  split.
  - destruct (Qltb 0.5 _), (Qltb _ 0.15), (decide _), stable;
      (split; [intros Hin; try done; exfalso; revert Hin | intros; try done]);
      compute_done.
  - intros H1 H2 H3 H4.
    destruct (Qltb 0.5 _) eqn:E1; [by apply Qltb_lt in E1|].
    destruct (Qltb _ 0.15) eqn:E2; [by apply Qltb_lt in E2|].
    rewrite decide_False by done.
    by destruct stable.
Qed.

Lemma stable_income_factor_witness :
  ∃ r months,
    analyze_transactions sample_now sample_two_months = Some r
    ∧ let ba := behavioral_analysis r in
      let patterns := behavioral_patterns ba in
      let factors := loan_eligibility_factors (risk_assessment_details r) in
      let monthly_incomes :=
        ma_income <$> values (income_and_spending_analysis ba) in
      let stable_income :=
        (2 ≤ length monthly_incomes)%nat
        ∧ ∃ std mean,
            np_std monthly_incomes = Some std
            ∧ np_mean monthly_incomes = Some mean
            ∧ std / (mean + eps) < 0.3 in
      NoDup months
      ∧ (∀ month,
           month ∈ months
           ↔ ∃ t, t ∈ sample_two_months ∧ strftime_Ym (tx_date t) = month)
      ∧ Forall2
          (λ month income,
             income
             == np_sum (tx_amount <$>
                          filter (λ t, strftime_Ym (tx_date t) = month
                                       ∧ tx_type t = CREDIT)
                            sample_two_months))
          months monthly_incomes
      ∧ length monthly_incomes
        = size (list_to_set
                  ((λ t, strftime_Ym (tx_date t)) <$> sample_two_months)
                  : gset string)
      ∧ ("Stable income" ∈ factors ↔ stable_income)
      ∧ (¬ 0.5 < essential_spending_ratio patterns →
         ¬ high_risk_spending_ratio patterns < 0.15 →
         spending_stability ba
           ∉ [SpendingStability.HIGH; SpendingStability.MEDIUM] →
         ¬ stable_income →
         factors = ["Standard risk profile"]).
Proof.
  apply (stable_income_factor sample_now sample_two_months).
  - discriminate.
  - repeat constructor; by vm_compute.
Defined.

(** C7 as stated fails when the months of income data are the months
    with an income: the sample without income has two months, no
    credit in either and so an income of 0 in both, and "Stable
    income" is among its factors. *)
Lemma stable_income_without_income_counterexample :
  ∃ r,
    analyze_transactions sample_now sample_no_income = Some r
    ∧ Forall (λ t, tx_type t = DEBIT) sample_no_income
    ∧ length (values (income_and_spending_analysis (behavioral_analysis r)))
      = 2%nat
    ∧ Forall (λ a, ma_income a == 0)
        (values (income_and_spending_analysis (behavioral_analysis r)))
    ∧ "Stable income"
        ∈ loan_eligibility_factors (risk_assessment_details r).
Proof.
  eexists. split; [vm_compute; reflexivity|].
  split; [by repeat constructor|]. split; [by vm_compute|].
  split; [|compute_done].
  vm_compute. repeat constructor.
Qed.

(** ** The eligibility cascade *)



(** The sample of the gambler matches rules 1 and 2 at once: the score
    is 75.025, the essential ratio 0, and the reason is the message of
    rule 1; the score is reported as 75.0. *)
Lemma loan_eligibility_cascade_sample :
  ∃ r risk_score,
    analyze_transactions sample_now sample_gambler = Some r
    ∧ _calculate_overall_risk_score (financial_summary r)
        (behavioral_analysis r) (risk_assessment_details r) = Some risk_score
    ∧ 75 < risk_score
    ∧ essential_spending_ratio (behavioral_patterns (behavioral_analysis r)) < 0.3
    ∧ loan_eligibility r = false
    ∧ eligibility_reason r
      = "High risk profile with significant financial volatility"
    ∧ overall_risk_score r == 75.
Proof.
  eexists _, _. split; [vm_compute; reflexivity|].
  split; [vm_compute; reflexivity|]. by vm_compute.
Qed.


(** * Further properties *)

(** ** Ranges of the financial summary *)

Lemma round_half_even_ge (x : Q) (lo : Z) :
  inject_Z lo <= x → (lo ≤ round_half_even x)%Z.
Proof.
  intros Hlo.
  assert (lo ≤ Qfloor x)%Z as Hlo'.
  { rewrite <- (Qfloor_Z lo). by apply Qfloor_resp_le. }
  destruct (round_half_even_cases x) as [[-> _]|[-> _]]; lia.
Qed.

Lemma py_round_ge (x : Q) (n : nat) (lo : Z) :
  inject_Z lo <= x → inject_Z lo <= py_round x n.
Proof.
  intros Hlo. unfold py_round. set (p := pow10 n).
  assert (0 < Z.pos p # 1) as Hp by done.
  pose proof (round_half_even_ge (x * (Z.pos p # 1)) (lo * Z.pos p)) as H.
  unfold Qle, inject_Z. simpl. rewrite Z.mul_1_r. apply H.
  rewrite inject_Z_mult. change (inject_Z (Z.pos p)) with (Z.pos p # 1).
  apply Qmult_le_compat_r; lra.
Qed.

Lemma np_std_nonneg (l : list Q) (std : Q) : np_std l = Some std → 0 <= std.
Proof.
  unfold np_std. destruct (np_mean l) as [m|]; [|done]. cbn [mbind option_bind].
  destruct (np_mean _) as [v|]; [|done]. intros [= <-]. apply np_sqrt_nonneg.
Qed.

Lemma variation_nonneg (l : list Q) (std mean cv : Q) :
  Forall (λ x, 0 <= x) l →
  np_std l = Some std → np_mean l = Some mean → div_ std (mean + eps) = Some cv →
  0 <= cv.
Proof.
  intros Hl Hstd Hmean [_ ->]%div_inv.
  pose proof (np_std_nonneg _ _ Hstd).
  pose proof (np_mean_nonneg _ _ Hl Hmean).
  apply Qle_shift_div_l; [unfold eps; lra|]. lra.
Qed.

Section summary.
Context (df : list Row).
Hypothesis df_nonempty : df ≠ [].
Hypothesis df_nonneg : Forall (λ r, 0 <= r_amount r) df.

Local Abbreviation monthly_data := (groupby_sum (λ r, (r_month r, r_type r)) df).

Lemma financial_summary_ranges (fs : FinancialSummary) :
  _calculate_financial_summary df = Some fs →
  0 <= income_volatility fs
  ∧ 0 <= spending_volatility fs
  ∧ (0 <= consistency_score fs ∧ consistency_score fs <= 1)
  ∧ total_savings fs = np_sum (values (monthly_savings fs))
  ∧ 0 <= total_savings fs.
Proof.
  unfold _calculate_financial_summary.
  destruct (monthly_totals_Some monthly_data (index monthly_data) ∅ ∅)
    as (ms & sv & -> & Hms & Hsv).
  { by apply Forall_forall. }
  cbn [mbind option_bind]. rewrite index_column_Some. cbn [mbind option_bind].
  assert (Forall (λ x, 0 <= x)
            ((λ month, default 0 (monthly_data !! (month, CREDIT)))
               <$> index monthly_data)) as Hincome.
  { apply Forall_fmap, Forall_forall. intros m _. by apply cell_nonneg. }
  assert (Forall (λ x, 0 <= x) (values ms)) as Hspending.
  { apply values_Forall. intros m v Hv. rewrite Hms in Hv.
    destruct (decide (m ∈ index monthly_data)); [|by rewrite lookup_empty in Hv].
    injection Hv as <-. by apply cell_nonneg. }
  set (incomes := (λ month, default 0 (monthly_data !! (month, CREDIT)))
                    <$> index monthly_data) in *.
  destruct (np_std incomes) as [istd|] eqn:Histd; [|by cbn].
  cbn [mbind option_bind].
  destruct (np_mean incomes) as [imean|] eqn:Himean; [|by cbn].
  cbn [mbind option_bind].
  destruct (div_ istd _) as [icv|] eqn:Hicv; [|by cbn]. cbn [mbind option_bind].
  destruct (np_std (values ms)) as [sstd|] eqn:Hsstd; [|by cbn].
  cbn [mbind option_bind].
  destruct (np_mean (values ms)) as [smean|] eqn:Hsmean; [|by cbn].
  cbn [mbind option_bind].
  destruct (div_ sstd _) as [scv|] eqn:Hscv; [|by cbn]. cbn [mbind option_bind].
  intros [= <-]. cbn.
  pose proof (variation_nonneg _ _ _ _ Hincome Histd Himean Hicv) as Hi.
  pose proof (variation_nonneg _ _ _ _ Hspending Hsstd Hsmean Hscv) as Hs.
  split_and!.
  - by apply (py_round_ge _ 3 0).
  - by apply (py_round_ge _ 3 0).
  - apply (py_round_bounds _ 3 0 1); unfold inject_Z; [apply py_max_ge_l|].
    apply py_max_le; clear - Hi Hs; unfold Qdiv; change (/ 2) with (1 # 2); lra.
  - apply (py_round_bounds _ 3 0 1); unfold inject_Z; [apply py_max_ge_l|].
    apply py_max_le; clear - Hi Hs; unfold Qdiv; change (/ 2) with (1 # 2); lra.
  - done.
  - apply np_sum_nonneg, values_Forall. intros m v Hv. rewrite Hsv in Hv.
    destruct (decide (m ∈ index monthly_data)); [|by rewrite lookup_empty in Hv].
    injection Hv as <-. apply py_max_ge_l.
Qed.
End summary.

(** ** The monthly mappings *)

Lemma index_months (transactions : list Transaction) (m : string) :
  m ∈ index (groupby_sum (λ r, (r_month r, r_type r))
               (_transactions_to_dataframe transactions))
  ↔ m ∈ (list_to_set ((λ t, strftime_Ym (tx_date t)) <$> transactions)
           : gset string).
Proof.
  rewrite elem_of_index_frame, elem_of_list_to_set, list_elem_of_fmap. split.
  - intros (r & Hr & <-). rewrite dataframe_Permutation in Hr.
    apply list_elem_of_fmap in Hr as (t & -> & Ht). by exists t.
  - intros (t & -> & Ht). exists (to_row t).
    split; [by apply elem_of_dataframe|done].
Qed.

Lemma dom_index {V} (transactions : list Transaction) (d : gmap string V) :
  (∀ m, is_Some (d !! m)
        ↔ m ∈ index (groupby_sum (λ r, (r_month r, r_type r))
                       (_transactions_to_dataframe transactions))) →
  dom d = list_to_set ((λ t, strftime_Ym (tx_date t)) <$> transactions).
Proof.
  intros Hd. apply set_eq. intros m.
  by rewrite elem_of_dom, Hd, index_months.
Qed.

Lemma NoDup_index (s : gmap (string * TransactionType) Q) : NoDup (index s).
Proof. unfold index. apply NoDup_elements. Qed.

(** A dictionary filled by a loop over a duplicate-free list holds the
    values in the order of the list, up to a permutation. *)
Lemma values_of_loop {V} (d : gmap string V) (months : list string) (f : string → V) :
  NoDup months →
  (∀ m, d !! m = if decide (m ∈ months) then Some (f m) else None) →
  values d ≡ₚ f <$> months.
Proof.
  intros Hnodup Hd.
  assert (d = list_to_map ((λ m, (m, f m)) <$> months)) as ->.
  { apply map_eq. intros m. rewrite Hd.
    destruct (decide (m ∈ months)) as [Hm|Hm].
    - symmetry. apply elem_of_list_to_map.
      + by rewrite <- list_fmap_compose, list_fmap_id.
      + apply list_elem_of_fmap. by exists m.
    - symmetry. apply not_elem_of_list_to_map.
      by rewrite <- list_fmap_compose, list_fmap_id. }
  unfold values. rewrite map_to_list_to_map.
  - by rewrite <- list_fmap_compose.
  - by rewrite <- list_fmap_compose, list_fmap_id.
Qed.

Lemma indicator_sum (months : list string) (k : string) (a : Q) :
  NoDup months → k ∈ months →
  np_sum ((λ m, if decide (k = m) then a else 0) <$> months) == a.
Proof.
  induction 1 as [|m months Hm _ IH]; [by intros ?%not_elem_of_nil|].
  intros [->|Hk]%elem_of_cons; csimpl.
  - rewrite decide_True by done.
    assert (np_sum ((λ m', if decide (m = m') then a else 0) <$> months) == 0)
      as ->; [|lra].
    clear IH. induction months as [|m' months IH]; csimpl; [reflexivity|].
    rewrite decide_False.
    2:{ intros ->. apply Hm. by left. }
    rewrite IH; [lra|]. intros ?. apply Hm. by right.
  - rewrite decide_False.
    2:{ intros ->. done. }
    rewrite IH by done. lra.
Qed.

(** The cells of one column of the monthly table add up to the sum of
    the rows of that type. *)
Lemma column_sum (df : list Row) (months : list string) (col : TransactionType) :
  NoDup months → Forall (λ r, r_month r ∈ months) df →
  np_sum ((λ m, amount_sum (filter (λ r, (r_month r, r_type r) = (m, col)) df))
            <$> months)
  == amount_sum (filter (λ r, r_type r = col) df).
Proof.
  intros Hnodup. induction 1 as [|r df Hr _ IH].
  - assert (∀ l : list string, np_sum ((λ _, amount_sum []) <$> l) == 0) as H.
    { induction l as [|? ? IHl]; csimpl; [reflexivity|].
      rewrite IHl. unfold amount_sum. csimpl. lra. }
    apply H.
  - rewrite (filter_cons (λ r, r_type r = col)).
    assert (np_sum ((λ m, amount_sum
                       (filter (λ r0, (r_month r0, r_type r0) = (m, col)) (r :: df)))
                      <$> months)
            == np_sum ((λ m, if decide (r_month r = m)
                             then (if decide (r_type r = col) then r_amount r else 0)
                             else 0) <$> months)
               + np_sum ((λ m, amount_sum
                            (filter (λ r0, (r_month r0, r_type r0) = (m, col)) df))
                           <$> months)) as ->.
    { clear. induction months as [|m months IHm]; csimpl; [lra|].
      rewrite IHm. rewrite filter_cons.
      destruct (decide ((r_month r, r_type r) = (m, col))) as [[= <- <-]|Hne].
      - rewrite !decide_True by done. unfold amount_sum. csimpl. lra.
      - destruct (decide (r_month r = m)) as [<-|?]; [|lra].
        rewrite decide_False; [lra|]. by intros <-. }
    rewrite indicator_sum, IH by done.
    destruct (decide (r_type r = col)); unfold amount_sum; csimpl; lra.
Qed.

(** X1. For a non-empty list of transactions with non-negative amounts
    the three monthly mappings have the same keys, the months in which
    a transaction falls; for each month the spending of the financial
    summary is the spending of the monthly analysis, the savings are
    [max(0, income - spending)] of that entry, and the savings rate is
    [(income - spending) / (income + 1e-6)], below 1. *)
Theorem monthly_mappings_agree
    (now : datetime) (transactions : list Transaction) :
  transactions ≠ [] →
  Forall (λ t, 0 <= tx_amount t) transactions →
  ∃ r,
    analyze_transactions now transactions = Some r
    ∧ let fs := financial_summary r in
      let analysis := income_and_spending_analysis (behavioral_analysis r) in
      let months : gset string :=
        list_to_set ((λ t, strftime_Ym (tx_date t)) <$> transactions) in
      dom (monthly_spendings fs) = months
      ∧ dom (monthly_savings fs) = months
      ∧ dom analysis = months
      ∧ ∀ month a,
          analysis !! month = Some a →
          monthly_spendings fs !! month = Some (ma_spending a)
          ∧ monthly_savings fs !! month
            = Some (py_max 0 (ma_income a - ma_spending a))
          ∧ ma_savings_rate a
            = (ma_income a - ma_spending a) / (ma_income a + eps)
          ∧ 0 <= ma_income a
          ∧ 0 <= ma_spending a
          ∧ ma_savings_rate a < 1.
Proof.
  intros Hne Hnonneg.
  destruct (pipeline_Some now transactions Hne Hnonneg)
    as (fs & ba & ra & score & eligible & reason & Hfs & Hba & _ & _ & _ & ->).
  eexists. split; [done|]. cbn.
  pose proof (dataframe_nonneg _ Hnonneg) as Hdf.
  pose proof (dataframe_nonempty _ Hne) as Hdfne.
  destruct (financial_summary_Some _ Hdfne Hdf) as (fs' & Hfs' & Hms & Hsv & _).
  rewrite Hfs in Hfs'. injection Hfs' as <-.
  destruct (behavioral_analysis_Some _ Hdf) as (ba' & Hba' & _ & Hisa & _).
  rewrite Hba in Hba'. injection Hba' as <-.
  split_and!.
  - apply dom_index. intros m. rewrite Hms.
    destruct (decide _); [by split; [|eexists] | by split; [intros [? ?]|]].
  - apply dom_index. intros m. rewrite Hsv.
    destruct (decide _); [by split; [|eexists] | by split; [intros [? ?]|]].
  - apply dom_index. intros m. rewrite Hisa.
    destruct (decide _); [by split; [|eexists] | by split; [intros [? ?]|]].
  - intros month a. rewrite Hisa, Hms, Hsv.
    destruct (decide _); [|done]. intros [= <-]. cbn.
    pose proof (cell_nonneg _ Hdf (month, CREDIT)) as Hc.
    pose proof (cell_nonneg _ Hdf (month, DEBIT)) as Hd.
    split_and!; try done.
    apply Qlt_shift_div_r; [unfold eps; lra|]. unfold eps. lra.
Qed.

Lemma monthly_mappings_agree_witness :
  ∃ r,
    analyze_transactions sample_now sample_two_months = Some r
    ∧ let fs := financial_summary r in
      let analysis := income_and_spending_analysis (behavioral_analysis r) in
      let months : gset string :=
        list_to_set ((λ t, strftime_Ym (tx_date t)) <$> sample_two_months) in
      dom (monthly_spendings fs) = months
      ∧ dom (monthly_savings fs) = months
      ∧ dom analysis = months
      ∧ ∀ month a,
          analysis !! month = Some a →
          monthly_spendings fs !! month = Some (ma_spending a)
          ∧ monthly_savings fs !! month
            = Some (py_max 0 (ma_income a - ma_spending a))
          ∧ ma_savings_rate a
            = (ma_income a - ma_spending a) / (ma_income a + eps)
          ∧ 0 <= ma_income a
          ∧ 0 <= ma_spending a
          ∧ ma_savings_rate a < 1.
Proof.
  apply (monthly_mappings_agree sample_now sample_two_months).
  - discriminate.
  - repeat constructor; by vm_compute.
Defined.

(** X2. For a non-empty list of transactions with non-negative amounts
    both volatilities of the financial summary are non-negative, the
    consistency score lies in [0,1], and the transaction frequency is
    the number of transactions. *)
Theorem financial_summary_in_range
    (now : datetime) (transactions : list Transaction) :
  transactions ≠ [] →
  Forall (λ t, 0 <= tx_amount t) transactions →
  ∃ r,
    analyze_transactions now transactions = Some r
    ∧ 0 <= income_volatility (financial_summary r)
    ∧ 0 <= spending_volatility (financial_summary r)
    ∧ 0 <= consistency_score (financial_summary r)
    ∧ consistency_score (financial_summary r) <= 1
    ∧ transaction_frequency (financial_summary r)
      = Z.of_nat (length transactions).
Proof.
  intros Hne Hnonneg.
  destruct (pipeline_Some now transactions Hne Hnonneg)
    as (fs & ba & ra & score & eligible & reason & Hfs & _ & _ & _ & _ & ->).
  eexists. split; [done|]. cbn.
  pose proof (dataframe_nonneg _ Hnonneg) as Hdf.
  pose proof (dataframe_nonempty _ Hne) as Hdfne.
  destruct (financial_summary_ranges _ Hdf fs Hfs)
    as (Hi & Hs & [Hc0 Hc1] & _ & _).
  destruct (financial_summary_Some _ Hdfne Hdf) as (fs' & Hfs' & _ & _ & Hfreq).
  rewrite Hfs in Hfs'. injection Hfs' as <-.
  split_and!; try done. by rewrite Hfreq, dataframe_length.
Qed.

Lemma financial_summary_in_range_witness :
  ∃ r,
    analyze_transactions sample_now sample_two_months = Some r
    ∧ 0 <= income_volatility (financial_summary r)
    ∧ 0 <= spending_volatility (financial_summary r)
    ∧ 0 <= consistency_score (financial_summary r)
    ∧ consistency_score (financial_summary r) <= 1
    ∧ transaction_frequency (financial_summary r)
      = Z.of_nat (length sample_two_months).
Proof.
  apply (financial_summary_in_range sample_now sample_two_months).
  - discriminate.
  - repeat constructor; by vm_compute.
Defined.

(** X3. For a non-empty list of transactions with non-negative amounts
    the total savings are the sum of the monthly savings, never
    negative and never more than the sum of the credits. *)
Theorem total_savings_bounded
    (now : datetime) (transactions : list Transaction) :
  transactions ≠ [] →
  Forall (λ t, 0 <= tx_amount t) transactions →
  ∃ r,
    analyze_transactions now transactions = Some r
    ∧ total_savings (financial_summary r)
      = np_sum (values (monthly_savings (financial_summary r)))
    ∧ 0 <= total_savings (financial_summary r)
    ∧ total_savings (financial_summary r)
      <= np_sum (tx_amount <$> filter (λ t, tx_type t = CREDIT) transactions).
Proof.
  intros Hne Hnonneg.
  destruct (pipeline_Some now transactions Hne Hnonneg)
    as (fs & ba & ra & score & eligible & reason & Hfs & _ & _ & _ & _ & ->).
  eexists. split; [done|]. cbn.
  pose proof (dataframe_nonneg _ Hnonneg) as Hdf.
  pose proof (dataframe_nonempty _ Hne) as Hdfne.
  destruct (financial_summary_ranges _ Hdf fs Hfs)
    as (_ & _ & _ & Htotal & Hpos).
  destruct (financial_summary_Some _ Hdfne Hdf) as (fs' & Hfs' & _ & Hsv & _).
  rewrite Hfs in Hfs'. injection Hfs' as <-.
  split_and!; [done..|]. rewrite Htotal.
  set (df := _transactions_to_dataframe transactions) in *.
  set (monthly_data := groupby_sum (λ r, (r_month r, r_type r)) df) in *.
  rewrite (np_sum_Permutation _ _
             (values_of_loop _ _ _ (NoDup_index monthly_data) Hsv)).
  assert (amount_sum (filter (λ r, r_type r = CREDIT) df)
          == np_sum (tx_amount <$>
                       filter (λ t, tx_type t = CREDIT) transactions))
    as <- by exact (dataframe_amount_sum (λ r, r_type r = CREDIT) transactions).
  rewrite <- (column_sum df (index monthly_data) CREDIT (NoDup_index _)).
  2:{ apply Forall_forall. intros r Hr. apply elem_of_index_frame. by exists r. }
  generalize (index monthly_data). intros months.
  induction months as [|m months IH]; csimpl; [lra|].
  pose proof (groupby_sum_lookup (λ r, (r_month r, r_type r)) df (m, CREDIT))
    as Hcell.
  fold monthly_data in Hcell. rewrite <- Hcell.
  pose proof (cell_nonneg _ Hdf (m, CREDIT)) as Hc.
  pose proof (cell_nonneg _ Hdf (m, DEBIT)) as Hd.
  fold df monthly_data in Hc, Hd.
  assert (py_max 0 (default 0 (monthly_data !! (m, CREDIT))
                    - default 0 (monthly_data !! (m, DEBIT)))
          <= default 0 (monthly_data !! (m, CREDIT))) as Hle.
  { apply py_max_le; lra. }
  revert IH Hle. clear.
  generalize (py_max 0 (default 0 (monthly_data !! (m, CREDIT))
                        - default 0 (monthly_data !! (m, DEBIT)))).
  generalize (default 0 (monthly_data !! (m, CREDIT))).
  intros. lra.
Qed.

Lemma total_savings_bounded_witness :
  ∃ r,
    analyze_transactions sample_now sample_two_months = Some r
    ∧ total_savings (financial_summary r)
      = np_sum (values (monthly_savings (financial_summary r)))
    ∧ 0 <= total_savings (financial_summary r)
    ∧ total_savings (financial_summary r)
      <= np_sum (tx_amount <$> filter (λ t, tx_type t = CREDIT) sample_two_months).
Proof.
  apply (total_savings_bounded sample_now sample_two_months).
  - discriminate.
  - repeat constructor; by vm_compute.
Defined.

(** ** Category, score and decision *)

Lemma py_round_le (x : Q) (n : nat) (hi : Z) :
  0 <= x → x <= inject_Z hi → py_round x n <= inject_Z hi.
Proof. intros H0 Hhi. by apply (py_round_bounds x n 0 hi). Qed.

(** X4. For a non-empty list of transactions with non-negative amounts
    the reported score and the risk category fit together, although
    the category is taken before the score is rounded: low has a score
    of at most 40, medium a score from 40 to 70, high a score of at
    least 70.  An eligible customer has a score of at most 75, and a
    score above 75 comes with the high category and a rejection. *)
Theorem risk_category_fits_score
    (now : datetime) (transactions : list Transaction) :
  transactions ≠ [] →
  Forall (λ t, 0 <= tx_amount t) transactions →
  ∃ r,
    analyze_transactions now transactions = Some r
    ∧ (risk_category r = RiskCategory.LOW → overall_risk_score r <= 40)
    ∧ (risk_category r = RiskCategory.MEDIUM →
       40 <= overall_risk_score r ∧ overall_risk_score r <= 70)
    ∧ (risk_category r = RiskCategory.HIGH → 70 <= overall_risk_score r)
    ∧ (loan_eligibility r = true → overall_risk_score r <= 75)
    ∧ (75 < overall_risk_score r →
       risk_category r = RiskCategory.HIGH ∧ loan_eligibility r = false).
Proof.
  intros Hne Hnonneg.
  destruct (pipeline_Some now transactions Hne Hnonneg)
    as (fs & ba & ra & score & eligible & reason
        & _ & Hba & _ & Hscore & Helig & ->).
  eexists. split; [done|]. cbn.
  pose proof (dataframe_nonneg _ Hnonneg) as Hdf.
  pose proof (dataframe_nonempty _ Hne) as Hdfne.
  destruct (behavioral_analysis_months _ ba Hdfne Hdf Hba) as [Hisa _].
  destruct (overall_risk_score_Some ba fs ra Hisa) as (score' & Hscore' & H0 & H100).
  rewrite Hscore in Hscore'. injection Hscore' as <-.
  destruct (loan_eligibility_Some ba score fs Hisa)
    as (avg & eligible' & reason' & _ & Helig' & H1 & _).
  rewrite Helig in Helig'. injection Helig' as <- <-.
  assert (75 < py_round score 1 → 75 < score) as Hhigh.
  { intros Hround. destruct (Qlt_le_dec 75 score) as [|Hle]; [done|].
    pose proof (py_round_le score 1 75 H0 Hle) as H. unfold inject_Z in H. lra. }
  unfold _determine_risk_category.
  destruct (Qltb score 40) eqn:E40; [apply Qltb_lt in E40 | apply Qltb_ge in E40].
  { split_and!; try done.
    - intros _. apply (py_round_le score 1 40); [done|]. unfold inject_Z. lra.
    - intros ->. destruct (Qlt_le_dec 75 score) as [Hlt|Hle].
      + by destruct (H1 Hlt).
      + by apply (py_round_le score 1 75).
    - intros Hround%Hhigh. lra. }
  destruct (Qltb score 70) eqn:E70; [apply Qltb_lt in E70 | apply Qltb_ge in E70].
  { split_and!; try done.
    - intros _. split.
      + by apply (py_round_ge score 1 40).
      + apply (py_round_le score 1 70); [done|]. unfold inject_Z. lra.
    - intros ->. destruct (Qlt_le_dec 75 score) as [Hlt|Hle].
      + by destruct (H1 Hlt).
      + by apply (py_round_le score 1 75).
    - intros Hround%Hhigh. lra. }
  split_and!; try done.
  - intros _. by apply (py_round_ge score 1 70).
  - intros ->. destruct (Qlt_le_dec 75 score) as [Hlt|Hle].
    + by destruct (H1 Hlt).
    + by apply (py_round_le score 1 75).
  - intros Hround%Hhigh. split; [done|]. by destruct (H1 Hround).
Qed.

Lemma risk_category_fits_score_witness :
  ∃ r,
    analyze_transactions sample_now sample_gambler = Some r
    ∧ (risk_category r = RiskCategory.LOW → overall_risk_score r <= 40)
    ∧ (risk_category r = RiskCategory.MEDIUM →
       40 <= overall_risk_score r ∧ overall_risk_score r <= 70)
    ∧ (risk_category r = RiskCategory.HIGH → 70 <= overall_risk_score r)
    ∧ (loan_eligibility r = true → overall_risk_score r <= 75)
    ∧ (75 < overall_risk_score r →
       risk_category r = RiskCategory.HIGH ∧ loan_eligibility r = false).
Proof.
  apply (risk_category_fits_score sample_now sample_gambler).
  - discriminate.
  - repeat constructor; by vm_compute.
Defined.

Lemma loan_eligibility_shape (ba : BehavioralAnalysis) (risk_score : Q)
    (fs : FinancialSummary) (eligible : bool) (reason : string) :
  _determine_loan_eligibility risk_score fs ba = Some (eligible, reason) →
  (eligible = true →
   String.prefix "Eligible based on " reason = true
   ∧ reason ≠ "Eligible based on "
   ∧ risk_score <= 75
   ∧ 0.3 <= essential_spending_ratio (behavioral_patterns ba)
   ∧ high_risk_spending_ratio (behavioral_patterns ba) <= 0.25
   ∧ 0.3 <= consistency_score fs)
  ∧ (eligible = false →
     reason ∈ [ "High risk profile with significant financial volatility";
                "Insufficient essential spending pattern indicating unstable lifestyle";
                "Excessive high-risk spending indicating poor financial discipline";
                "Negative savings rate indicating financial stress";
                "Highly inconsistent financial behavior" ]).
Proof.
  unfold _determine_loan_eligibility.
  destruct (Qltb 75 risk_score) eqn:E1.
  { intros [= <- <-]. split; [done|]. intros _. compute_done. }
  destruct (Qltb (essential_spending_ratio _) 0.3) eqn:E2.
  { intros [= <- <-]. split; [done|]. intros _. compute_done. }
  destruct (Qltb 0.25 _) eqn:E3.
  { intros [= <- <-]. split; [done|]. intros _. compute_done. }
  destruct (np_mean _) as [avg|]; [|done]. cbn [mbind option_bind].
  destruct (Qltb avg (-0.1)) eqn:E4.
  { intros [= <- <-]. split; [done|]. intros _. compute_done. }
  destruct (Qltb (consistency_score fs) 0.3) eqn:E5.
  { intros [= <- <-]. split; [done|]. intros _. compute_done. }
  apply Qltb_ge in E1, E2, E3, E5.
  destruct (Qltb 0.5 _), (Qltb _ 0.15), (Qltb 0.7 _), (Qltb 0.05 avg);
    intros [= <- <-]; (split; [|done]); intros _;
    (split_and!; [by vm_compute | by vm_compute | done..]).
Qed.

(** X5. For a non-empty list of transactions with non-negative amounts:
    an eligible customer gets a reason that starts with
    "Eligible based on " and names at least one strength, and has a
    reported score of at most 75, an essential ratio of at least 0.3, a
    high-risk ratio of at most 0.25 and a consistency score of at least
    0.3; a rejected customer gets one of the five rejection messages. *)
Theorem eligibility_reason_shape
    (now : datetime) (transactions : list Transaction) :
  transactions ≠ [] →
  Forall (λ t, 0 <= tx_amount t) transactions →
  ∃ r,
    analyze_transactions now transactions = Some r
    ∧ (loan_eligibility r = true →
       String.prefix "Eligible based on " (eligibility_reason r) = true
       ∧ eligibility_reason r ≠ "Eligible based on "
       ∧ overall_risk_score r <= 75
       ∧ 0.3 <= essential_spending_ratio
                  (behavioral_patterns (behavioral_analysis r))
       ∧ high_risk_spending_ratio
           (behavioral_patterns (behavioral_analysis r)) <= 0.25
       ∧ 0.3 <= consistency_score (financial_summary r))
    ∧ (loan_eligibility r = false →
       eligibility_reason r
       ∈ [ "High risk profile with significant financial volatility";
           "Insufficient essential spending pattern indicating unstable lifestyle";
           "Excessive high-risk spending indicating poor financial discipline";
           "Negative savings rate indicating financial stress";
           "Highly inconsistent financial behavior" ]).
Proof.
  intros Hne Hnonneg.
  destruct (pipeline_Some now transactions Hne Hnonneg)
    as (fs & ba & ra & score & eligible & reason
        & _ & Hba & _ & Hscore & Helig & ->).
  eexists. split; [done|]. cbn.
  pose proof (dataframe_nonneg _ Hnonneg) as Hdf.
  pose proof (dataframe_nonempty _ Hne) as Hdfne.
  destruct (behavioral_analysis_months _ ba Hdfne Hdf Hba) as [Hisa _].
  destruct (overall_risk_score_Some ba fs ra Hisa) as (score' & Hscore' & H0 & _).
  rewrite Hscore in Hscore'. injection Hscore' as <-.
  destruct (loan_eligibility_shape ba score fs eligible reason Helig)
    as [Hyes Hno].
  split; [|done]. intros Helig'.
  destruct (Hyes Helig') as (? & ? & Hle & ? & ? & ?).
  split_and!; try done. by apply (py_round_le score 1 75).
Qed.

Lemma eligibility_reason_shape_witness :
  ∃ r,
    analyze_transactions sample_now sample_two_months = Some r
    ∧ (loan_eligibility r = true →
       String.prefix "Eligible based on " (eligibility_reason r) = true
       ∧ eligibility_reason r ≠ "Eligible based on "
       ∧ overall_risk_score r <= 75
       ∧ 0.3 <= essential_spending_ratio
                  (behavioral_patterns (behavioral_analysis r))
       ∧ high_risk_spending_ratio
           (behavioral_patterns (behavioral_analysis r)) <= 0.25
       ∧ 0.3 <= consistency_score (financial_summary r))
    ∧ (loan_eligibility r = false →
       eligibility_reason r
       ∈ [ "High risk profile with significant financial volatility";
           "Insufficient essential spending pattern indicating unstable lifestyle";
           "Excessive high-risk spending indicating poor financial discipline";
           "Negative savings rate indicating financial stress";
           "Highly inconsistent financial behavior" ]).
Proof.
  apply (eligibility_reason_shape sample_now sample_two_months).
  - discriminate.
  - repeat constructor; by vm_compute.
Defined.

(** X6. For a non-empty list of transactions with non-negative amounts
    the eligibility factors are never empty, hold no factor twice and
    at most four factors in the order of the four tests; the first
    three factors are present exactly when their test holds, and the
    fallback "Standard risk profile" only ever stands alone. *)
Theorem eligibility_factors_well_formed
    (now : datetime) (transactions : list Transaction) :
  transactions ≠ [] →
  Forall (λ t, 0 <= tx_amount t) transactions →
  ∃ r,
    analyze_transactions now transactions = Some r
    ∧ let ba := behavioral_analysis r in
      let patterns := behavioral_patterns ba in
      let factors := loan_eligibility_factors (risk_assessment_details r) in
      factors ≠ []
      ∧ NoDup factors
      ∧ (factors = ["Standard risk profile"]
         ∨ factors `sublist_of`
             [ "High essential spending ratio"; "Low discretionary spending";
               "Stable spending pattern"; "Stable income" ])
      ∧ ("High essential spending ratio" ∈ factors
         ↔ 0.5 < essential_spending_ratio patterns)
      ∧ ("Low discretionary spending" ∈ factors
         ↔ high_risk_spending_ratio patterns < 0.15)
      ∧ ("Stable spending pattern" ∈ factors
         ↔ spending_stability ba
             ∈ [SpendingStability.HIGH; SpendingStability.MEDIUM])
      ∧ ("Standard risk profile" ∈ factors
         → factors = ["Standard risk profile"]).
Proof.
  intros Hne Hnonneg.
  destruct (pipeline_Some now transactions Hne Hnonneg)
    as (fs & ba & ra & score & eligible & reason & _ & Hba & Hra & _ & _ & ->).
  eexists. split; [done|]. cbn.
  pose proof (dataframe_nonneg _ Hnonneg) as Hdf.
  pose proof (dataframe_nonempty _ Hne) as Hdfne.
  destruct (behavioral_analysis_months _ ba Hdfne Hdf Hba) as [_ Hincome].
  destruct (risk_assessment_Some (_transactions_to_dataframe transactions)
              ba Hincome)
    as (ra' & stable & Hra' & _ & _ & _ & _ & Hfactors).
  rewrite Hra in Hra'. injection Hra' as <-.
  rewrite Hfactors. clear Hfactors. rewrite <- !Qltb_lt.
  destruct (Qltb 0.5 _), (Qltb _ 0.15), (decide _) as [Hstab|Hstab], stable;
    (split_and!;
     [ done
     | compute_done
     | first [ by left
             | right;
               repeat first [ apply sublist_nil | apply sublist_skip
                            | apply sublist_cons ] ]
     | split; [intros Hin; first [done | exfalso; revert Hin; compute_done]
              | intros ?; first [done | compute_done]]
     | split; [intros Hin; first [done | exfalso; revert Hin; compute_done]
              | intros ?; first [done | compute_done]]
     | split; [intros Hin; first [done | exfalso; revert Hin; compute_done]
              | intros ?; first [done | compute_done]]
     | intros Hin; first [done | exfalso; revert Hin; compute_done] ]).
Qed.

Lemma eligibility_factors_well_formed_witness :
  ∃ r,
    analyze_transactions sample_now sample_thirds = Some r
    ∧ let ba := behavioral_analysis r in
      let patterns := behavioral_patterns ba in
      let factors := loan_eligibility_factors (risk_assessment_details r) in
      factors ≠ []
      ∧ NoDup factors
      ∧ (factors = ["Standard risk profile"]
         ∨ factors `sublist_of`
             [ "High essential spending ratio"; "Low discretionary spending";
               "Stable spending pattern"; "Stable income" ])
      ∧ ("High essential spending ratio" ∈ factors
         ↔ 0.5 < essential_spending_ratio patterns)
      ∧ ("Low discretionary spending" ∈ factors
         ↔ high_risk_spending_ratio patterns < 0.15)
      ∧ ("Stable spending pattern" ∈ factors
         ↔ spending_stability ba
             ∈ [SpendingStability.HIGH; SpendingStability.MEDIUM])
      ∧ ("Standard risk profile" ∈ factors
         → factors = ["Standard risk profile"]).
Proof.
  apply (eligibility_factors_well_formed sample_now sample_thirds).
  - discriminate.
  - repeat constructor; by vm_compute.
Defined.

(** ** Spending stability *)

Lemma np_sum_const (l : list Q) (v : Q) :
  Forall (λ x, x == v) l →
  np_sum l == inject_Z (Z.of_nat (length l)) * v.
Proof.
  induction 1 as [|x l Hx _ IH]; csimpl.
  - change (inject_Z (Z.of_nat 0)) with 0. ring.
  - rewrite Nat2Z.inj_succ. unfold Z.succ. rewrite inject_Z_plus, IH, Hx.
    change (inject_Z 1) with 1. ring.
Qed.

Lemma Qnum_zero (x : Q) : x == 0 → Qnum x = 0%Z.
Proof. unfold Qeq. simpl. lia. Qed.

Lemma squares_const (l : list Q) (v m : Q) :
  Forall (λ x, x == v) l → m == v →
  np_sum ((λ x, (x - m) * (x - m)) <$> l) == 0.
Proof.
  intros Hl Hm. induction Hl as [|x l Hx _ IH]; csimpl; [reflexivity|].
  rewrite IH, Hx, Hm. ring.
Qed.

(** A series of equal values has no deviation. *)
Lemma np_std_const (l : list Q) (v : Q) :
  l ≠ [] → Forall (λ x, x == v) l →
  ∃ std, np_std l = Some std ∧ std == 0.
Proof.
  intros Hne Hl. unfold np_std. rewrite (np_mean_Some l Hne).
  cbn [mbind option_bind].
  set (m := np_sum l / inject_Z (Z.of_nat (length l))).
  assert (m == v) as Hm.
  { unfold m. rewrite (np_sum_const l v Hl).
    assert (¬ inject_Z (Z.of_nat (length l)) == 0) as Hlen.
    { destruct l; [done|]. unfold Qeq, inject_Z. simpl. lia. }
    revert Hlen. generalize (inject_Z (Z.of_nat (length l))). intros n Hn.
    field. done. }
  rewrite np_mean_Some by (by destruct l).
  cbn [mbind option_bind]. eexists. split; [done|].
  set (squares := (λ x, (x - m) * (x - m)) <$> l).
  assert (np_sum squares == 0) as Hsq by by apply (squares_const l v).
  assert (Qnum (np_sum squares / inject_Z (Z.of_nat (length squares))) = 0%Z)
    as Hnum.
  { apply Qnum_zero. rewrite Hsq. unfold Qdiv. ring. }
  unfold np_sqrt. rewrite Hnum. unfold Qeq. simpl. done.
Qed.

Section stability.
Context (df : list Row).
Hypothesis df_nonneg : Forall (λ r, 0 <= r_amount r) df.

Local Abbreviation debits := (filter (λ r, r_type r = DEBIT) df).
Local Abbreviation monthly_spending := (groupby_sum r_month debits).

(** With fewer than two months of debits there is nothing to compare. *)
Lemma spending_stability_one_month :
  (∀ r1 r2, r1 ∈ debits → r2 ∈ debits → r_month r1 = r_month r2) →
  _determine_spending_stability df = Some SpendingStability.MEDIUM.
Proof.
  intros Hsame. unfold _determine_spending_stability.
  rewrite decide_True; [reflexivity|].
  destruct (decide (debits = [])) as [E|E].
  { rewrite E. simpl. rewrite map_size_empty. lia. }
  destruct (nonempty_elem_of _ E) as [r0 Hr0].
  assert (dom monthly_spending ⊆ ({[ r_month r0 ]} : gset string)) as Hdom.
  { intros m Hm. apply elem_of_dom in Hm.
    apply not_eq_None_Some in Hm.
    rewrite groupby_sum_lookup_None in Hm.
    apply not_Forall_Exists in Hm; [|apply _].
    apply Exists_exists in Hm as (r & Hr & Hkey).
    apply dec_stable in Hkey. subst m. apply elem_of_singleton.
    by apply Hsame. }
  apply subseteq_size in Hdom. rewrite size_singleton, size_dom in Hdom. lia.
Qed.

(** Equal debit totals in two or more months are the steadiest
    spending there is. *)
Lemma spending_stability_steady (v : Q) :
  (2 ≤ size monthly_spending)%nat →
  map_Forall (λ _ total, total == v) monthly_spending →
  _determine_spending_stability df = Some SpendingStability.HIGH.
Proof.
  intros Hsize Hsame. unfold _determine_spending_stability.
  rewrite decide_False by lia.
  assert (values monthly_spending ≠ []) as Hne.
  { apply values_nonempty. intros Hempty.
    rewrite Hempty, map_size_empty in Hsize. lia. }
  destruct (np_std_const (values monthly_spending) v Hne) as (std & Hstd & Hzero).
  { by apply values_Forall. }
  destruct (variation_Some (values monthly_spending) Hne)
    as (std' & mean & cv & Hstd' & Hmean & Hcv).
  { apply values_Forall, groupby_sum_nonneg. by apply Forall_filter. }
  rewrite Hstd in Hstd'. injection Hstd' as <-.
  step Hstd. step Hmean. step Hcv.
  apply div_inv in Hcv as [_ ->].
  assert (Qltb (std / (mean + eps)) 0.2 = true) as ->; [|done].
  apply Qltb_lt. rewrite Hzero. unfold Qdiv. rewrite Qmult_0_l. done.
Qed.
End stability.

(** Opens the first step of a computation that has returned. *)
Ltac inv_bind H x :=
  match type of H with
  | (?m ≫= _) = Some _ =>
      destruct m as [x|] eqn:?; cbn [mbind option_bind] in H; [|discriminate H]
  end.

Lemma size_two `{Countable K} {V} (d : gmap K V) (k1 k2 : K) :
  k1 ≠ k2 → is_Some (d !! k1) → is_Some (d !! k2) → (2 ≤ size d)%nat.
Proof.
  intros Hne H1 H2.
  assert (({[k1; k2]} : gset K) ⊆ dom d) as Hsub.
  { intros k Hk. apply elem_of_dom. set_unfold in Hk.
    by destruct Hk as [->| ->]. }
  apply subseteq_size in Hsub. rewrite size_dom in Hsub.
  rewrite size_union, !size_singleton in Hsub; [lia|].
  set_solver.
Qed.

Lemma monthly_debits_transactions (transactions : list Transaction) (m : string) :
  default 0 (groupby_sum r_month
               (filter (λ r, r_type r = DEBIT)
                  (_transactions_to_dataframe transactions)) !! m)
  == np_sum (tx_amount <$>
               filter (λ t, strftime_Ym (tx_date t) = m)
                 (filter (λ t, tx_type t = DEBIT) transactions)).
Proof.
  rewrite groupby_sum_lookup.
  exact (debit_amount_sum (λ r, r_month r = m) transactions).
Qed.

Lemma monthly_debits_is_Some (transactions : list Transaction) (m : string) :
  is_Some (groupby_sum r_month
             (filter (λ r, r_type r = DEBIT)
                (_transactions_to_dataframe transactions)) !! m)
  ↔ ∃ t, t ∈ filter (λ t, tx_type t = DEBIT) transactions
         ∧ strftime_Ym (tx_date t) = m.
Proof.
  rewrite <- not_eq_None_Some, groupby_sum_lookup_None. split.
  - intros Hall. apply not_Forall_Exists in Hall; [|apply _].
    apply Exists_exists in Hall as (r & Hr & Hkey).
    apply elem_of_debit_rows in Hr as (t & Ht & ->).
    exists t. split; [done|]. by apply dec_stable in Hkey.
  - intros (t & Ht & <-) Hall. rewrite Forall_forall in Hall.
    apply (Hall (to_row t)); [|done].
    apply elem_of_debit_rows. by exists t.
Qed.

(** X7. For a non-empty list of transactions with non-negative amounts
    whose debits all fall in one month (or that has no debit) the
    spending stability is Medium, the default for want of a second
    month, and "Stable spending pattern" is among the factors. *)
Theorem spending_stability_default
    (now : datetime) (transactions : list Transaction) :
  transactions ≠ [] →
  Forall (λ t, 0 <= tx_amount t) transactions →
  (∀ t1 t2, t1 ∈ transactions → t2 ∈ transactions →
            tx_type t1 = DEBIT → tx_type t2 = DEBIT →
            strftime_Ym (tx_date t1) = strftime_Ym (tx_date t2)) →
  ∃ r,
    analyze_transactions now transactions = Some r
    ∧ spending_stability (behavioral_analysis r) = SpendingStability.MEDIUM
    ∧ "Stable spending pattern"
        ∈ loan_eligibility_factors (risk_assessment_details r).
Proof.
  intros Hne Hnonneg Hsame.
  destruct (pipeline_Some now transactions Hne Hnonneg)
    as (fs & ba & ra & score & eligible & reason & _ & Hba & Hra & _ & _ & ->).
  eexists. split; [done|]. cbn.
  pose proof (dataframe_nonneg _ Hnonneg) as Hdf.
  pose proof (dataframe_nonempty _ Hne) as Hdfne.
  assert (spending_stability ba = SpendingStability.MEDIUM) as Hmedium.
  { assert (_determine_spending_stability (_transactions_to_dataframe transactions)
            = Some SpendingStability.MEDIUM) as Hstab.
    { apply spending_stability_one_month.
      intros r1 r2 (t1 & [Hd1 Ht1]%list_elem_of_filter & ->)%elem_of_debit_rows
                   (t2 & [Hd2 Ht2]%list_elem_of_filter & ->)%elem_of_debit_rows.
      by apply Hsame. }
    unfold _calculate_behavioral_analysis in Hba.
    inv_bind Hba dist. inv_bind Hba isa. inv_bind Hba ratios.
    destruct ratios as [[e h] w].
    rewrite Hstab in Hba. cbn [mbind option_bind] in Hba.
    by injection Hba as <-. }
  split; [done|].
  destruct (behavioral_analysis_months _ ba Hdfne Hdf Hba) as [_ Hincome].
  destruct (risk_assessment_Some (_transactions_to_dataframe transactions)
              ba Hincome)
    as (ra' & stable & Hra' & _ & _ & _ & _ & Hfactors).
  rewrite Hra in Hra'. injection Hra' as <-.
  rewrite Hfactors, Hmedium. clear.
  destruct (Qltb 0.5 _), (Qltb _ 0.15), stable; compute_done.
Qed.

Lemma spending_stability_default_witness :
  ∃ r,
    analyze_transactions sample_now sample_thirds = Some r
    ∧ spending_stability (behavioral_analysis r) = SpendingStability.MEDIUM
    ∧ "Stable spending pattern"
        ∈ loan_eligibility_factors (risk_assessment_details r).
Proof.
  apply (spending_stability_default sample_now sample_thirds).
  - discriminate.
  - repeat constructor; by vm_compute.
  - intros t1 t2 Ht1 Ht2 _ _.
    repeat (apply elem_of_cons in Ht1 as [->|Ht1]);
      [| | |by apply not_elem_of_nil in Ht1];
      (repeat (apply elem_of_cons in Ht2 as [->|Ht2]);
       [| | |by apply not_elem_of_nil in Ht2]); reflexivity.
Defined.

(** X8. For a non-empty list of transactions with non-negative amounts
    that has debits in two different months and the same debit total
    in every month with a debit, the spending stability is High. *)
Theorem spending_stability_steady_months
    (now : datetime) (transactions : list Transaction)
    (t1 t2 : Transaction) (total : Q) :
  transactions ≠ [] →
  Forall (λ t, 0 <= tx_amount t) transactions →
  t1 ∈ filter (λ t, tx_type t = DEBIT) transactions →
  t2 ∈ filter (λ t, tx_type t = DEBIT) transactions →
  strftime_Ym (tx_date t1) ≠ strftime_Ym (tx_date t2) →
  (∀ t, t ∈ filter (λ t, tx_type t = DEBIT) transactions →
        np_sum (tx_amount <$>
                  filter (λ t', strftime_Ym (tx_date t') = strftime_Ym (tx_date t))
                    (filter (λ t, tx_type t = DEBIT) transactions))
        == total) →
  ∃ r,
    analyze_transactions now transactions = Some r
    ∧ spending_stability (behavioral_analysis r) = SpendingStability.HIGH.
Proof.
  intros Hne Hnonneg Ht1 Ht2 Hmonths Hsame.
  destruct (pipeline_Some now transactions Hne Hnonneg)
    as (fs & ba & ra & score & eligible & reason & _ & Hba & _ & _ & _ & ->).
  eexists. split; [done|]. cbn.
  pose proof (dataframe_nonneg _ Hnonneg) as Hdf.
  assert (_determine_spending_stability (_transactions_to_dataframe transactions)
          = Some SpendingStability.HIGH) as Hstab.
  { apply (spending_stability_steady _ Hdf total).
    - apply (size_two _ (strftime_Ym (tx_date t1)) (strftime_Ym (tx_date t2)));
        [ done
        | apply monthly_debits_is_Some; by exists t1
        | apply monthly_debits_is_Some; by exists t2 ].
    - intros m v Hv.
      assert (is_Some (groupby_sum r_month
                         (filter (λ r, r_type r = DEBIT)
                            (_transactions_to_dataframe transactions)) !! m))
        as Hsome by by exists v.
      apply monthly_debits_is_Some in Hsome as (t & Ht & <-).
      rewrite <- (Hsame t Ht), <- monthly_debits_transactions, Hv. reflexivity. }
  unfold _calculate_behavioral_analysis in Hba.
  inv_bind Hba dist. inv_bind Hba isa. inv_bind Hba ratios.
  destruct ratios as [[e h] w].
  rewrite Hstab in Hba. cbn [mbind option_bind] in Hba.
  by injection Hba as <-.
Qed.

Lemma spending_stability_steady_months_witness :
  ∃ r,
    analyze_transactions sample_now sample_steady = Some r
    ∧ spending_stability (behavioral_analysis r) = SpendingStability.HIGH.
Proof.
  apply (spending_stability_steady_months sample_now sample_steady
           (sample_transaction (sample_date 2024 1 3) 500 DEBIT "Rent")
           (sample_transaction (sample_date 2024 2 5) 500 DEBIT "Rent")
           500).
  - discriminate.
  - repeat constructor; by vm_compute.
  - apply list_elem_of_filter. split; [reflexivity|]. right. by left.
  - apply list_elem_of_filter. split; [reflexivity|]. right. right. by left.
  - by vm_compute.
  - intros t [_ Ht]%list_elem_of_filter.
    repeat (apply elem_of_cons in Ht as [->|Ht]);
      [by vm_compute..|by apply not_elem_of_nil in Ht].
Defined.

(** ** Spending without income *)

Lemma py_max_r (a b : Q) : a < b → py_max a b = b.
Proof. intros H. unfold py_max. by apply Qltb_lt in H as ->. Qed.

Lemma py_min_l (a b : Q) : a <= b → py_min a b = a.
Proof. intros H. unfold py_min. by apply Qltb_ge in H as ->. Qed.

Lemma np_sum_le_const (l : list Q) (c : Q) :
  Forall (λ x, x <= c) l →
  np_sum l <= inject_Z (Z.of_nat (length l)) * c.
Proof.
  induction 1 as [|x l Hx _ IH]; csimpl.
  - change (inject_Z (Z.of_nat 0)) with 0. lra.
  - rewrite Nat2Z.inj_succ. unfold Z.succ. rewrite inject_Z_plus.
    change (inject_Z 1) with 1.
    revert IH. generalize (inject_Z (Z.of_nat (length l))), (np_sum l).
    intros n s IH. nra.
Qed.

Lemma np_mean_le (l : list Q) (c m : Q) :
  np_mean l = Some m → Forall (λ x, x <= c) l → m <= c.
Proof.
  intros [Hne ->]%np_mean_inv Hl.
  pose proof (np_sum_le_const l c Hl) as Hsum.
  assert (0 < inject_Z (Z.of_nat (length l))) as Hlen.
  { change 0 with (inject_Z 0). rewrite <- Zlt_Qlt. destruct l; [done|].
    simpl. lia. }
  apply Qle_shift_div_r; [done|]. lra.
Qed.

Lemma amount_sum_ge_elem (df : list Row) (r : Row) :
  Forall (λ r, 0 <= r_amount r) df → r ∈ df → r_amount r <= amount_sum df.
Proof.
  unfold amount_sum. induction 1 as [|r' df Hr' Hdf IH]; [by intros ?%not_elem_of_nil|].
  pose proof (np_sum_nonneg (r_amount <$> df)) as Hsum.
  intros [->|Hin]%elem_of_cons; csimpl.
  - assert (0 <= np_sum (r_amount <$> df)) by by apply Hsum, Forall_fmap.
    lra.
  - specialize (IH Hin). lra.
Qed.

(** X9. A non-empty list of transactions that are all debits of at
    least 1 has, month after month, a savings rate of minus a million
    times the spending, since the income in the denominator is only the
    guard of 1e-6: the score is 100, the category high, and the
    customer is rejected for a high risk profile. *)
Theorem spending_without_income_saturates
    (now : datetime) (transactions : list Transaction) :
  transactions ≠ [] →
  Forall (λ t, tx_type t = DEBIT ∧ 1 <= tx_amount t) transactions →
  ∃ r,
    analyze_transactions now transactions = Some r
    ∧ overall_risk_score r == 100
    ∧ risk_category r = RiskCategory.HIGH
    ∧ loan_eligibility r = false
    ∧ eligibility_reason r
      = "High risk profile with significant financial volatility"
    ∧ map_Forall (λ _ a, ma_income a == 0 ∧ ma_savings_rate a <= -1000000)
        (income_and_spending_analysis (behavioral_analysis r)).
Proof.
  intros Hne Hdebits.
  assert (Forall (λ t, 0 <= tx_amount t) transactions) as Hnonneg.
  { eapply Forall_impl; [done|]. intros t [_ ?]. simpl. lra. }
  destruct (pipeline_Some now transactions Hne Hnonneg)
    as (fs & ba & ra & score & eligible & reason
        & Hfs & Hba & _ & Hscore & Helig & ->).
  eexists. split; [done|]. cbn.
  pose proof (dataframe_nonneg _ Hnonneg) as Hdf.
  pose proof (dataframe_nonempty _ Hne) as Hdfne.
  set (df := _transactions_to_dataframe transactions) in *.
  assert (Forall (λ r, r_type r = DEBIT ∧ 1 <= r_amount r) df) as Hrows.
  { unfold df. rewrite dataframe_Permutation. by apply Forall_fmap. }
  destruct (behavioral_analysis_Some _ Hdf) as (ba' & Hba' & _ & Hisa & _).
  rewrite Hba in Hba'. injection Hba' as <-.
  destruct (behavioral_analysis_months _ ba Hdfne Hdf Hba) as [Hnonempty _].
  set (monthly_data := groupby_sum (λ r, (r_month r, r_type r)) df) in *.
  assert (map_Forall (λ _ a, ma_income a == 0 ∧ ma_savings_rate a <= -1000000)
            (income_and_spending_analysis ba)) as Hrates.
  { intros m a Ha. rewrite Hisa in Ha.
    destruct (decide (m ∈ index monthly_data)) as [Hm|]; [|done].
    injection Ha as <-. cbn.
    assert (monthly_data !! (m, CREDIT) = None) as ->.
    { apply groupby_sum_lookup_None. eapply Forall_impl; [exact Hrows|].
      intros r [Hr _] [= _ Hcredit]. congruence. }
    apply elem_of_index_frame in Hm as (r & Hr & <-).
    rewrite Forall_forall in Hrows. destruct (Hrows r Hr) as [Htype Hamount].
    assert (1 <= default 0 (monthly_data !! (r_month r, DEBIT))) as Hspend.
    { unfold monthly_data. rewrite groupby_sum_lookup.
      eapply Qle_trans; [exact Hamount|]. apply amount_sum_ge_elem.
      - by apply Forall_filter.
      - apply list_elem_of_filter. split; [by rewrite Htype|done]. }
    split; [reflexivity|]. simpl.
    revert Hspend. generalize (default 0 (monthly_data !! (r_month r, DEBIT))).
    intros s Hs. apply Qle_shift_div_r; [unfold eps; lra|]. unfold eps. lra. }
  destruct (financial_summary_ranges _ Hdf fs Hfs)
    as (Hi & Hs & [Hc0 Hc1] & _ & _).
  destruct (patterns_bounds _ ba Hdf Hba) as ([He0 He1] & [Hh0 Hh1] & [Hw0 Hw1]).
  unfold _calculate_overall_risk_score in Hscore.
  destruct (np_mean _) as [avg|] eqn:Havg; [|done].
  cbn [mbind option_bind] in Hscore.
  assert (avg <= -1000000) as Hlow.
  { apply (np_mean_le _ _ _ Havg), Forall_fmap, values_Forall.
    intros m a Ha. by destruct (Hrates m a Ha). }
  assert (score = 100) as ->.
  { injection Hscore as <-.
    pose proof (py_max_ge_l 0
                  (weekend_spending_ratio (behavioral_patterns ba) - 0.2)).
    pose proof (py_max_ge_l 0
                  ((0.6 - essential_spending_ratio (behavioral_patterns ba)) * 15)).
    assert (100 <= py_max 0 ((0.1 - avg) * 25)) as Hsavings.
    { rewrite py_max_r; lra. }
    rewrite py_max_r, py_min_l; [done|..];
      (destruct (_ <? 20)%Z; [|destruct (300 <? _)%Z]); lra. }
  split_and!; [by vm_compute | by vm_compute | | | done].
  - unfold _determine_loan_eligibility in Helig.
    change (Qltb 75 100) with true in Helig. by injection Helig as <- _.
  - unfold _determine_loan_eligibility in Helig.
    change (Qltb 75 100) with true in Helig. by injection Helig as _ <-.
Qed.

Lemma spending_without_income_saturates_witness :
  ∃ r,
    analyze_transactions sample_now sample_no_income = Some r
    ∧ overall_risk_score r == 100
    ∧ risk_category r = RiskCategory.HIGH
    ∧ loan_eligibility r = false
    ∧ eligibility_reason r
      = "High risk profile with significant financial volatility"
    ∧ map_Forall (λ _ a, ma_income a == 0 ∧ ma_savings_rate a <= -1000000)
        (income_and_spending_analysis (behavioral_analysis r)).
Proof.
  apply (spending_without_income_saturates sample_now sample_no_income).
  - discriminate.
  - repeat constructor; by vm_compute.
Defined.

(** ** The order of the transactions *)

Section order.
Context `{Countable K} (key : Row → K) (df df' : list Row).
Hypothesis same_rows : df ≡ₚ df'.

Lemma groupby_sum_Permutation (k : K) :
  default 0 (groupby_sum key df !! k) == default 0 (groupby_sum key df' !! k).
Proof.
  rewrite !groupby_sum_lookup. apply amount_sum_Permutation.
  by rewrite same_rows.
Qed.

Lemma groupby_sum_None_Permutation (k : K) :
  groupby_sum key df !! k = None ↔ groupby_sum key df' !! k = None.
Proof. rewrite !groupby_sum_lookup_None. by rewrite same_rows. Qed.

Lemma groupby_sum_values_Permutation :
  np_sum (values (groupby_sum key df)) == np_sum (values (groupby_sum key df')).
Proof.
  rewrite !groupby_sum_values. by apply amount_sum_Permutation.
Qed.
End order.

Lemma dataframe_Permutation_proper (transactions transactions' : list Transaction) :
  transactions ≡ₚ transactions' →
  _transactions_to_dataframe transactions
  ≡ₚ _transactions_to_dataframe transactions'.
Proof. intros Hp. by rewrite !dataframe_Permutation, Hp. Qed.

Lemma patterns_Permutation (df df' : list Row) (ba ba' : BehavioralAnalysis) :
  df ≡ₚ df' →
  Forall (λ r, 0 <= r_amount r) df →
  _calculate_behavioral_analysis df = Some ba →
  _calculate_behavioral_analysis df' = Some ba' →
  behavioral_patterns ba = behavioral_patterns ba'
  ∧ spending_pattern_distribution ba = spending_pattern_distribution ba'.
Proof.
  intros Hp Hdf Hba Hba'.
  assert (Forall (λ r, 0 <= r_amount r) df') as Hdf' by by rewrite <- Hp.
  destruct (behavioral_analysis_Some df Hdf) as (b & Hb & Hdist & _ & Hpat).
  rewrite Hba in Hb. injection Hb as <-.
  destruct (behavioral_analysis_Some df' Hdf') as (b & Hb & Hdist' & _ & Hpat').
  rewrite Hba' in Hb. injection Hb as <-.
  assert (filter (λ r, r_type r = DEBIT) df ≡ₚ filter (λ r, r_type r = DEBIT) df')
    as Hdebits by by rewrite Hp.
  split.
  - rewrite Hpat, Hpat'. clear Hpat Hpat' Hdist Hdist'.
    assert (Qltb 0 (amount_sum (filter (λ r, r_type r = DEBIT) df))
            = Qltb 0 (amount_sum (filter (λ r, r_type r = DEBIT) df'))) as ->.
    { apply Qltb_comp; [reflexivity|by apply amount_sum_Permutation]. }
    destruct (Qltb 0 _); [|done].
    f_equal; apply py_round_comp;
      (rewrite (amount_sum_Permutation _ _ Hdebits);
       apply Qmult_comp; [|reflexivity];
       apply amount_sum_Permutation; by rewrite Hdebits).
  - rewrite Hdist, Hdist'. clear Hpat Hpat' Hdist Hdist'.
    pose proof (groupby_sum_values_Permutation r_category _ _ Hdebits) as Htotal.
    rewrite (Qltb_comp 0 0 _ _ (Qeq_refl 0) Htotal).
    destruct (Qltb 0 _); [|done].
    apply map_eq. intros c. rewrite !lookup_fmap.
    pose proof (groupby_sum_Permutation r_category _ _ Hdebits c) as Hcell.
    pose proof (groupby_sum_None_Permutation r_category _ _ Hdebits c) as Hnone.
    destruct (groupby_sum r_category (filter _ df) !! c) as [v|],
             (groupby_sum r_category (filter _ df') !! c) as [v'|]; simpl in *.
    + f_equal. apply py_round_comp. by rewrite Hcell, Htotal.
    + destruct Hnone as [_ Hn]. by specialize (Hn eq_refl).
    + destruct Hnone as [Hn _]. by specialize (Hn eq_refl).
    + done.
Qed.

(** X10. The order in which the transactions are handed in does not
    matter to the behavioural ratios, the category distribution, the
    three risk sub-scores, the transaction frequency and the months of
    the summary, and the monthly spendings and savings keep their
    values: a non-empty list with non-negative amounts and any
    permutation of it agree on all of them. *)
Theorem analysis_order_independent
    (now : datetime) (transactions transactions' : list Transaction) :
  transactions ≠ [] →
  Forall (λ t, 0 <= tx_amount t) transactions →
  transactions ≡ₚ transactions' →
  ∃ r r',
    analyze_transactions now transactions = Some r
    ∧ analyze_transactions now transactions' = Some r'
    ∧ behavioral_patterns (behavioral_analysis r)
      = behavioral_patterns (behavioral_analysis r')
    ∧ spending_pattern_distribution (behavioral_analysis r)
      = spending_pattern_distribution (behavioral_analysis r')
    ∧ risk_essential_spending (risk_assessment_details r)
      = risk_essential_spending (risk_assessment_details r')
    ∧ high_risk_spending (risk_assessment_details r)
      = high_risk_spending (risk_assessment_details r')
    ∧ weekend_spending (risk_assessment_details r)
      = weekend_spending (risk_assessment_details r')
    ∧ transaction_frequency (financial_summary r)
      = transaction_frequency (financial_summary r')
    ∧ dom (monthly_spendings (financial_summary r))
      = dom (monthly_spendings (financial_summary r'))
    ∧ (∀ month a a',
         monthly_spendings (financial_summary r) !! month = Some a →
         monthly_spendings (financial_summary r') !! month = Some a' →
         a == a')
    ∧ (∀ month a a',
         monthly_savings (financial_summary r) !! month = Some a →
         monthly_savings (financial_summary r') !! month = Some a' →
         a == a').
Proof.
  intros Hne Hnonneg Hp.
  assert (transactions' ≠ []) as Hne'.
  { intros ->. by apply Permutation_nil_r in Hp. }
  assert (Forall (λ t, 0 <= tx_amount t) transactions') as Hnonneg'
    by by rewrite <- Hp.
  destruct (pipeline_Some now transactions Hne Hnonneg)
    as (fs & ba & ra & score & eligible & reason
        & Hfs & Hba & Hra & _ & _ & ->).
  destruct (pipeline_Some now transactions' Hne' Hnonneg')
    as (fs' & ba' & ra' & score' & eligible' & reason'
        & Hfs' & Hba' & Hra' & _ & _ & ->).
  eexists _, _. split; [done|]. split; [done|]. cbn.
  pose proof (dataframe_nonneg _ Hnonneg) as Hdf.
  pose proof (dataframe_nonempty _ Hne) as Hdfne.
  pose proof (dataframe_nonneg _ Hnonneg') as Hdf'.
  pose proof (dataframe_nonempty _ Hne') as Hdfne'.
  pose proof (dataframe_Permutation_proper _ _ Hp) as Hrows.
  destruct (patterns_Permutation _ _ ba ba' Hrows Hdf Hba Hba') as [Hpat Hdist].
  destruct (behavioral_analysis_months _ ba Hdfne Hdf Hba) as [_ Hincome].
  destruct (behavioral_analysis_months _ ba' Hdfne' Hdf' Hba') as [_ Hincome'].
  destruct (risk_assessment_Some (_transactions_to_dataframe transactions) ba Hincome)
    as (x & _ & Hx & _ & He & Hh & Hw & _).
  rewrite Hra in Hx. injection Hx as <-.
  destruct (risk_assessment_Some (_transactions_to_dataframe transactions') ba' Hincome')
    as (x & _ & Hx & _ & He' & Hh' & Hw' & _).
  rewrite Hra' in Hx. injection Hx as <-.
  destruct (financial_summary_Some _ Hdfne Hdf) as (x & Hx & Hms & Hsv & Hfreq).
  rewrite Hfs in Hx. injection Hx as <-.
  destruct (financial_summary_Some _ Hdfne' Hdf')
    as (x & Hx & Hms' & Hsv' & Hfreq').
  rewrite Hfs' in Hx. injection Hx as <-.
  split_and!; try done.
  - by rewrite He, He', Hpat.
  - by rewrite Hh, Hh', Hpat.
  - by rewrite Hw, Hw', Hpat.
  - by rewrite Hfreq, Hfreq', !dataframe_length, Hp.
  - rewrite (dom_index transactions), (dom_index transactions').
    + apply set_eq. intros m. rewrite !elem_of_list_to_set. by rewrite Hp.
    + intros m. rewrite Hms'.
      destruct (decide _); [by split; [|eexists] | by split; [intros [? ?]|]].
    + intros m. rewrite Hms.
      destruct (decide _); [by split; [|eexists] | by split; [intros [? ?]|]].
  - intros month a a'. rewrite Hms, Hms'.
    destruct (decide _); [|done]. destruct (decide _); [|done].
    intros [= <-] [= <-]. by apply groupby_sum_Permutation.
  - intros month a a'. rewrite Hsv, Hsv'.
    destruct (decide _); [|done]. destruct (decide _); [|done].
    intros [= <-] [= <-]. apply py_max_comp.
    by rewrite !(groupby_sum_Permutation _ _ _ Hrows).
Qed.

Lemma analysis_order_independent_witness :
  ∃ r r',
    analyze_transactions sample_now sample_two_months = Some r
    ∧ analyze_transactions sample_now (reverse sample_two_months) = Some r'
    ∧ behavioral_patterns (behavioral_analysis r)
      = behavioral_patterns (behavioral_analysis r')
    ∧ spending_pattern_distribution (behavioral_analysis r)
      = spending_pattern_distribution (behavioral_analysis r')
    ∧ risk_essential_spending (risk_assessment_details r)
      = risk_essential_spending (risk_assessment_details r')
    ∧ high_risk_spending (risk_assessment_details r)
      = high_risk_spending (risk_assessment_details r')
    ∧ weekend_spending (risk_assessment_details r)
      = weekend_spending (risk_assessment_details r')
    ∧ transaction_frequency (financial_summary r)
      = transaction_frequency (financial_summary r')
    ∧ dom (monthly_spendings (financial_summary r))
      = dom (monthly_spendings (financial_summary r'))
    ∧ (∀ month a a',
         monthly_spendings (financial_summary r) !! month = Some a →
         monthly_spendings (financial_summary r') !! month = Some a' →
         a == a')
    ∧ (∀ month a a',
         monthly_savings (financial_summary r) !! month = Some a →
         monthly_savings (financial_summary r') !! month = Some a' →
         a == a').
Proof.
  apply (analysis_order_independent sample_now sample_two_months
           (reverse sample_two_months)).
  - discriminate.
  - repeat constructor; by vm_compute.
  - symmetry. apply reverse_Permutation.
Defined.

(** ** The share of the transaction count in the score *)

Lemma py_max_ge_r (a b : Q) : b <= py_max a b.
Proof.
  unfold py_max. destruct (Qltb a b) eqn:E; [lra|]. by apply Qltb_ge in E.
Qed.

(** X11. For a non-empty list of transactions with non-negative amounts
    no component of the score is negative, so the penalty for the
    number of transactions is a floor of the reported score: with fewer
    than 20 transactions the score is at least 10, with more than 300
    it is at least 5. *)
Theorem transaction_count_score_floor
    (now : datetime) (transactions : list Transaction) :
  transactions ≠ [] →
  Forall (λ t, 0 <= tx_amount t) transactions →
  ∃ r,
    analyze_transactions now transactions = Some r
    ∧ ((length transactions < 20)%nat → 10 <= overall_risk_score r)
    ∧ ((300 < length transactions)%nat → 5 <= overall_risk_score r).
Proof.
  intros Hne Hnonneg.
  destruct (pipeline_Some now transactions Hne Hnonneg)
    as (fs & ba & ra & score & eligible & reason
        & Hfs & Hba & _ & Hscore & _ & ->).
  eexists. split; [done|]. cbn.
  pose proof (dataframe_nonneg _ Hnonneg) as Hdf.
  pose proof (dataframe_nonempty _ Hne) as Hdfne.
  destruct (financial_summary_ranges _ Hdf fs Hfs)
    as (Hi & Hs & [Hc0 Hc1] & _ & _).
  destruct (financial_summary_Some _ Hdfne Hdf) as (x & Hx & _ & _ & Hfreq).
  rewrite Hfs in Hx. injection Hx as <-. rewrite dataframe_length in Hfreq.
  destruct (patterns_bounds _ ba Hdf Hba) as (_ & [Hh0 _] & _).
  unfold _calculate_overall_risk_score in Hscore.
  destruct (np_mean _) as [avg|]; [|done].
  cbn [mbind option_bind] in Hscore. injection Hscore as <-.
  pose proof (py_max_ge_l 0
                (weekend_spending_ratio (behavioral_patterns ba) - 0.2)).
  pose proof (py_max_ge_l 0
                ((0.6 - essential_spending_ratio (behavioral_patterns ba)) * 15)).
  pose proof (py_max_ge_l 0 ((0.1 - avg) * 25)).
  rewrite Hfreq. split.
  - intros Hfew. apply (py_round_ge _ 1 10).
    apply py_min_ge; [done|]. eapply Qle_trans; [|apply py_max_ge_r].
    destruct (Z.ltb_spec (Z.of_nat (length transactions)) 20); [|lia].
    unfold inject_Z. lra.
  - intros Hmany. apply (py_round_ge _ 1 5).
    apply py_min_ge; [done|]. eapply Qle_trans; [|apply py_max_ge_r].
    destruct (Z.ltb_spec (Z.of_nat (length transactions)) 20); [lia|].
    destruct (Z.ltb_spec 300 (Z.of_nat (length transactions))); [|lia].
    unfold inject_Z. lra.
Qed.

Lemma transaction_count_score_floor_witness :
  ∃ r,
    analyze_transactions sample_now sample_two_months = Some r
    ∧ ((length sample_two_months < 20)%nat → 10 <= overall_risk_score r)
    ∧ ((300 < length sample_two_months)%nat → 5 <= overall_risk_score r).
Proof.
  apply (transaction_count_score_floor sample_now sample_two_months).
  - discriminate.
  - repeat constructor; by vm_compute.
Defined.

(** ** Telling an analysis from the placeholder *)

(** X12. The result for a non-empty list of transactions with
    non-negative amounts is never the placeholder that [analyze_transactions]
    returns for an empty list: it counts at least one transaction, has
    at least one month, and neither its eligibility reason nor its
    eligibility factors are those of the placeholder. *)
Theorem analysis_never_placeholder
    (now : datetime) (transactions : list Transaction) :
  transactions ≠ [] →
  Forall (λ t, 0 <= tx_amount t) transactions →
  ∃ r,
    analyze_transactions now transactions = Some r
    ∧ (0 < transaction_frequency (financial_summary r))%Z
    ∧ monthly_spendings (financial_summary r) ≠ ∅
    ∧ income_and_spending_analysis (behavioral_analysis r) ≠ ∅
    ∧ eligibility_reason r ≠ "Insufficient transaction history for assessment"
    ∧ ("Insufficient data"
       ∉ loan_eligibility_factors (risk_assessment_details r))
    ∧ (∀ now', r ≠ _generate_empty_result now').
Proof.
  intros Hne Hnonneg.
  destruct (pipeline_Some now transactions Hne Hnonneg)
    as (fs & ba & ra & score & eligible & reason
        & Hfs & Hba & Hra & _ & Helig & ->).
  eexists. split; [done|]. cbn.
  pose proof (dataframe_nonneg _ Hnonneg) as Hdf.
  pose proof (dataframe_nonempty _ Hne) as Hdfne.
  destruct (behavioral_analysis_months _ ba Hdfne Hdf Hba) as [Hisa Hincome].
  destruct (financial_summary_Some _ Hdfne Hdf) as (x & Hx & Hms & _ & Hfreq).
  rewrite Hfs in Hx. injection Hx as <-. rewrite dataframe_length in Hfreq.
  assert (0 < transaction_frequency fs)%Z as Hpos.
  { rewrite Hfreq. destruct transactions; [done|]. cbn [length]. lia. }
  split_and!; try done.
  - destruct (nonempty_elem_of _ (index_nonempty _ Hdfne)) as [m Hm].
    intros Hempty. specialize (Hms m).
    by rewrite Hempty, lookup_empty, decide_True in Hms.
  - destruct (loan_eligibility_shape ba _ fs eligible reason Helig)
      as [Hyes Hno].
    destruct eligible.
    + destruct (Hyes eq_refl) as (Hprefix & _). by intros ->.
    + specialize (Hno eq_refl). intros ->. revert Hno. compute_done.
  - destruct (risk_assessment_Some (_transactions_to_dataframe transactions)
                ba Hincome)
      as (ra' & stable & Hra' & _ & _ & _ & _ & Hfactors).
    rewrite Hra in Hra'. injection Hra' as <-. rewrite Hfactors.
    destruct (Qltb 0.5 _), (Qltb _ 0.15), (decide _), stable; compute_done.
  - intros now' Heq. apply (f_equal (λ r, transaction_frequency (financial_summary r)))
      in Heq. cbn in Heq. lia.
Qed.

Lemma analysis_never_placeholder_witness :
  ∃ r,
    analyze_transactions sample_now sample_two_months = Some r
    ∧ (0 < transaction_frequency (financial_summary r))%Z
    ∧ monthly_spendings (financial_summary r) ≠ ∅
    ∧ income_and_spending_analysis (behavioral_analysis r) ≠ ∅
    ∧ eligibility_reason r ≠ "Insufficient transaction history for assessment"
    ∧ ("Insufficient data"
       ∉ loan_eligibility_factors (risk_assessment_details r))
    ∧ (∀ now', r ≠ _generate_empty_result now').
Proof.
  apply (analysis_never_placeholder sample_now sample_two_months).
  - discriminate.
  - repeat constructor; by vm_compute.
Defined.

(** ** The route [/api/analyze] *)

Lemma get_user_transactions_nonneg (self : SupabaseService.t) (now : datetime)
    (user_id : option string) (days : Z) :
  (∀ client user_id now days transactions,
     SupabaseService.client self = Some client →
     select_transactions client user_id now days = Returns transactions →
     Forall (λ t, 0 <= tx_amount t) transactions) →
  Forall (λ t, 0 <= tx_amount t)
    (SupabaseService.get_user_transactions now self user_id days).
Proof.
  intros Hdb. unfold SupabaseService.get_user_transactions.
  destruct (SupabaseService.client _) as [client|] eqn:Hclient; [|done].
  destruct (select_transactions _ _ _ _) as [transactions|] eqn:Hrows; [|done].
  by eapply Hdb.
Qed.

Lemma save_ml_result_rows (self : SupabaseService.t) (now : datetime)
    (user_id : option string) (analysis_result : MLAnalysisResult)
    (ml_result : MLResult) (rows : list ml_result_data) :
  SupabaseService.save_ml_result now self user_id analysis_result
  = (Some ml_result, rows) →
  ∃ row, rows = [row]
         ∧ d_metrics row = analysis_result
         ∧ d_risk_score row = overall_risk_score analysis_result
         ∧ d_risk_category row = risk_category analysis_result
         ∧ d_eligible row = loan_eligibility analysis_result
         ∧ d_eligibility_reason row = eligibility_reason analysis_result.
Proof.
  unfold SupabaseService.save_ml_result.
  destruct (SupabaseService.client self); [|done].
  intros [= _ <-]. by eexists.
Qed.

Lemma nonempty_analysis (now : datetime) (transactions : list Transaction) :
  transactions ≠ [] →
  Forall (λ t, 0 <= tx_amount t) transactions →
  ∃ r, analyze_transactions now transactions = Some r
       ∧ (0 < transaction_frequency (financial_summary r))%Z.
Proof.
  intros Hne Hnonneg.
  destruct (pipeline_Some now transactions Hne Hnonneg)
    as (fs & ba & ra & score & eligible & reason & Hfs & _ & _ & _ & _ & ->).
  eexists. split; [done|]. cbn.
  pose proof (dataframe_nonneg _ Hnonneg) as Hdf.
  pose proof (dataframe_nonempty _ Hne) as Hdfne.
  destruct (financial_summary_Some _ Hdfne Hdf) as (x & Hx & _ & _ & Hfreq).
  rewrite Hfs in Hx. injection Hx as <-. rewrite dataframe_length in Hfreq.
  rewrite Hfreq. destruct transactions; [done|]. cbn [length]. lia.
Qed.

(** X13. When the amounts in the database are not negative,
    [/api/analyze] always answers, with 200, 404 or 500.  A 200 carries
    the analysis of the customer's non-empty history, never the
    placeholder of an empty one, and the row that was inserted before
    holds the same analysis, score, category and decision; a 404 has
    touched nothing; a 500 has attempted the one insertion. *)
Theorem analyze_route_answers
    (world : api.World) (account_no ifsc : string) :
  (∀ client user_id now days transactions,
     SupabaseService.client (api.supabase world) = Some client →
     select_transactions client user_id now days = Returns transactions →
     Forall (λ t, 0 <= tx_amount t) transactions) →
  ∃ response events,
    api.analyze_transactions world account_no ifsc = Some (response, events)
    ∧ match response with
      | api.Return response =>
          ∃ user analysis_result row,
            SupabaseService.get_user_by_account (api.supabase world)
              account_no ifsc = Some user
            ∧ let transactions :=
                SupabaseService.get_user_transactions
                  (api.at_query (api.clock world)) (api.supabase world)
                  (u_id user) 180 in
              transactions ≠ []
              ∧ analyze_transactions (api.at_analysis (api.clock world))
                  transactions = Some analysis_result
            ∧ (∀ now, analysis_result ≠ _generate_empty_result now)
            ∧ api.success response = true
            ∧ api.data response = Some (api.analysis_data analysis_result)
            ∧ head events = Some (api.Insert row)
            ∧ d_metrics row = analysis_result
            ∧ d_risk_score row = overall_risk_score analysis_result
            ∧ d_risk_category row = risk_category analysis_result
            ∧ d_eligible row = loan_eligibility analysis_result
      | api.HTTPException status_code _ =>
          (status_code = 404%Z ∧ events = [])
          ∨ (status_code = 500%Z ∧ ∃ row, events = [api.Insert row])
      end.
Proof.
  intros Hdb. unfold api.analyze_transactions.
  destruct (SupabaseService.get_user_by_account _ _ _) as [user|] eqn:Huser.
  2:{ eexists _, _. split; [done|]. by left. }
  pose proof (get_user_transactions_nonneg (api.supabase world)
                (api.at_query (api.clock world)) (u_id user) 180 Hdb) as Hnonneg.
  destruct (SupabaseService.get_user_transactions _ _ _ _)
    as [|t transactions] eqn:Htransactions.
  { eexists _, _. split; [done|]. by left. }
  destruct (nonempty_analysis (api.at_analysis (api.clock world))
              (t :: transactions)) as (r & Hr & Hfreq); [done..|].
  step Hr.
  destruct (SupabaseService.save_ml_result _ _ _ _) as [[ml_result|] rows] eqn:Hsave.
  - destruct (save_ml_result_rows _ _ _ _ _ _ Hsave)
      as (row & -> & Hm & Hs & Hc & He & _).
    eexists _, _. split; [done|]. exists user, r, row. cbn.
    rewrite Htransactions. split_and!; try done.
    intros now Heq.
    apply (f_equal (λ r, transaction_frequency (financial_summary r))) in Heq.
    cbn in Heq. lia.
  - eexists _, _. split; [done|]. right. split; [done|].
    revert Huser Hsave.
    unfold SupabaseService.get_user_by_account, SupabaseService.save_ml_result.
    destruct (SupabaseService.client _); [|done]. intros _ [= _ <-]. by eexists.
Qed.

Lemma analyze_route_answers_witness :
  ∃ response events,
    api.analyze_transactions sample_world "123456789012" "HDFC0001234"
    = Some (response, events)
    ∧ match response with
      | api.Return response =>
          ∃ user analysis_result row,
            SupabaseService.get_user_by_account (api.supabase sample_world)
              "123456789012" "HDFC0001234" = Some user
            ∧ let transactions :=
                SupabaseService.get_user_transactions
                  (api.at_query (api.clock sample_world))
                  (api.supabase sample_world) (u_id user) 180 in
              transactions ≠ []
              ∧ analyze_transactions (api.at_analysis (api.clock sample_world))
                  transactions = Some analysis_result
            ∧ (∀ now, analysis_result ≠ _generate_empty_result now)
            ∧ api.success response = true
            ∧ api.data response = Some (api.analysis_data analysis_result)
            ∧ head events = Some (api.Insert row)
            ∧ d_metrics row = analysis_result
            ∧ d_risk_score row = overall_risk_score analysis_result
            ∧ d_risk_category row = risk_category analysis_result
            ∧ d_eligible row = loan_eligibility analysis_result
      | api.HTTPException status_code _ =>
          (status_code = 404%Z ∧ events = [])
          ∨ (status_code = 500%Z ∧ ∃ row, events = [api.Insert row])
      end.
Proof.
  apply (analyze_route_answers sample_world "123456789012" "HDFC0001234").
  intros client user_id now days transactions [= <-]. cbn.
  destruct (decide _); intros [= <-]; [|done].
  repeat constructor; by vm_compute.
Defined.

(** X14. A database that cannot be asked is answered as a missing
    record: without a client, or when the query for the customer or
    the query for the transactions raises, [/api/analyze] answers 404,
    not 500, and neither inserts nor posts anything. *)
Theorem analyze_route_database_failure
    (world : api.World) (account_no ifsc : string) :
  match SupabaseService.client (api.supabase world) with
  | None => True
  | Some client =>
      (∃ e, select_users client account_no ifsc = Raises e)
      ∨ (∀ user_id now days,
           ∃ e, select_transactions client user_id now days = Raises e)
  end →
  ∃ detail,
    api.analyze_transactions world account_no ifsc
    = Some (api.HTTPException 404 detail, [])
    ∧ detail
      ∈ [ "User not found with account_no: " +:+ account_no
          +:+ " and ifsc: " +:+ ifsc;
          "No transactions found for the specified user in the last 180 days" ].
Proof.
  unfold api.analyze_transactions, SupabaseService.get_user_by_account,
    SupabaseService.get_user_transactions.
  destruct (SupabaseService.client _) as [client|].
  2:{ intros _. eexists. split; [done|]. by left. }
  intros [[e ->]|Hraises].
  { eexists. split; [done|]. by left. }
  destruct (select_users _ _ _) as [[|user users]|e].
  - eexists. split; [done|]. by left.
  - destruct (Hraises (str_uuid (u_id user)) (api.at_query (api.clock world))
                180%Z) as [e ->].
    eexists. split; [done|]. right. by left.
  - eexists. split; [done|]. by left.
Qed.

Lemma analyze_route_database_failure_witness :
  ∃ detail,
    api.analyze_transactions sample_world_unconfigured
      "123456789012" "HDFC0001234"
    = Some (api.HTTPException 404 detail, [])
    ∧ detail
      ∈ [ "User not found with account_no: " +:+ "123456789012"
          +:+ " and ifsc: " +:+ "HDFC0001234";
          "No transactions found for the specified user in the last 180 days" ].
Proof.
  apply (analyze_route_database_failure sample_world_unconfigured
           "123456789012" "HDFC0001234").
  exact I.
Defined.

(** X15. The webhook never changes the answer of [/api/analyze]: with
    any other webhook address and any other behaviour of the receiver
    the response and the insertion are the same.  At most one row is
    inserted and at most one request is posted, the request comes
    after the insertion, and only when the response is a 200. *)
Theorem analyze_route_webhook_isolated
    (world : api.World) (account_no ifsc : string)
    (WEBHOOK_URL' : option string)
    (post' : string → WebhookPayload → Outcome Z)
    (response : api.Response) (events : list api.Event) :
  api.analyze_transactions world account_no ifsc = Some (response, events) →
  ∃ rows sent sent',
    events = (api.Insert <$> rows) ++ sent
    ∧ api.analyze_transactions
        {| api.clock := api.clock world;
           api.supabase := api.supabase world;
           api.WEBHOOK_URL := WEBHOOK_URL';
           api.post := post' |} account_no ifsc
      = Some (response, (api.Insert <$> rows) ++ sent')
    ∧ (length rows ≤ 1)%nat
    ∧ (length sent ≤ 1)%nat
    ∧ Forall (λ e, ∃ url payload, e = api.Post url payload) sent
    ∧ (sent ≠ [] →
       (∃ r, response = api.Return r)
       ∧ ∃ url, api.WEBHOOK_URL world = Some url ∧ url ≠ "").
Proof.
  unfold api.analyze_transactions. cbn.
  destruct (SupabaseService.get_user_by_account _ _ _) as [user|].
  2:{ intros [= <- <-]. exists [], [], []. split_and!; by try constructor. }
  destruct (SupabaseService.get_user_transactions _ _ _ _) as [|t transactions].
  { intros [= <- <-]. exists [], [], []. split_and!; by try constructor. }
  destruct (analyze_transactions _ _) as [r|]; [|done]. cbn [mbind option_bind].
  destruct (SupabaseService.save_ml_result _ _ _ _) as [[ml_result|] rows] eqn:Hsave.
  2:{ intros [= <- <-]. exists rows, [], []. rewrite !app_nil_r.
      split_and!; try done; try by constructor.
      revert Hsave. unfold SupabaseService.save_ml_result.
      destruct (SupabaseService.client _); intros H; simplify_eq; cbn; lia. }
  destruct (save_ml_result_rows _ _ _ _ _ _ Hsave) as (row & -> & _).
  intros [= <- <-]. eexists [row], _, _. split; [done|]. split; [done|].
  split; [done|].
  destruct (api.WEBHOOK_URL world) as [url|]; [|by split_and!; try constructor].
  destruct url as [|c url]; [by split_and!; try constructor|].
  cbn [truthy]. unfold api.send_webhook.
  destruct (u_id user); cbn; (split_and!; [lia| |]).
  - repeat constructor. by eexists _, _.
  - intros _. split; by eexists.
  - constructor.
  - done.
Qed.

Lemma analyze_route_webhook_isolated_witness :
  ∃ response events rows sent sent',
    api.analyze_transactions sample_world "123456789012" "HDFC0001234"
    = Some (response, events)
    ∧ events = (api.Insert <$> rows) ++ sent
    ∧ api.analyze_transactions
        {| api.clock := api.clock sample_world;
           api.supabase := api.supabase sample_world;
           api.WEBHOOK_URL := None;
           api.post := λ _ _, Returns 200%Z |} "123456789012" "HDFC0001234"
      = Some (response, (api.Insert <$> rows) ++ sent')
    ∧ (length rows ≤ 1)%nat
    ∧ (length sent ≤ 1)%nat
    ∧ Forall (λ e, ∃ url payload, e = api.Post url payload) sent
    ∧ (sent ≠ [] →
       (∃ r, response = api.Return r)
       ∧ ∃ url, api.WEBHOOK_URL sample_world = Some url ∧ url ≠ "").
Proof.
  assert (∃ answer,
            api.analyze_transactions sample_world "123456789012" "HDFC0001234"
            = Some answer) as [[response events] Hroute].
  { vm_compute. by eexists. }
  destruct (analyze_route_webhook_isolated sample_world
              "123456789012" "HDFC0001234" None (λ _ _, Returns 200%Z)
              response events Hroute) as (rows & sent & sent' & H).
  exists response, events, rows, sent, sent'. exact (conj Hroute H).
Defined.

(** ** The route [/api/webhook] *)

(** X16. [/api/webhook] reports success only for a webhook that was
    delivered: a 200 means that the latest stored analysis was read,
    posted once to the given address and accepted.  Otherwise the
    answer is 404 with nothing posted, or 500 with the text of the
    failure. *)
Theorem trigger_webhook_reports_delivery
    (world : api.World) (user_id webhook_url : string)
    (response : api.Response) (events : list api.Event) :
  api.trigger_webhook world user_id webhook_url = (response, events) →
  match response with
  | api.Return r =>
      ∃ ml_result analysis_result status_code,
        SupabaseService.get_latest_ml_result (api.supabase world) user_id
        = Some ml_result
        ∧ mr_metrics ml_result = Returns analysis_result
        ∧ let payload := {|
            wp_user_id := user_id;
            wp_analysis_result := analysis_result;
            wp_timestamp := api.at_payload (api.clock world)
          |} in
          api.post world webhook_url payload = Returns status_code
          ∧ events = [api.Post webhook_url payload]
        ∧ api.data r = Some (api.webhook_data webhook_url user_id)
  | api.HTTPException status_code detail =>
      (status_code = 404%Z ∧ events = [])
      ∨ (status_code = 500%Z
         ∧ (length events ≤ 1)%nat
         ∧ ∃ e, detail = "Failed to send webhook: " +:+ str e)
  end.
Proof.
  unfold api.trigger_webhook.
  destruct (SupabaseService.get_latest_ml_result _ _) as [ml_result|].
  2:{ intros [= <- <-]. by left. }
  destruct (mr_metrics ml_result) as [analysis_result|e] eqn:Hmetrics.
  2:{ intros [= <- <-]. right. split_and!; [done|cbn; lia|by eexists]. }
  unfold api.send_webhook.
  destruct (api.post world _ _) as [status_code|e] eqn:Hpost; intros [= <- <-].
  - by exists ml_result, analysis_result, status_code.
  - right. split_and!; [done|cbn; lia|by eexists].
Qed.

Lemma trigger_webhook_reports_delivery_witness :
  ∃ response events,
    api.trigger_webhook sample_world "5f0c4a8e-7b1d-4c57-9a49-2f1f6a3d9b10"
      "https://hooks.example.org/risk" = (response, events)
    ∧ match response with
      | api.Return r =>
          ∃ ml_result analysis_result status_code,
            SupabaseService.get_latest_ml_result (api.supabase sample_world)
              "5f0c4a8e-7b1d-4c57-9a49-2f1f6a3d9b10"
            = Some ml_result
            ∧ mr_metrics ml_result = Returns analysis_result
            ∧ let payload := {|
                wp_user_id := "5f0c4a8e-7b1d-4c57-9a49-2f1f6a3d9b10";
                wp_analysis_result := analysis_result;
                wp_timestamp := api.at_payload (api.clock sample_world)
              |} in
              api.post sample_world "https://hooks.example.org/risk" payload
              = Returns status_code
              ∧ events = [api.Post "https://hooks.example.org/risk" payload]
            ∧ api.data r
              = Some (api.webhook_data "https://hooks.example.org/risk"
                        "5f0c4a8e-7b1d-4c57-9a49-2f1f6a3d9b10")
      | api.HTTPException status_code detail =>
          (status_code = 404%Z ∧ events = [])
          ∨ (status_code = 500%Z
             ∧ (length events ≤ 1)%nat
             ∧ ∃ e, detail = "Failed to send webhook: " +:+ str e)
      end.
Proof.
  eexists _, _. split; [reflexivity|].
  by apply (trigger_webhook_reports_delivery sample_world
              "5f0c4a8e-7b1d-4c57-9a49-2f1f6a3d9b10"
              "https://hooks.example.org/risk").
Defined.

(** ** The retries of [WebhookService.send_webhook] *)

Section retries.
Context (self : WebhookService.t) (world : WebhookService.World).
Context (webhook_url : string) (payload : WebhookPayload).
Context (default_headers : gmap string string).

Local Abbreviation request :=
  (WebhookService.Post webhook_url payload default_headers).
Local Abbreviation answer :=
  (λ attempt : nat,
     WebhookService.post world attempt webhook_url payload default_headers).
Local Abbreviation round :=
  (λ attempt : nat,
     [request;
      WebhookService.Sleep
        (WebhookService.retry_delay self
                 * inject_Z (2 ^ Z.of_nat attempt))]).

Lemma attempts_seq (a n : nat) :
  (a + n = WebhookService.max_retries self)%nat → (0 < n)%nat →
  ∃ m,
    (1 ≤ m ≤ n)%nat
    ∧ (WebhookService.attempts self world webhook_url payload default_headers
         (seq a n)).2
      = flat_map round (seq a (m - 1)) ++ [request]
    ∧ (∀ k, (a ≤ k < a + m - 1)%nat →
         match answer k with
         | Returns _ => False
         | Raises (HTTPStatusError status_code _) =>
             ¬ (400 ≤ status_code < 500)%Z
         | Raises _ => True
         end)
    ∧ ((WebhookService.attempts self world webhook_url payload default_headers
          (seq a n)).1 = true
       ↔ ∃ status_code, answer (a + m - 1)%nat = Returns status_code)
    ∧ ((m < n)%nat →
       match answer (a + m - 1)%nat with
       | Returns _ => True
       | Raises (HTTPStatusError status_code _) => (400 ≤ status_code < 500)%Z
       | Raises _ => False
       end).
Proof.
  revert a. induction n as [|n IH]; intros a Hmax Hn; [lia|].
  cbn [seq WebhookService.attempts].
  assert (∀ m, (1 ≤ m)%nat → (a + m - 1 = a + (m - 1))%nat) as Hsub by lia.
  (* what the loop does when the attempt is to be repeated *)
  assert (match answer a with
          | Returns _ => False
          | Raises (HTTPStatusError status_code _) =>
              ¬ (400 ≤ status_code < 500)%Z
          | Raises _ => True
          end →
          ∃ m,
            (1 ≤ m ≤ S n)%nat
            ∧ (let '(sent, events) :=
                 WebhookService.attempts self world webhook_url payload
                   default_headers (seq (S a) n) in
               (sent,
                request
                :: (if (Z.of_nat a
                        <? Z.of_nat (WebhookService.max_retries self) - 1)%Z
                    then [WebhookService.Sleep
                            (WebhookService.retry_delay self
                             * inject_Z (2 ^ Z.of_nat a))]
                    else []) ++ events)).2
              = flat_map round (seq a (m - 1)) ++ [request]
            ∧ (∀ k, (a ≤ k < a + m - 1)%nat →
                 match answer k with
                 | Returns _ => False
                 | Raises (HTTPStatusError status_code _) =>
                     ¬ (400 ≤ status_code < 500)%Z
                 | Raises _ => True
                 end)
            ∧ ((let '(sent, events) :=
                  WebhookService.attempts self world webhook_url payload
                    default_headers (seq (S a) n) in
                (sent,
                 request
                 :: (if (Z.of_nat a
                        <? Z.of_nat (WebhookService.max_retries self) - 1)%Z
                     then [WebhookService.Sleep
                             (WebhookService.retry_delay self
                             * inject_Z (2 ^ Z.of_nat a))]
                     else []) ++ events)).1 = true
               ↔ ∃ status_code, answer (a + m - 1)%nat = Returns status_code)
            ∧ ((m < S n)%nat →
               match answer (a + m - 1)%nat with
               | Returns _ => True
               | Raises (HTTPStatusError status_code _) =>
                   (400 ≤ status_code < 500)%Z
               | Raises _ => False
               end)) as Hagain.
  { intros Hretried. destruct n as [|n'].
    - exists 1%nat. cbn [seq WebhookService.attempts].
      destruct (Z.ltb_spec (Z.of_nat a)
                  (Z.of_nat (WebhookService.max_retries self) - 1)); [lia|].
      replace (a + 1 - 1)%nat with a by lia. cbn.
      split_and!; [lia|lia|done|intros; lia| |lia].
      split; [done|]. intros [status_code Hret]. by rewrite Hret in Hretried.
    - destruct (IH (S a)) as (m & Hm & Hevents & Hbefore & Hsent & Hlast);
        [lia..|].
      exists (S m).
      destruct (WebhookService.attempts _ _ _ _ _ (seq (S a) (S n')))
        as [sent events].
      cbn [fst snd] in *.
      destruct (Z.ltb_spec (Z.of_nat a)
                  (Z.of_nat (WebhookService.max_retries self) - 1)); [|lia].
      replace (a + S m - 1)%nat with (S a + m - 1)%nat by lia.
      split_and!; [lia|lia| | |done|intros; apply Hlast; lia].
      + rewrite Hevents. replace (S m - 1)%nat with (S (m - 1)) by lia. done.
      + intros k Hk. destruct (decide (k = a)) as [->|]; [done|].
        apply Hbefore. lia. }
  destruct (answer a) as [status_code|e] eqn:Hanswer.
  { exists 1%nat. replace (a + 1 - 1)%nat with a by lia. rewrite Hanswer. cbn.
    split_and!; [lia|lia|done|intros; lia| |done]. split; [by eexists|done]. }
  destruct e as [text|status_code text|text|text]; try by apply Hagain.
  destruct ((400 <=? status_code)%Z && (status_code <? 500)%Z) eqn:Hclient.
  - exists 1%nat. replace (a + 1 - 1)%nat with a by lia. rewrite Hanswer. cbn.
    split_and!; [lia|lia|done|intros; lia| |intros _; lia].
    split; [done|]. by intros [? ?].
  - apply Hagain. lia.
Qed.

End retries.

(** X17. [send_webhook] with at least one attempt allowed makes some
    number [m] of requests, between one and [max_retries], all with the
    same address, payload and headers, and waits between two requests
    and nowhere else: [retry_delay] times 1, 2, 4, ... in this order.
    Every request but the last was answered by an error other than a
    4xx status; the call returns [True] exactly when the last request
    was accepted; and it stops before [max_retries] requests only for
    an accepted request or a 4xx status. *)
Theorem send_webhook_schedule
    (self : WebhookService.t) (world : WebhookService.World)
    (webhook_url user_id : string) (analysis_result : MLAnalysisResult)
    (headers : option (gmap string string)) :
  (0 < WebhookService.max_retries self)%nat →
  let payload := {|
    wp_user_id := user_id;
    wp_analysis_result := analysis_result;
    wp_timestamp := WebhookService.utcnow world
  |} in
  let default_headers := WebhookService.request_headers world headers in
  let request := WebhookService.Post webhook_url payload default_headers in
  let answer attempt :=
    WebhookService.post world attempt webhook_url payload default_headers in
  let result :=
    WebhookService.send_webhook self world webhook_url user_id
      analysis_result headers in
  ∃ m,
    (1 ≤ m ≤ WebhookService.max_retries self)%nat
    ∧ result.2
      = flat_map
          (λ attempt,
             [request;
              WebhookService.Sleep
                (WebhookService.retry_delay self
                 * inject_Z (2 ^ Z.of_nat attempt))])
          (seq 0 (m - 1))
        ++ [request]
    ∧ (∀ k, (k < m - 1)%nat →
         match answer k with
         | Returns _ => False
         | Raises (HTTPStatusError status_code _) =>
             ¬ (400 ≤ status_code < 500)%Z
         | Raises _ => True
         end)
    ∧ (result.1 = true ↔ ∃ status_code, answer (m - 1)%nat = Returns status_code)
    ∧ ((m < WebhookService.max_retries self)%nat →
       match answer (m - 1)%nat with
       | Returns _ => True
       | Raises (HTTPStatusError status_code _) => (400 ≤ status_code < 500)%Z
       | Raises _ => False
       end).
Proof.
  intros Hmax payload default_headers request answer result.
  destruct (attempts_seq self world webhook_url payload default_headers
              0 (WebhookService.max_retries self))
    as (m & Hm & Hevents & Hbefore & Hsent & Hlast); [lia..|].
  exists m. replace (0 + m - 1)%nat with (m - 1)%nat in * by lia.
  split_and!; [lia|lia|done| |done|done].
  intros k Hk. apply Hbefore. lia.
Qed.

Lemma send_webhook_schedule_witness :
  let self := WebhookService.__init__ in
  let world := sample_receiver in
  let payload := {|
    wp_user_id := "5f0c4a8e-7b1d-4c57-9a49-2f1f6a3d9b10";
    wp_analysis_result := _generate_empty_result sample_now;
    wp_timestamp := WebhookService.utcnow world
  |} in
  let default_headers := WebhookService.request_headers world None in
  let request :=
    WebhookService.Post "https://hooks.example.org/risk" payload
      default_headers in
  let answer attempt :=
    WebhookService.post world attempt "https://hooks.example.org/risk" payload
      default_headers in
  let result :=
    WebhookService.send_webhook self world "https://hooks.example.org/risk"
      "5f0c4a8e-7b1d-4c57-9a49-2f1f6a3d9b10"
      (_generate_empty_result sample_now) None in
  ∃ m,
    (1 ≤ m ≤ WebhookService.max_retries self)%nat
    ∧ result.2
      = flat_map
          (λ attempt,
             [request;
              WebhookService.Sleep
                (WebhookService.retry_delay self
                 * inject_Z (2 ^ Z.of_nat attempt))])
          (seq 0 (m - 1))
        ++ [request]
    ∧ (∀ k, (k < m - 1)%nat →
         match answer k with
         | Returns _ => False
         | Raises (HTTPStatusError status_code _) =>
             ¬ (400 ≤ status_code < 500)%Z
         | Raises _ => True
         end)
    ∧ (result.1 = true ↔ ∃ status_code, answer (m - 1)%nat = Returns status_code)
    ∧ ((m < WebhookService.max_retries self)%nat →
       match answer (m - 1)%nat with
       | Returns _ => True
       | Raises (HTTPStatusError status_code _) => (400 ≤ status_code < 500)%Z
       | Raises _ => False
       end).
Proof.
  apply (send_webhook_schedule WebhookService.__init__ sample_receiver
           "https://hooks.example.org/risk"
           "5f0c4a8e-7b1d-4c57-9a49-2f1f6a3d9b10"
           (_generate_empty_result sample_now) None).
  cbn. lia.
Defined.

Lemma np_sum_doubling (delay : Q) (n : nat) :
  np_sum ((λ attempt, delay * inject_Z (2 ^ Z.of_nat attempt)) <$> seq 0 n)
  == delay * (inject_Z (2 ^ Z.of_nat n) - 1).
Proof.
  induction n as [|n IH].
  { change (0 == delay * (1 - 1)). ring. }
  rewrite seq_S, fmap_app, np_sum_app, IH. cbn [fmap list_fmap np_sum foldr].
  rewrite Nat2Z.inj_succ, Z.pow_succ_r by lia. cbn [Nat.add].
  rewrite inject_Z_mult. generalize (inject_Z (2 ^ Z.of_nat n)). intros p.
  change (inject_Z 2) with 2. ring.
Qed.

Lemma waits_of_schedule (webhook_url : string) (payload : WebhookPayload)
    (default_headers : gmap string string) (delay : Q) (range : list nat) :
  let request := WebhookService.Post webhook_url payload default_headers in
  let schedule :=
    flat_map
      (λ attempt,
         [request;
          WebhookService.Sleep (delay * inject_Z (2 ^ Z.of_nat attempt))])
      range
    ++ [request] in
  omap (λ e, match e with
             | WebhookService.Sleep delay => Some delay
             | _ => None
             end) schedule
  = (λ attempt, delay * inject_Z (2 ^ Z.of_nat attempt)) <$> range
  ∧ omap (λ e, match e with
               | WebhookService.Post url _ _ => Some url
               | _ => None
               end) schedule
    = (λ _, webhook_url) <$> (range ++ [0%nat]).
Proof.
  induction range as [|attempt range [IH1 IH2]]; [done|].
  cbn in *. by rewrite IH1, IH2.
Qed.

(** X18. [send_webhook] waits once less than it posts, and with a
    non-negative [retry_delay] the waits of one call add up to
    [retry_delay] times (2^w - 1) for its [w] waits, which is at most
    [retry_delay] times (2^(max_retries - 1) - 1): three seconds for
    the three attempts and the delay of one second that [__init__]
    sets. *)
Theorem send_webhook_total_wait
    (self : WebhookService.t) (world : WebhookService.World)
    (webhook_url user_id : string) (analysis_result : MLAnalysisResult)
    (headers : option (gmap string string)) :
  0 <= WebhookService.retry_delay self →
  let events :=
    (WebhookService.send_webhook self world webhook_url user_id
       analysis_result headers).2 in
  let waits :=
    omap (λ e, match e with
               | WebhookService.Sleep delay => Some delay
               | _ => None
               end) events in
  let posts :=
    omap (λ e, match e with
               | WebhookService.Post url _ _ => Some url
               | _ => None
               end) events in
  length waits = (length posts - 1)%nat
  ∧ (length posts ≤ WebhookService.max_retries self)%nat
  ∧ np_sum waits
    == WebhookService.retry_delay self
       * (inject_Z (2 ^ Z.of_nat (length waits)) - 1)
  ∧ np_sum waits
    <= WebhookService.retry_delay self
       * (inject_Z (2 ^ Z.of_nat (WebhookService.max_retries self - 1)) - 1)
  ∧ (self = WebhookService.__init__ → np_sum waits <= 3).
Proof.
  intros Hdelay. unfold WebhookService.send_webhook.
  set (payload := {| wp_user_id := user_id |}).
  set (default_headers := WebhookService.request_headers world headers).
  destruct (WebhookService.max_retries self) as [|n] eqn:Hmax.
  { cbn. change (inject_Z (2 ^ Z.of_nat 0)) with 1.
    generalize (WebhookService.retry_delay self). intros delay.
    split_and!; [done|lia|lra|lra|intros _; lra]. }
  destruct (attempts_seq self world webhook_url payload default_headers
              0 (S n))
    as (m & Hm & Hevents & _); [lia..|].
  rewrite Hevents. clear Hevents. cbn zeta.
  destruct (waits_of_schedule webhook_url payload default_headers
              (WebhookService.retry_delay self) (seq 0 (m - 1))) as [-> ->].
  rewrite !length_fmap, length_app, !length_seq. cbn [length].
  assert (np_sum
            ((λ attempt,
                WebhookService.retry_delay self
                * inject_Z (2 ^ Z.of_nat attempt)) <$> seq 0 (m - 1))
          <= WebhookService.retry_delay self
             * (inject_Z (2 ^ Z.of_nat (S n - 1)) - 1)) as Hbound.
  { rewrite np_sum_doubling.
    assert (2 ^ Z.of_nat (m - 1) ≤ 2 ^ Z.of_nat (S n - 1))%Z as Hpow
      by (apply Z.pow_le_mono_r; lia).
    rewrite Zle_Qle in Hpow. revert Hpow.
    generalize (inject_Z (2 ^ Z.of_nat (m - 1))),
      (inject_Z (2 ^ Z.of_nat (S n - 1))).
    intros p q Hpq. nra. }
  split_and!; [lia|lia|apply np_sum_doubling|done|].
  intros ->. injection Hmax as <-.
  eapply Qle_trans; [exact Hbound|by vm_compute].
Qed.

Lemma send_webhook_total_wait_witness :
  let events :=
    (WebhookService.send_webhook WebhookService.__init__ sample_receiver
       "https://hooks.example.org/risk" "5f0c4a8e-7b1d-4c57-9a49-2f1f6a3d9b10"
       (_generate_empty_result sample_now) None).2 in
  let waits :=
    omap (λ e, match e with
               | WebhookService.Sleep delay => Some delay
               | _ => None
               end) events in
  let posts :=
    omap (λ e, match e with
               | WebhookService.Post url _ _ => Some url
               | _ => None
               end) events in
  length waits = (length posts - 1)%nat
  ∧ (length posts ≤ WebhookService.max_retries WebhookService.__init__)%nat
  ∧ np_sum waits
    == WebhookService.retry_delay WebhookService.__init__
       * (inject_Z (2 ^ Z.of_nat (length waits)) - 1)
  ∧ np_sum waits
    <= WebhookService.retry_delay WebhookService.__init__
       * (inject_Z
            (2 ^ Z.of_nat
                   (WebhookService.max_retries WebhookService.__init__ - 1))
          - 1)
  ∧ (WebhookService.__init__ = WebhookService.__init__ → np_sum waits <= 3).
Proof.
  apply (send_webhook_total_wait WebhookService.__init__ sample_receiver
           "https://hooks.example.org/risk"
           "5f0c4a8e-7b1d-4c57-9a49-2f1f6a3d9b10"
           (_generate_empty_result sample_now) None).
  by vm_compute.
Defined.

Lemma attempts_requests (self : WebhookService.t) (world : WebhookService.World)
    (webhook_url : string) (payload : WebhookPayload)
    (default_headers : gmap string string) (range : list nat) :
  Forall (λ e, match e with
               | WebhookService.Post url payload' headers =>
                   url = webhook_url ∧ payload' = payload
                   ∧ headers = default_headers
               | WebhookService.Sleep _ => True
               end)
    (WebhookService.attempts self world webhook_url payload default_headers
       range).2.
Proof.
  induction range as [|attempt range IH]; [constructor|].
  cbn [WebhookService.attempts].
  destruct (WebhookService.attempts _ _ _ _ _ range) as [sent events].
  assert (Forall (λ e, match e with
                       | WebhookService.Post url payload' headers =>
                           url = webhook_url ∧ payload' = payload
                           ∧ headers = default_headers
                       | WebhookService.Sleep _ => True
                       end)
            (WebhookService.Post webhook_url payload default_headers
             :: (if (Z.of_nat attempt
                     <? Z.of_nat (WebhookService.max_retries self) - 1)%Z
                 then [WebhookService.Sleep
                         (WebhookService.retry_delay self
                          * inject_Z (2 ^ Z.of_nat attempt))]
                 else []) ++ events)) as Hagain.
  { constructor; [done|]. apply Forall_app. split; [|done].
    destruct (_ <? _)%Z; by repeat constructor. }
  destruct (WebhookService.post _ _ _ _ _) as [status_code|e].
  { by repeat constructor. }
  destruct e as [text|status_code text|text|text]; try done.
  destruct (_ && _); [by repeat constructor|done].
Qed.

Lemma request_headers_defaults (world : WebhookService.World)
    (headers : option (gmap string string)) (name : string) :
  name ∈ ["Content-Type"; "User-Agent"; "X-Webhook-Source"] →
  is_Some (WebhookService.request_headers world headers !! name).
Proof.
  intros Hname. unfold WebhookService.request_headers.
  set (default_headers :=
         <["Content-Type" := "application/json"]>
           (<["User-Agent" := "TransactionRiskAnalytics/1.0"]>
              (<["X-Webhook-Source" := "transaction-risk-api"]>
                 (∅ : gmap string string)))).
  assert (is_Some (default_headers !! name)) as Hdefault.
  { repeat (apply elem_of_cons in Hname as [->|Hname]; [by eexists|]).
    by apply elem_of_nil in Hname. }
  assert (∀ custom : gmap string string,
            is_Some ((custom ∪ default_headers) !! name)) as Hunion.
  { intros custom. apply lookup_union_is_Some. by right. }
  destruct headers as [custom|]; [destruct (decide (custom = ∅))|];
    (destruct (WebhookService.WEBHOOK_SECRET world) as [webhook_secret|];
     [destruct (truthy webhook_secret)|]);
    rewrite ?lookup_insert_is_Some'; auto.
Qed.

(** X19. Every request of one call of [send_webhook] goes to the given
    address with the same payload and the same headers.  A secret that
    is set in the environment is sent as [X-Webhook-Secret] whatever
    the caller passes; every other header of the caller is sent as the
    caller gives it, also in place of a default; and [Content-Type],
    [User-Agent] and [X-Webhook-Source] are always there. *)
Theorem send_webhook_headers
    (self : WebhookService.t) (world : WebhookService.World)
    (webhook_url user_id : string) (analysis_result : MLAnalysisResult)
    (headers : option (gmap string string)) :
  Forall (λ e, match e with
               | WebhookService.Post url payload sent =>
                   url = webhook_url
                   ∧ wp_user_id payload = user_id
                   ∧ wp_analysis_result payload = analysis_result
                   ∧ (∀ webhook_secret,
                        WebhookService.WEBHOOK_SECRET world = Some webhook_secret →
                        webhook_secret ≠ "" →
                        sent !! "X-Webhook-Secret" = Some webhook_secret)
                   ∧ (∀ custom name value,
                        headers = Some custom →
                        custom !! name = Some value →
                        name ≠ "X-Webhook-Secret" →
                        sent !! name = Some value)
                   ∧ is_Some (sent !! "Content-Type")
                   ∧ is_Some (sent !! "User-Agent")
                   ∧ is_Some (sent !! "X-Webhook-Source")
               | WebhookService.Sleep _ => True
               end)
    (WebhookService.send_webhook self world webhook_url user_id
       analysis_result headers).2.
Proof.
  unfold WebhookService.send_webhook.
  eapply Forall_impl; [apply attempts_requests|].
  intros [url payload sent|delay]; [|done]. cbn beta iota.
  intros (-> & -> & ->). split_and!; try done.
  - intros webhook_secret Hsecret Hne. unfold WebhookService.request_headers.
    rewrite Hsecret. destruct webhook_secret; [done|]. cbn [truthy].
    apply lookup_insert_eq.
  - intros custom name value -> Hvalue Hname.
    assert ((if decide (custom = ∅)
             then <["Content-Type" := "application/json"]>
                    (<["User-Agent" := "TransactionRiskAnalytics/1.0"]>
                       (<["X-Webhook-Source" := "transaction-risk-api"]>
                          (∅ : gmap string string)))
             else custom
                  ∪ <["Content-Type" := "application/json"]>
                      (<["User-Agent" := "TransactionRiskAnalytics/1.0"]>
                         (<["X-Webhook-Source" := "transaction-risk-api"]> ∅)))
            !! name = Some value) as Hcustom.
    { destruct (decide (custom = ∅)) as [->|]; [done|].
      by apply lookup_union_Some_l. }
    unfold WebhookService.request_headers.
    destruct (WebhookService.WEBHOOK_SECRET world) as [webhook_secret|];
      [|done].
    destruct (truthy webhook_secret); [|done].
    by rewrite lookup_insert_ne.
  - apply request_headers_defaults. compute_done.
  - apply request_headers_defaults. compute_done.
  - apply request_headers_defaults. compute_done.
Qed.

(** ** The helpers *)

Lemma py_min_le_iff_l (a b : Q) : py_min a b == a ↔ a <= b.
Proof.
  unfold py_min. destruct (Qltb b a) eqn:E.
  - apply Qltb_lt in E. split; intros; lra.
  - apply Qltb_ge in E. split; [done|reflexivity].
Qed.

Lemma health_total (s v e : Q) :
  v <= 30 → 0 <= e →
  let total := py_min 30 (py_max 0 s) + py_max 0 v + py_min 25 e + 15 in
  py_min 100 (py_max 0 total) == total
  ∧ 15 <= total ∧ total <= 100
  ∧ (total == 100 ↔ 30 <= s ∧ v == 30 ∧ 25 <= e).
Proof.
  intros Hv He.
  assert (0 <= py_min 30 (py_max 0 s)) as Hs0
    by (apply py_min_ge; [lra | apply py_max_ge_l]).
  pose proof (py_min_le_l 30 (py_max 0 s)) as Hs1.
  pose proof (py_max_ge_l 0 v) as Hv0.
  assert (py_max 0 v <= 30) as Hv1 by (apply py_max_le; lra).
  assert (0 <= py_min 25 e) as He0 by (apply py_min_ge; lra).
  pose proof (py_min_le_l 25 e) as He1.
  assert (py_min 30 (py_max 0 s) == 30 ↔ 30 <= s) as Hs30.
  { clear. rewrite py_min_le_iff_l. unfold py_max.
    destruct (Qltb 0 s) eqn:E; [done|]. apply Qltb_ge in E.
    split; intros; lra. }
  assert (py_max 0 v == 30 ↔ v == 30) as Hv30.
  { clear -Hv. unfold py_max. destruct (Qltb 0 v) eqn:E; [done|].
    apply Qltb_ge in E. split; intros; lra. }
  pose proof (py_min_le_iff_l 25 e) as He25.
  revert Hs0 Hs1 Hv0 Hv1 He0 He1 Hs30 Hv30 He25.
  generalize (py_min 30 (py_max 0 s)), (py_max 0 v), (py_min 25 e).
  intros a b c Ha0 Ha1 Hb0 Hb1 Hc0 Hc1 Ha Hb Hc. cbn zeta.
  split_and!; [|lra|lra|].
  - unfold py_min, py_max.
    destruct (Qltb 0 (a + b + c + 15)) eqn:E0;
      [|apply Qltb_ge in E0; lra].
    destruct (Qltb (a + b + c + 15) 100) eqn:E1; [reflexivity|].
    apply Qltb_ge in E1. lra.
  - rewrite <- Ha, <- Hb, <- Hc. split; [|lra]. intros. split_and!; lra.
Qed.

(** X20. For volatilities that are not negative in sum and an essential
    ratio that is not negative, the two clamps at the end of the
    financial health score never act: the score is the sum of its four
    components, at least 15 and at most 100, and it is 100 exactly for
    a savings rate of at least 0.3, no volatility and an essential
    ratio of at least 5/6. *)
Theorem financial_health_score_range
    (savings_rate income_volatility spending_volatility
       essential_spending_ratio : Q) :
  0 <= income_volatility + spending_volatility →
  0 <= essential_spending_ratio →
  let score :=
    calculate_financial_health_score savings_rate income_volatility
      spending_volatility essential_spending_ratio in
  score
  == py_min 30 (py_max 0 (savings_rate * 100))
     + py_max 0 (30 - (income_volatility + spending_volatility) * 15)
     + py_min 25 (essential_spending_ratio * 30) + 15
  ∧ 15 <= score ∧ score <= 100
  ∧ (score == 100
     ↔ 0.3 <= savings_rate
       ∧ income_volatility + spending_volatility == 0
       ∧ (5 # 6) <= essential_spending_ratio).
Proof.
  intros Hvol Hess. unfold calculate_financial_health_score. cbn zeta.
  destruct (health_total (savings_rate * 100)
              (30 - (income_volatility + spending_volatility) * 15)
              (essential_spending_ratio * 30))
    as (Hscore & H15 & H100 & Hfull); [lra..|].
  rewrite Hscore. split_and!; [reflexivity|done|done|].
  rewrite Hfull. split; intros (Hs & Hv & He); (split_and!; lra).
Qed.

Lemma financial_health_score_range_witness :
  let score := calculate_financial_health_score 0.2 0.1 0.3 0.65 in
  score
  == py_min 30 (py_max 0 (0.2 * 100))
     + py_max 0 (30 - (0.1 + 0.3) * 15)
     + py_min 25 (0.65 * 30) + 15
  ∧ 15 <= score ∧ score <= 100
  ∧ (score == 100 ↔ 0.3 <= 0.2 ∧ 0.1 + 0.3 == 0 ∧ (5 # 6) <= 0.65).
Proof.
  apply (financial_health_score_range 0.2 0.1 0.3 0.65); by vm_compute.
Defined.

(** X21. [calculate_percentage_change] never divides by zero.  From a
    non-zero old value the change leads back to the new value; from a
    positive old value to a non-negative new one it is at least -100
    percent; from zero it is 100 for a positive new value and 0
    otherwise. *)
Theorem percentage_change_total (old_value new_value : Q) :
  ∃ change,
    calculate_percentage_change old_value new_value = Some change
    ∧ (¬ old_value == 0 → change * old_value == (new_value - old_value) * 100)
    ∧ (0 < old_value → 0 <= new_value → -100 <= change)
    ∧ (old_value == 0 → 0 < new_value → change = 100.0)
    ∧ (old_value == 0 → new_value <= 0 → change = 0.0).
Proof.
  unfold calculate_percentage_change.
  destruct (Qeq_bool old_value 0) eqn:Hzero.
  - apply Qeq_bool_iff in Hzero. eexists. split; [done|].
    split_and!; [done|intros; lra| |].
    + intros _ Hnew. apply Qltb_lt in Hnew. by rewrite Hnew.
    + intros _ Hnew. apply Qltb_ge in Hnew. by rewrite Hnew.
  - assert (¬ old_value == 0) as Hold.
    { intros H. apply Qeq_bool_iff in H. congruence. }
    rewrite (div_Some _ _ Hold). cbn [mbind option_bind].
    eexists. split; [done|]. split_and!; try done.
    + intros _. field_simplify; [reflexivity|done].
    + intros Hpos Hnew.
      assert (-1 <= (new_value - old_value) / old_value) as Hratio.
      { apply Qle_shift_div_l; [done|]. lra. }
      revert Hratio. generalize ((new_value - old_value) / old_value).
      intros q Hq. lra.
Qed.

Lemma anomalies_loop_filter (mean_amount std_amount threshold : Q)
    (enumerated : list (nat * Q)) (anomalies : list nat) :
  ¬ std_amount == 0 →
  anomalies_loop mean_amount std_amount threshold enumerated anomalies
  = Some (anomalies
          ++ (filter
                (λ p, Qltb threshold
                        (py_abs ((p.2 - mean_amount) / std_amount)) = true)
                enumerated).*1).
Proof.
  intros Hstd. revert anomalies.
  induction enumerated as [|[i amount] enumerated IH]; intros anomalies.
  { cbn. by rewrite app_nil_r. }
  cbn [anomalies_loop]. rewrite (div_Some _ _ Hstd). cbn [mbind option_bind].
  rewrite IH, filter_cons. cbn [snd].
  destruct (Qltb threshold _) eqn:E.
  - rewrite decide_True by done. by rewrite <- app_assoc.
  - by rewrite decide_False by done.
Qed.

Lemma StronglySorted_seq (a n : nat) : StronglySorted lt (seq a n).
Proof.
  revert a. induction n as [|n IH]; intros a; cbn; constructor; [apply IH|].
  apply Forall_forall. intros i Hi%elem_of_seq. lia.
Qed.

Lemma StronglySorted_sublist {A} (R : relation A) (l k : list A) :
  l `sublist_of` k → StronglySorted R k → StronglySorted R l.
Proof.
  induction 1 as [|x l k Hsub IH|x l k Hsub IH]; intros Hk; [done|..].
  - apply StronglySorted_inv in Hk as [Hk Hx]. constructor; [by apply IH|].
    apply Forall_forall. intros y Hy. rewrite Forall_forall in Hx.
    apply Hx. by eapply elem_of_sublist.
  - apply StronglySorted_inv in Hk as [Hk _]. by apply IH.
Qed.

Lemma elem_of_enumerate {A} (l : list A) (i : nat) (x : A) :
  (i, x) ∈ zip (seq 0 (length l)) l ↔ l !! i = Some x.
Proof.
  rewrite list_elem_of_lookup. split.
  - intros [j [[-> _]%lookup_seq Hx]%lookup_zip_Some]. done.
  - intros Hx. exists i. apply lookup_zip_Some. split; [|done].
    apply lookup_seq. split; [done|]. by eapply lookup_lt_Some.
Qed.

(** X22. [detect_spending_anomalies] never divides by zero, whatever
    numpy returns as the mean and the deviation.  It returns indices
    of the list in increasing order, an index exactly when the list
    has at least three amounts, the deviation that numpy returns is
    not zero, and the distance of the amount from the mean, divided by
    the deviation, is above the threshold; so it returns nothing for
    fewer than three amounts and nothing when the deviation is zero. *)
Theorem detect_spending_anomalies_sound
    (np : numpy) (amounts : list Q) (threshold : Q) :
  ∃ anomalies,
    detect_spending_anomalies np amounts threshold = Some anomalies
    ∧ StronglySorted lt anomalies
    ∧ (∀ i, i ∈ anomalies ↔
         (3 ≤ length amounts)%nat
         ∧ ¬ numpy_std np amounts == 0
         ∧ ∃ amount,
             amounts !! i = Some amount
             ∧ threshold
               < py_abs ((amount - numpy_mean np amounts)
                         / numpy_std np amounts))
    ∧ ((length amounts < 3)%nat → anomalies = [])
    ∧ (numpy_std np amounts == 0 → anomalies = []).
Proof.
  unfold detect_spending_anomalies.
  destruct (Nat.ltb_spec (length amounts) 3) as [Hshort|Hlong].
  { eexists. split; [done|]. split_and!; try done; [constructor|].
    intros i. split; [by intros ?%elem_of_nil|]. intros [? _]. lia. }
  cbn zeta.
  destruct (Qeq_bool (numpy_std np amounts) 0) eqn:Hzero.
  { apply Qeq_bool_iff in Hzero. eexists. split; [done|].
    split_and!; try done; [constructor|].
    intros i. split; [by intros ?%elem_of_nil|]. by intros (_ & Hnz & _). }
  assert (¬ numpy_std np amounts == 0) as Hnz.
  { intros H. apply Qeq_bool_iff in H. congruence. }
  rewrite (anomalies_loop_filter _ _ _ _ _ Hnz). cbn [app].
  eexists. split; [done|]. split_and!.
  - eapply StronglySorted_sublist;
      [|apply (StronglySorted_seq 0 (length amounts))].
    rewrite <- (fst_zip (seq 0 (length amounts)) amounts) at 2
      by (rewrite length_seq; lia).
    apply fmap_sublist, sublist_filter.
  - intros i. rewrite list_elem_of_fmap. split.
    + intros ([i' amount] & -> & [Hflag Hin]%list_elem_of_filter).
      cbn [fst snd] in *. split; [done|]. split; [done|].
      apply elem_of_enumerate in Hin. apply Qltb_lt in Hflag.
      by exists amount.
    + intros (_ & _ & amount & Hamount & Hflag).
      exists (i, amount). split; [done|]. apply list_elem_of_filter.
      split; [|by apply elem_of_enumerate]. cbn [snd]. by apply Qltb_lt.
  - lia.
  - done.
Qed.

(** Three amounts of 0.1 are all flagged at a threshold of 0.5: the
    deviation that numpy returns for them is 2^-56, not 0, and each
    amount is one such deviation away from the mean. *)
Lemma detect_spending_anomalies_rounded_deviation :
  let amount := 7205759403792794 # 72057594037927936 in
  detect_spending_anomalies sample_numpy [amount; amount; amount] 0.5
  = Some [0; 1; 2]%nat.
Proof. by vm_compute. Qed.

(** ** The spending insights *)

Lemma insert_by_amount_Permutation (item : string * Q)
    (sorted : list (string * Q)) :
  insert_by_amount item sorted ≡ₚ item :: sorted.
Proof.
  induction sorted as [|item' sorted IH]; [done|]. cbn.
  destruct (Qltb _ _); [|done]. rewrite IH. apply Permutation_swap.
Qed.

Lemma sorted_by_amount_Permutation (items : list (string * Q)) :
  sorted_by_amount items ≡ₚ items.
Proof.
  induction items as [|item items IH]; [done|]. cbn.
  by rewrite insert_by_amount_Permutation, IH.
Qed.

Lemma insert_by_amount_sorted (item : string * Q) (sorted : list (string * Q)) :
  StronglySorted (λ x y, y.2 <= x.2) sorted →
  StronglySorted (λ x y, y.2 <= x.2) (insert_by_amount item sorted).
Proof.
  induction sorted as [|item' sorted IH]; intros Hsorted.
  { by repeat constructor. }
  cbn. apply StronglySorted_inv in Hsorted as [Hsorted Hfirst].
  destruct (Qltb item.2 item'.2) eqn:E.
  - apply Qltb_lt in E. constructor; [by apply IH|].
    rewrite insert_by_amount_Permutation. constructor; [lra|done].
  - apply Qltb_ge in E. constructor; [by constructor|].
    constructor; [done|]. eapply Forall_impl; [exact Hfirst|].
    intros y Hy. cbn in Hy. lra.
Qed.

Lemma sorted_by_amount_sorted (items : list (string * Q)) :
  StronglySorted (λ x y, y.2 <= x.2) (sorted_by_amount items).
Proof.
  induction items as [|item items IH]; [constructor|].
  by apply insert_by_amount_sorted.
Qed.

Lemma sorted_by_amount_top (items : list (string * Q)) :
  items ≠ [] →
  ∃ top rest,
    sorted_by_amount items = top :: rest
    ∧ top ∈ items
    ∧ ∀ item, item ∈ items → item.2 <= top.2.
Proof.
  intros Hne. pose proof (sorted_by_amount_Permutation items) as Hperm.
  pose proof (sorted_by_amount_sorted items) as Hsorted.
  destruct (sorted_by_amount items) as [|top rest].
  { symmetry in Hperm. by apply Permutation_nil_r in Hperm. }
  exists top, rest. split; [done|]. split.
  - rewrite <- Hperm. by left.
  - intros item Hitem. rewrite <- Hperm in Hitem.
    apply StronglySorted_inv in Hsorted as [_ Hfirst].
    apply elem_of_cons in Hitem as [->|Hitem]; [lra|].
    rewrite Forall_forall in Hfirst. by apply Hfirst.
Qed.

(** X23. [generate_spending_insights] fails, with a division by zero,
    exactly for a dictionary that is not empty and whose amounts add up
    to zero.  Otherwise it returns between one and three insights; for
    a dictionary that is not empty the first one names a category of
    the largest amount and its share of the total, and the second one
    is one of the three remarks on essential spending exactly when the
    total is positive. *)
Theorem spending_insights_total (spending_data : list (string * Q)) :
  let total_spending := np_sum (spending_data.*2) in
  (generate_spending_insights spending_data = None
   ↔ spending_data ≠ [] ∧ total_spending == 0)
  ∧ ∀ insights,
      generate_spending_insights spending_data = Some insights →
      (1 ≤ length insights ≤ 3)%nat
      ∧ (spending_data ≠ [] →
         ∃ top_category top_amount,
           (top_category, top_amount) ∈ spending_data
           ∧ (∀ item, item ∈ spending_data → item.2 <= top_amount)
           ∧ head insights
             = Some ("Highest spending category is " +:+ top_category
                     +:+ " ("
                     +:+ format_1f (top_amount / total_spending * 100)
                     +:+ "% of total)"))
      ∧ (spending_data ≠ [] →
         (0 < total_spending
          ↔ ∃ remark,
              insights !! 1%nat = Some remark
              ∧ remark
                ∈ [ "Very high focus on essential spending indicates good financial discipline";
                    "Balanced spending between essential and discretionary items";
                    "High discretionary spending - consider reviewing non-essential expenses" ])).
Proof.
  cbn zeta. unfold generate_spending_insights.
  destruct (decide (spending_data = [])) as [->|Hne].
  { split; [split; [done|by intros [? _]]|].
    intros insights [= <-]. cbn. split_and!; [lia|lia|done|done]. }
  destruct (sorted_by_amount_top _ Hne) as ([top_category top_amount] & rest
                                            & -> & Htop & Hmax).
  assert (∀ (B : Type) (l : list (string * Q)) (a b : B),
            l ≠ [] → match l with [] => a | _ :: _ => b end = b) as Hmatch.
  { by intros B [|? ?] a b ?. }
  rewrite Hmatch by done. clear Hmatch.
  set (total_spending := np_sum (spending_data.*2)).
  destruct (Qeq_bool total_spending 0) eqn:Hzero.
  { assert (∀ a, div_ a total_spending = None) as Hdiv.
    { intros a. unfold div_. by rewrite Hzero. }
    apply Qeq_bool_iff in Hzero. rewrite !Hdiv. cbn [mbind option_bind].
    split; [done|]. done. }
  assert (¬ total_spending == 0) as Hnz.
  { intros H. apply Qeq_bool_iff in H. congruence. }
  rewrite !(div_Some _ _ Hnz). cbn [mbind option_bind app].
  set (remarks := if Qltb 70 _ then _ else _).
  assert (remarks
          ∈ [ "Very high focus on essential spending indicates good financial discipline";
              "Balanced spending between essential and discretionary items";
              "High discretionary spending - consider reviewing non-essential expenses" ])
    as Hremarks.
  { unfold remarks. destruct (Qltb 70 _); [|destruct (Qltb 50 _)]; compute_done. }
  clearbody remarks.
  set (diversity := if (8 <? _)%nat then _ else _).
  assert ((length diversity ≤ 1)%nat
          ∧ ∀ remark, head diversity = Some remark →
              remark
              ∉ [ "Very high focus on essential spending indicates good financial discipline";
                  "Balanced spending between essential and discretionary items";
                  "High discretionary spending - consider reviewing non-essential expenses" ])
    as [Hlength Hdiversity].
  { unfold diversity. destruct (_ <? _)%nat; [|destruct (_ <? _)%nat]; cbn;
      (split; [lia|]); intros remark [= <-]; compute_done. }
  clearbody diversity.
  split; [split; [by destruct (Qltb 0 total_spending)|by intros [_ ?]]|].
  intros insights.
  destruct (Qltb 0 total_spending) eqn:Hpos;
    [apply Qltb_lt in Hpos | apply Qltb_ge in Hpos];
    cbn [mbind option_bind app]; intros [= <-].
  - split_and!; [cbn; lia|cbn; lia| |].
    + intros _. by exists top_category, top_amount.
    + intros _. split; [|done]. intros _. by exists remarks.
  - split_and!; [cbn; lia|cbn; lia| |].
    + intros _. by exists top_category, top_amount.
    + intros _. split; [lra|]. intros (remark & Hremark & Hin).
      cbn in Hremark. destruct diversity as [|d diversity]; [done|].
      injection Hremark as ->. exfalso. by apply (Hdiversity remark).
Qed.

(** ** The monthly trend *)

Lemma insert_string_Permutation (s : string) (sorted : list string) :
  insert_string s sorted ≡ₚ s :: sorted.
Proof.
  induction sorted as [|s' sorted IH]; [done|]. cbn.
  destruct (String.leb s s'); [done|]. rewrite IH. apply Permutation_swap.
Qed.

Lemma sorted_strings_Permutation (l : list string) : sorted_strings l ≡ₚ l.
Proof.
  induction l as [|s l IH]; [done|]. cbn.
  by rewrite insert_string_Permutation, IH.
Qed.

Lemma insert_string_Sorted (s : string) (sorted : list string) :
  Sorted (λ s1 s2, String.leb s1 s2 = true) sorted →
  Sorted (λ s1 s2, String.leb s1 s2 = true) (insert_string s sorted).
Proof.
  induction sorted as [|s' sorted IH]; intros Hsorted.
  { by repeat constructor. }
  cbn. destruct (String.leb s s') eqn:E.
  { constructor; [done|]. by constructor. }
  apply Sorted_inv in Hsorted as [Hsorted Hhd].
  constructor; [by apply IH|].
  destruct sorted as [|s'' sorted]; cbn.
  - constructor. by destruct (String.leb_total s s') as [H|H]; [congruence|].
  - destruct (String.leb s s'').
    + constructor. by destruct (String.leb_total s s') as [H|H]; [congruence|].
    + constructor. by apply HdRel_inv in Hhd.
Qed.

Lemma sorted_strings_Sorted (l : list string) :
  Sorted (λ s1 s2, String.leb s1 s2 = true) (sorted_strings l).
Proof.
  induction l as [|s l IH]; [constructor|]. by apply insert_string_Sorted.
Qed.

Lemma trend_loop_Some (monthly_data : gmap string (gmap string Q))
    (months : list string) (trend_data : TrendData) :
  let income month :=
    default 0 (default ∅ (monthly_data !! month) !! "income") in
  let spending month :=
    default 0 (default ∅ (monthly_data !! month) !! "spending") in
  trend_loop monthly_data months trend_data
  = Some {|
      td_months := td_months trend_data;
      td_income := td_income trend_data ++ (income <$> months);
      td_spending := td_spending trend_data ++ (spending <$> months);
      td_savings :=
        td_savings trend_data
        ++ ((λ month, income month - spending month) <$> months);
      td_savings_rate :=
        td_savings_rate trend_data
        ++ ((λ month,
               py_round
                 (if Qltb 0 (income month)
                  then (income month - spending month) / income month * 100
                  else 0) 1) <$> months)
    |}.
Proof.
  cbn zeta. revert trend_data.
  induction months as [|month months IH]; intros trend_data.
  { cbn. rewrite !app_nil_r. by destruct trend_data. }
  cbn [trend_loop].
  destruct (Qltb 0 _) eqn:E.
  - pose proof (proj1 (Qltb_lt _ _) E) as Hpos.
    rewrite div_Some by lra. cbn [mbind option_bind].
    rewrite IH. cbn. rewrite E, <- !app_assoc. done.
  - cbn [mbind option_bind]. rewrite IH. cbn. rewrite E, <- !app_assoc. done.
Qed.

(** X24. [create_monthly_trend_data] never divides by zero.  Its months
    are the keys of the dictionary, each once and in ascending order,
    and the four series have an entry for each month, lined up with
    the months: the income and the spending of the month (0 when
    missing), their difference, and the savings rate in percent, which
    is 0 without a positive income and at most 100 when the spending
    is not negative. *)
Theorem monthly_trend_well_formed
    (monthly_data : gmap string (gmap string Q)) :
  ∃ trend_data,
    create_monthly_trend_data monthly_data = Some trend_data
    ∧ (∀ month,
         month ∈ td_months trend_data ↔ is_Some (monthly_data !! month))
    ∧ NoDup (td_months trend_data)
    ∧ Sorted (λ s1 s2, String.leb s1 s2 = true) (td_months trend_data)
    ∧ length (td_months trend_data) = size monthly_data
    ∧ length (td_income trend_data) = size monthly_data
    ∧ length (td_spending trend_data) = size monthly_data
    ∧ length (td_savings trend_data) = size monthly_data
    ∧ length (td_savings_rate trend_data) = size monthly_data
    ∧ ∀ i month,
        td_months trend_data !! i = Some month →
        let data := default ∅ (monthly_data !! month) in
        let income := default 0 (data !! "income") in
        let spending := default 0 (data !! "spending") in
        td_income trend_data !! i = Some income
        ∧ td_spending trend_data !! i = Some spending
        ∧ td_savings trend_data !! i = Some (income - spending)
        ∧ ∃ savings_rate,
            td_savings_rate trend_data !! i = Some savings_rate
            ∧ (0 < income →
               savings_rate
               = py_round ((income - spending) / income * 100) 1)
            ∧ (income <= 0 → savings_rate == 0)
            ∧ (0 <= spending → savings_rate <= 100).
Proof.
  unfold create_monthly_trend_data. rewrite trend_loop_Some. cbn [app].
  set (months := sorted_strings (map_to_list monthly_data).*1).
  assert (months ≡ₚ (map_to_list monthly_data).*1) as Hperm
    by apply sorted_strings_Permutation.
  assert (length months = size monthly_data) as Hlength.
  { by rewrite Hperm, length_fmap, length_map_to_list. }
  eexists. split; [done|]. cbn.
  split_and!; rewrite ?length_fmap; try done.
  - intros month. rewrite Hperm, list_elem_of_fmap. split.
    + intros ([month' data] & -> & Hin%elem_of_map_to_list). by eexists.
    + intros [data Hdata]. exists (month, data).
      split; [done|]. by apply elem_of_map_to_list.
  - rewrite Hperm. apply NoDup_fst_map_to_list.
  - apply sorted_strings_Sorted.
  - intros i month Hmonth. rewrite !list_lookup_fmap, Hmonth. cbn.
    split_and!; try done. eexists. split; [done|].
    set (income := default 0 (default ∅ (monthly_data !! month) !! "income")).
    set (spending :=
           default 0 (default ∅ (monthly_data !! month) !! "spending")).
    destruct (Qltb 0 income) eqn:E;
      [apply Qltb_lt in E | apply Qltb_ge in E].
    + split_and!; [done|lra|]. intros Hspending.
      set (x := (income - spending) / income * 100).
      assert (x <= 100) as Hx.
      { unfold x.
        assert ((income - spending) / income <= 1) as Hshare.
        { apply Qle_shift_div_r; [done|]. lra. }
        revert Hshare. generalize ((income - spending) / income).
        intros q Hq. lra. }
      apply (py_round_bounds x 1 (Qfloor x) 100); [apply Qfloor_le|done].
    + split_and!; [lra|by vm_compute|by vm_compute].
Qed.

(** X25. The trend of the monthly analysis of a non-empty list of
    transactions with non-negative amounts: its months are the months
    in which a transaction falls; its spending is the monthly spending
    of the financial summary; its savings are income minus spending
    and may be negative, where the monthly savings of the summary are
    the same number cut off at 0; and its savings rates are at most
    100 percent. *)
Theorem monthly_trend_of_analysis
    (now : datetime) (transactions : list Transaction) :
  transactions ≠ [] →
  Forall (λ t, 0 <= tx_amount t) transactions →
  ∃ r trend_data,
    analyze_transactions now transactions = Some r
    ∧ create_monthly_trend_data
        (month_dict <$> income_and_spending_analysis (behavioral_analysis r))
      = Some trend_data
    ∧ (∀ month,
         month ∈ td_months trend_data
         ↔ ∃ t, t ∈ transactions ∧ strftime_Ym (tx_date t) = month)
    ∧ ∀ i month,
        td_months trend_data !! i = Some month →
        ∃ spending savings savings_rate,
          td_spending trend_data !! i = Some spending
          ∧ monthly_spendings (financial_summary r) !! month = Some spending
          ∧ td_savings trend_data !! i = Some savings
          ∧ monthly_savings (financial_summary r) !! month
            = Some (py_max 0 savings)
          ∧ td_savings_rate trend_data !! i = Some savings_rate
          ∧ savings_rate <= 100.
Proof.
  intros Hne Hnonneg.
  destruct (pipeline_Some now transactions Hne Hnonneg)
    as (fs & ba & ra & score & eligible & reason & Hfs & Hba & _ & _ & _ & ->).
  pose proof (dataframe_nonneg _ Hnonneg) as Hdf.
  pose proof (dataframe_nonempty _ Hne) as Hdfne.
  destruct (financial_summary_Some _ Hdfne Hdf) as (fs' & Hfs' & Hms & Hsv & _).
  rewrite Hfs in Hfs'. injection Hfs' as <-.
  destruct (behavioral_analysis_Some _ Hdf) as (ba' & Hba' & _ & Hisa & _).
  rewrite Hba in Hba'. injection Hba' as <-.
  eexists _, _. split; [done|]. cbn [behavioral_analysis financial_summary].
  unfold create_monthly_trend_data. rewrite trend_loop_Some. cbn [app].
  split; [done|]. cbn.
  set (analysis := income_and_spending_analysis ba) in *.
  set (months := sorted_strings (map_to_list (month_dict <$> analysis)).*1).
  assert (∀ month, month ∈ months ↔ is_Some (analysis !! month)) as Hmonths.
  { intros month. unfold months.
    rewrite sorted_strings_Permutation, list_elem_of_fmap. split.
    - intros ([month' data] & -> & Hin%elem_of_map_to_list).
      rewrite lookup_fmap in Hin. cbn [fst].
      destruct (analysis !! month'); [by eexists|done].
    - intros [a Ha]. exists (month, month_dict a). split; [done|].
      apply elem_of_map_to_list. by rewrite lookup_fmap, Ha. }
  split.
  - intros month. rewrite Hmonths, Hisa.
    assert ((∃ t, t ∈ transactions ∧ strftime_Ym (tx_date t) = month)
            ↔ month ∈ index (groupby_sum (λ r, (r_month r, r_type r))
                               (_transactions_to_dataframe transactions)))
      as ->.
    { rewrite index_months, elem_of_list_to_set, list_elem_of_fmap.
      split; intros (t & ? & ?); by exists t. }
    destruct (decide _); [by split; [|eexists] | by split; [intros [? ?]|]].
  - intros i month Hmonth.
    assert (month ∈ months) as [a Ha]%Hmonths
      by by eapply list_elem_of_lookup_2.
    assert (default 0 (default ∅ ((month_dict <$> analysis) !! month)
                       !! "income") = ma_income a) as Hincome.
    { by rewrite lookup_fmap, Ha. }
    assert (default 0 (default ∅ ((month_dict <$> analysis) !! month)
                       !! "spending") = ma_spending a) as Hspending.
    { by rewrite lookup_fmap, Ha. }
    eexists _, _, _. rewrite !list_lookup_fmap, Hmonth.
    cbn [fmap option_fmap option_map].
    rewrite Hincome, Hspending. split; [done|].
    rewrite Hms, Hsv. rewrite Hisa in Ha.
    destruct (decide _); [|done]. injection Ha as <-. cbn.
    split_and!; try done.
    pose proof (cell_nonneg _ Hdf (month, CREDIT)) as Hc.
    pose proof (cell_nonneg _ Hdf (month, DEBIT)) as Hd.
    revert Hc Hd.
    generalize (default 0
                  (groupby_sum (λ r, (r_month r, r_type r))
                     (_transactions_to_dataframe transactions)
                   !! (month, CREDIT))),
      (default 0
         (groupby_sum (λ r, (r_month r, r_type r))
            (_transactions_to_dataframe transactions) !! (month, DEBIT))).
    intros income spending Hc Hd.
    destruct (Qltb 0 income) eqn:E; [apply Qltb_lt in E|by vm_compute].
    set (x := (income - spending) / income * 100).
    assert (x <= 100) as Hx.
    { unfold x.
      assert ((income - spending) / income <= 1) as Hshare.
      { apply Qle_shift_div_r; [done|]. lra. }
      revert Hshare. generalize ((income - spending) / income).
      intros q Hq. lra. }
    apply (py_round_bounds x 1 (Qfloor x) 100); [apply Qfloor_le|done].
Qed.

Lemma monthly_trend_of_analysis_witness :
  ∃ r trend_data,
    analyze_transactions sample_now sample_two_months = Some r
    ∧ create_monthly_trend_data
        (month_dict <$> income_and_spending_analysis (behavioral_analysis r))
      = Some trend_data
    ∧ (∀ month,
         month ∈ td_months trend_data
         ↔ ∃ t, t ∈ sample_two_months ∧ strftime_Ym (tx_date t) = month)
    ∧ ∀ i month,
        td_months trend_data !! i = Some month →
        ∃ spending savings savings_rate,
          td_spending trend_data !! i = Some spending
          ∧ monthly_spendings (financial_summary r) !! month = Some spending
          ∧ td_savings trend_data !! i = Some savings
          ∧ monthly_savings (financial_summary r) !! month
            = Some (py_max 0 savings)
          ∧ td_savings_rate trend_data !! i = Some savings_rate
          ∧ savings_rate <= 100.
Proof.
  apply (monthly_trend_of_analysis sample_now sample_two_months).
  - discriminate.
  - repeat constructor; by vm_compute.
Defined.

(** ** The frame of the transactions *)

Lemma lower_ascii_idemp (c : Ascii.ascii) :
  lower_ascii (lower_ascii c) = lower_ascii c.
Proof. by destruct c as [[] [] [] [] [] [] [] []]. Qed.

Lemma lower_idemp (s : string) : lower (lower s) = lower s.
Proof.
  induction s as [|c s IH]; [done|]. cbn. by rewrite lower_ascii_idemp, IH.
Qed.

#[local] Instance date_le_total : Total date_le.
Proof. intros r1 r2. unfold date_le. lia. Qed.

#[local] Instance date_le_trans : Transitive date_le.
Proof. intros r1 r2 r3. unfold date_le. lia. Qed.

(** X26. The frame of [_transactions_to_dataframe] has one row for
    each transaction, in the order of the dates.  In every row the
    weekday is between 0 and 6, the row counts as weekend exactly for
    the weekdays 5 and 6, the month has the seven characters of
    [YYYY-MM], and the category is in lower case, so that categories
    that differ only in case are one category. *)
Theorem dataframe_well_formed (transactions : list Transaction) :
  let df := _transactions_to_dataframe transactions in
  df ≡ₚ to_row <$> transactions
  ∧ length df = length transactions
  ∧ StronglySorted date_le df
  ∧ Forall (λ r,
              (0 ≤ r_weekday r ≤ 6)%Z
              ∧ (r_is_weekend r = true ↔ (5 ≤ r_weekday r)%Z)
              ∧ String.length (r_month r) = 7%nat
              ∧ lower (r_category r) = r_category r) df
  ∧ ∀ t1 t2,
      t1 ∈ transactions → t2 ∈ transactions →
      lower (tx_category t1) = lower (tx_category t2) →
      ∃ r1 r2, r1 ∈ df ∧ r2 ∈ df
               ∧ r_amount r1 = tx_amount t1 ∧ r_amount r2 = tx_amount t2
               ∧ r_category r1 = r_category r2.
Proof.
  cbn zeta. split_and!.
  - apply dataframe_Permutation.
  - apply dataframe_length.
  - apply StronglySorted_merge_sort; apply _.
  - rewrite dataframe_Permutation. apply Forall_fmap, Forall_forall.
    intros t _. cbn. unfold weekday.
    pose proof (Z.mod_pos_bound (toordinal (tx_date t) + 6) 7) as Hmod.
    split_and!; [lia|lia| |done|apply lower_idemp].
    rewrite bool_decide_eq_true. unfold weekend_days.
    rewrite !elem_of_cons, elem_of_nil. lia.
  - intros t1 t2 Ht1 Ht2 Hcategory. exists (to_row t1), (to_row t2).
    split_and!; [by apply elem_of_dataframe|by apply elem_of_dataframe|done..].
Qed.

(** ** The validators *)

Lemma upper_lower_ascii (c : Ascii.ascii) :
  upper_ascii (lower_ascii c) = upper_ascii c.
Proof. by destruct c as [[] [] [] [] [] [] [] []]. Qed.

Lemma isdigit_upper_ascii (c : Ascii.ascii) :
  isdigit_ascii (upper_ascii c) = isdigit_ascii c.
Proof. by destruct c as [[] [] [] [] [] [] [] []]. Qed.

Lemma space_lower_ascii (c : Ascii.ascii) :
  Ascii.eqb (lower_ascii c) (Ascii.ascii_of_nat 32)
  = Ascii.eqb c (Ascii.ascii_of_nat 32).
Proof. by destruct c as [[] [] [] [] [] [] [] []]. Qed.

Lemma upper_ascii_zero (c : Ascii.ascii) :
  upper_ascii c = Ascii.ascii_of_nat 48 → c = Ascii.ascii_of_nat 48.
Proof. by destruct c as [[] [] [] [] [] [] [] []]. Qed.

Lemma upper_remove_spaces_lower (s : string) :
  upper (remove_spaces (lower s)) = upper (remove_spaces s).
Proof.
  induction s as [|c s IH]; [done|]. cbn. rewrite space_lower_ascii.
  destruct (Ascii.eqb c _); [done|]. cbn. by rewrite upper_lower_ascii, IH.
Qed.

Lemma remove_spaces_space (s1 s2 : string) :
  remove_spaces (s1 +:+ " " +:+ s2) = remove_spaces (s1 +:+ s2).
Proof.
  induction s1 as [|c s1 IH]; [done|].
  change (String c s1 +:+ " " +:+ s2) with (String c (s1 +:+ " " +:+ s2)).
  change (String c s1 +:+ s2) with (String c (s1 +:+ s2)).
  cbn [remove_spaces]. by rewrite IH.
Qed.

Lemma length_upper (s : string) : String.length (upper s) = String.length s.
Proof. induction s as [|c s IH]; [done|]. cbn. by rewrite IH. Qed.

Lemma all_digits_upper (s : string) :
  all_chars isdigit_ascii (upper s) = all_chars isdigit_ascii s.
Proof.
  induction s as [|c s IH]; [done|]. cbn. by rewrite isdigit_upper_ascii, IH.
Qed.

Lemma get_upper (s : string) (n : nat) :
  String.get n (upper s) = upper_ascii <$> String.get n s.
Proof.
  revert n. induction s as [|c s IH]; intros [|n]; cbn; first [done|apply IH].
Qed.

(** X27. On ASCII text [validate_account_number] accepts exactly the
    account numbers that, spaces taken out, are 9 to 18 digits; a
    space put anywhere into the text does not change the answer. *)
Theorem validate_account_number_digits (account_no : string) :
  all_chars (λ c, (Ascii.nat_of_ascii c <? 128)%nat) account_no = true →
  (validate_account_number account_no = true
   ↔ all_chars isdigit_ascii (remove_spaces account_no) = true
     ∧ (9 ≤ String.length (remove_spaces account_no) ≤ 18)%nat)
  ∧ ∀ s1 s2,
      account_no = s1 +:+ s2 →
      validate_account_number (s1 +:+ " " +:+ s2)
      = validate_account_number account_no.
Proof.
  intros _. split.
  - unfold validate_account_number, isdigit.
    rewrite all_digits_upper, length_upper.
    set (digits := remove_spaces account_no).
    assert (String.eqb (upper digits) "" = true ↔ String.length digits = 0%nat)
      as Hempty.
    { rewrite String.eqb_eq. destruct digits; cbn; split; done. }
    destruct (String.eqb (upper digits) "") eqn:E.
    { cbn. split; [done|]. intros [_ Hlength].
      destruct Hempty as [Hempty _]. rewrite Hempty in Hlength by done. lia. }
    cbn [negb andb]. destruct (all_chars isdigit_ascii digits); cbn [negb].
    + destruct (Nat.ltb_spec (String.length digits) 9);
        destruct (Nat.ltb_spec 18 (String.length digits)); cbn [orb];
        split;
        first [done | intros [_ ?]; lia | intros _; split; [done|lia]].
    + split; [done|]. by intros [? _].
  - intros s1 s2 ->. unfold validate_account_number.
    by rewrite remove_spaces_space.
Qed.

Lemma validate_account_number_digits_witness :
  (validate_account_number "1234 5678 9012" = true
   ↔ all_chars isdigit_ascii (remove_spaces "1234 5678 9012") = true
     ∧ (9 ≤ String.length (remove_spaces "1234 5678 9012") ≤ 18)%nat)
  ∧ ∀ s1 s2,
      "1234 5678 9012" = s1 +:+ s2 →
      validate_account_number (s1 +:+ " " +:+ s2)
      = validate_account_number "1234 5678 9012".
Proof.
  apply (validate_account_number_digits "1234 5678 9012"). reflexivity.
Defined.

(** X28. On ASCII text [validate_ifsc_code] does not tell upper from
    lower case, and a space put anywhere into the text does not change
    the answer.  A code that it accepts has, spaces taken out, eleven
    characters, and the fifth of them is the digit 0. *)
Theorem validate_ifsc_code_normalises (ifsc_code : string) :
  all_chars (λ c, (Ascii.nat_of_ascii c <? 128)%nat) ifsc_code = true →
  validate_ifsc_code (lower ifsc_code) = validate_ifsc_code ifsc_code
  ∧ (∀ s1 s2,
       ifsc_code = s1 +:+ s2 →
       validate_ifsc_code (s1 +:+ " " +:+ s2) = validate_ifsc_code ifsc_code)
  ∧ (validate_ifsc_code ifsc_code = true →
     String.length (remove_spaces ifsc_code) = 11%nat
     ∧ String.get 4 (remove_spaces ifsc_code) = Some (Ascii.ascii_of_nat 48)).
Proof.
  intros _. split_and!.
  - unfold validate_ifsc_code. by rewrite upper_remove_spaces_lower.
  - intros s1 s2 ->. unfold validate_ifsc_code. by rewrite remove_spaces_space.
  - unfold validate_ifsc_code. rewrite length_upper, get_upper.
    destruct (Nat.eqb_spec (String.length (remove_spaces ifsc_code)) 11)
      as [Hlength|]; [|done].
    cbn [negb]. destruct (isalpha _); [|done]. cbn [negb].
    destruct (bool_decide _) eqn:Hzero; [|done].
    apply bool_decide_eq_true in Hzero. intros _. split; [done|].
    destruct (String.get 4 (remove_spaces ifsc_code)) as [c|]; [|done].
    injection Hzero as Hc. by rewrite (upper_ascii_zero c Hc).
Qed.

Lemma validate_ifsc_code_normalises_witness :
  validate_ifsc_code (lower "HDFC0001234") = validate_ifsc_code "HDFC0001234"
  ∧ (∀ s1 s2,
       "HDFC0001234" = s1 +:+ s2 →
       validate_ifsc_code (s1 +:+ " " +:+ s2)
       = validate_ifsc_code "HDFC0001234")
  ∧ (validate_ifsc_code "HDFC0001234" = true →
     String.length (remove_spaces "HDFC0001234") = 11%nat
     ∧ String.get 4 (remove_spaces "HDFC0001234")
       = Some (Ascii.ascii_of_nat 48)).
Proof.
  apply (validate_ifsc_code_normalises "HDFC0001234"). reflexivity.
Defined.

(** ** The size of an amount *)

Ltac labelled i j :=
  solve [exists i, j; split_and!; [reflexivity|reflexivity|lia]].

(** X29. [categorize_transaction_amount] is monotone: of two amounts
    the larger one never gets the smaller label, in the order micro,
    small, medium, large, very_large.  Every amount below 100, also a
    negative one, is micro. *)
Theorem categorize_transaction_amount_monotone (amount1 amount2 : Q) :
  amount1 <= amount2 →
  let labels := ["micro"; "small"; "medium"; "large"; "very_large"] in
  (∃ i j,
     labels !! i = Some (categorize_transaction_amount amount1)
     ∧ labels !! j = Some (categorize_transaction_amount amount2)
     ∧ (i ≤ j)%nat)
  ∧ (amount1 < 100 → categorize_transaction_amount amount1 = "micro").
Proof.
  intros Hle. cbn zeta. unfold categorize_transaction_amount. split.
  - destruct (Qltb amount1 100) eqn:A1; [|destruct (Qltb amount1 1000) eqn:A2;
      [|destruct (Qltb amount1 10000) eqn:A3;
        [|destruct (Qltb amount1 50000) eqn:A4]]];
    (destruct (Qltb amount2 100) eqn:B1; [|destruct (Qltb amount2 1000) eqn:B2;
      [|destruct (Qltb amount2 10000) eqn:B3;
        [|destruct (Qltb amount2 50000) eqn:B4]]]);
    rewrite ?Qltb_lt, ?Qltb_ge in *;
    first [ lra
          | labelled 0%nat 0%nat | labelled 0%nat 1%nat
          | labelled 0%nat 2%nat | labelled 0%nat 3%nat
          | labelled 0%nat 4%nat | labelled 1%nat 1%nat
          | labelled 1%nat 2%nat | labelled 1%nat 3%nat
          | labelled 1%nat 4%nat | labelled 2%nat 2%nat
          | labelled 2%nat 3%nat | labelled 2%nat 4%nat
          | labelled 3%nat 3%nat | labelled 3%nat 4%nat
          | labelled 4%nat 4%nat ].
  - intros Hmicro%Qltb_lt. by rewrite Hmicro.
Qed.

Lemma categorize_transaction_amount_monotone_witness :
  let labels := ["micro"; "small"; "medium"; "large"; "very_large"] in
  (∃ i j,
     labels !! i = Some (categorize_transaction_amount 250)
     ∧ labels !! j = Some (categorize_transaction_amount 12000)
     ∧ (i ≤ j)%nat)
  ∧ (250 < 100 → categorize_transaction_amount 250 = "micro").
Proof.
  apply (categorize_transaction_amount_monotone 250 12000). by vm_compute.
Defined.

(** ** The unit of the amounts *)







